(** * fitness-tracker-api: a shallow embedding of the activity and user code

    The development follows the layout of the repository:
    - [Dates]: the calendar dates of Python's [datetime.date] that the
      models, filters and derived fields use, and the [datetime.datetime]
      of [timezone.now()];
    - [PyStr]: the string methods the fields and managers call;
    - [PyFloat]: binary64 arithmetic and Python's [round(x, 2)];
    - [Activity]: [activities/models.py];
    - [Drf]: the part of Django REST framework's serializer and generic
      view pipeline the views rely on;
    - [ActivitySerializer], [ActivityCreateSerializer]:
      [activities/serializers.py];
    - [ActivityDetailView], [Metrics]: [activities/views.py];
    - [UserProfile], [UserRegistrationSerializer], [UserRegistrationView]:
      [users/models.py], [users/serializers.py], [users/views.py].

    Conventions.  A [DecimalField(decimal_places=2)] value is kept as its
    integer number of hundredths.  A [str] is the list of its characters,
    which are taken from the first 256 code points, so that
    [String.length] is [len].  The current day ([timezone.now().date()],
    [date.today()]) and the authenticated user ([request.user]) are explicit
    arguments.  The tables of the database are lists of rows; their
    aggregates are computed as SQLite, the database of a fresh Django
    project, computes them, on integers within its 64 bits. *)

From Stdlib Require Import ZArith Floats Uint63 QArith Qabs Lia.
From stdpp Require Import base option list sorting strings gmap pretty.

Local Open Scope Z_scope.

(* ===================================================================== *)
(** ** Calendar dates *)
(* ===================================================================== *)

Module Dates.

(** A [datetime.date]: proleptic Gregorian year, month and day. *)
Record date := Date { year : Z; month : Z; day : Z }.

#[global] Instance date_eq_dec : EqDecision date.
Proof. solve_decision. Defined.

Definition is_leap (y : Z) : bool :=
  (y mod 4 =? 0) && (negb (y mod 100 =? 0) || (y mod 400 =? 0)).

Definition days_in_month (y m : Z) : Z :=
  if (m =? 2) && is_leap y then 29
  else nth (Z.to_nat m) [0; 31; 28; 31; 30; 31; 30; 31; 31; 30; 31; 30; 31] 0.

Definition days_before_year (y : Z) : Z :=
  let p := y - 1 in p * 365 + p / 4 - p / 100 + p / 400.

Definition days_before_month (y m : Z) : Z :=
  nth (Z.to_nat m) [0; 0; 31; 59; 90; 120; 151; 181; 212; 243; 273; 304; 334] 0
  + (if (2 <? m) && is_leap y then 1 else 0).

(** [date.toordinal()]: 0001-01-01 is day 1. *)
Definition toordinal (d : date) : Z :=
  days_before_year (year d) + days_before_month (year d) (month d) + day d.

(** [date.fromordinal(n)], as [_ord2ymd] computes it: 400-, 100-, 4- and
    1-year cycles, then a month estimate that is stepped back when it
    overshoots. *)
Definition fromordinal (n : Z) : date :=
  let n0 := n - 1 in
  let n400 := n0 / 146097 in
  let r400 := n0 mod 146097 in
  let n100 := r400 / 36524 in
  let r100 := r400 mod 36524 in
  let n4 := r100 / 1461 in
  let r4 := r100 mod 1461 in
  let n1 := r4 / 365 in
  let r1 := r4 mod 365 in
  let y := n400 * 400 + 1 + n100 * 100 + n4 * 4 + n1 in
  if (n1 =? 4) || (n100 =? 4) then Date (y - 1) 12 31
  else
    let m := (r1 + 50) / 32 in
    let preceding := days_before_month y m in
    if r1 <? preceding
    then Date y (m - 1) (r1 - (preceding - days_in_month y (m - 1)) + 1)
    else Date y m (r1 - preceding + 1).

(** [d - timedelta(days=k)] *)
Definition minus_days (d : date) (k : Z) : date :=
  fromordinal (toordinal d - k).

(** Python compares tuples by their first differing component. *)
Definition pair_ltb (a b : Z * Z) : bool :=
  if a.1 =? b.1 then a.2 <? b.2 else a.1 <? b.1.

(** Dates compare as [(year, month, day)] triples. *)
Definition ltb (a b : date) : bool :=
  if year a =? year b then pair_ltb (month a, day a) (month b, day b)
  else year a <? year b.

Definition leb (a b : date) : bool := negb (ltb b a).

(** Decimal digits of a natural number, least significant first, with
    [fuel] bounding the number of digits. *)
Fixpoint digits_rev (fuel : nat) (n : Z) : list Z :=
  match fuel with
  | O => []
  | S f => if n <? 10 then [n] else (n mod 10) :: digits_rev f (n / 10)
  end.

Definition digit_char (d : Z) : Ascii.ascii :=
  Ascii.ascii_of_nat (48 + Z.to_nat d).

(** ["%0<width>d" % n] for [0 <= n]. *)
Definition zero_pad (width : nat) (n : Z) : string :=
  let ds := reverse (digits_rev 20 n) in
  let pad := replicate (width - length ds) 0 in
  String.string_of_list_ascii (digit_char <$> (pad ++ ds)).

(** [str(d)], i.e. [d.isoformat()]: ["%04d-%02d-%02d"]. *)
Definition isoformat (d : date) : string :=
  zero_pad 4 (year d) +:+ "-" +:+ zero_pad 2 (month d) +:+ "-"
    +:+ zero_pad 2 (day d).

(** A [datetime.datetime] as [timezone.now()] returns it: the moment in
    UTC, aware of its zone when [USE_TZ] is on ([utc]) and naive when it
    is off. *)
Record datetime := Datetime {
  dt_date : date;
  hour : Z;
  minute : Z;
  second : Z;
  microsecond : Z;
  utc : bool
}.

(** [str(dt)], i.e. [dt.isoformat(sep=' ')]: the microseconds are left
    out when they are zero, the offset when the value is naive. *)
Definition str_datetime (dt : datetime) : string :=
  isoformat (dt_date dt) +:+ " " +:+ zero_pad 2 (hour dt) +:+ ":"
    +:+ zero_pad 2 (minute dt) +:+ ":" +:+ zero_pad 2 (second dt)
    +:+ (if microsecond dt =? 0 then "" else "." +:+ zero_pad 6 (microsecond dt))
    +:+ (if utc dt then "+00:00" else "").

End Dates.

Export Dates(date, Date).

(* ===================================================================== *)
(** ** Python strings *)
(* ===================================================================== *)

Module PyStr.

Definition ord (c : Ascii.ascii) : N := Ascii.N_of_ascii c.

(** [c.isspace()] on the first 256 code points: the controls 9-13 and
    28-31, the space, NEL (133) and the no-break space (160). *)
Definition isspace (c : Ascii.ascii) : bool :=
  let n := ord c in
  ((9 <=? n) && (n <=? 13) || (28 <=? n) && (n <=? 32)
   || (n =? 133) || (n =? 160))%N.

(** [s.lstrip()] *)
Fixpoint lstrip (s : string) : string :=
  match s with
  | EmptyString => EmptyString
  | String c s' => if isspace c then lstrip s' else s
  end.

(** [s.rstrip()] *)
Definition rstrip (s : string) : string :=
  String.rev (lstrip (String.rev s)).

(** [s.strip()] *)
Definition strip (s : string) : string := rstrip (lstrip s).

(** [c.lower()] on the first 256 code points: A-Z and the capital
    letters 192-214 and 216-222 move up by 32. *)
Definition lower_char (c : Ascii.ascii) : Ascii.ascii :=
  let n := ord c in
  if ((65 <=? n) && (n <=? 90) || (192 <=? n) && (n <=? 214)
      || (216 <=? n) && (n <=? 222))%N
  then Ascii.ascii_of_N (n + 32)
  else c.

(** [s.lower()] *)
Fixpoint lower (s : string) : string :=
  match s with
  | EmptyString => EmptyString
  | String c s' => String (lower_char c) (lower s')
  end.

(** ['\x00' in s] *)
Fixpoint has_null (s : string) : bool :=
  match s with
  | EmptyString => false
  | String c s' => (ord c =? 0)%N || has_null s'
  end.

(** [s.rsplit(sep, 1)] for a separator of one character: the text before
    and after the last [sep], or [None] when there is none. *)
Fixpoint rsplit1 (sep : Ascii.ascii) (s : string) : option (string * string) :=
  match s with
  | EmptyString => None
  | String c s' =>
      match rsplit1 sep s' with
      | Some (before, after) => Some (String c before, after)
      | None => if Ascii.eqb c sep then Some (EmptyString, s') else None
      end
  end.

(** [str(n)] for an [int]. *)
Definition of_int (n : Z) : string := pretty n.

(** The character of the at sign. *)
Definition at_sign : Ascii.ascii := Ascii.ascii_of_N 64.

End PyStr.

(* ===================================================================== *)
(** ** Python floats *)
(* ===================================================================== *)

Module PyFloat.

(** An integer as a binary number with exponent 0. *)
Definition sf_of_Z (n : Z) : spec_float :=
  match n with
  | Z0 => S754_zero false
  | Zpos p => S754_finite false p 0
  | Zneg p => S754_finite true p 0
  end.

(** The binary64 number nearest to [n / d] ([0 < d]), the one with the
    even mantissa when two are equally near: the IEEE division carried
    out on the two integers.  This is [n / d] for two [int]s, and
    [float(s)] for the decimal notation [s] of [n / d]. *)
Definition of_ratio (n d : Z) : float :=
  SF2Prim (SFdiv prec emax (sf_of_Z n) (sf_of_Z d)).

(** [float(n)] for an [int]: the nearest binary64 number.  (From 2^1024
    on Python raises [OverflowError]; such integers are left out.) *)
Definition of_Z (n : Z) : float :=
  SF2Prim (binary_normalize prec emax n 0 false).

(** [float(d)] for a [Decimal] with two decimal places, given as its
    number of hundredths. *)
Definition of_decimal (cents : Z) : float := of_ratio cents 100.

(** The integer nearest to [n / d] ([0 < d]), ties to the even one. *)
Definition round_half_even_div (n d : Z) : Z :=
  let q := n / d in
  let r := n mod d in
  if 2 * r <? d then q
  else if d <? 2 * r then q + 1
  else if Z.even q then q else q + 1.

(** The hundredths of [m * 2^e] rounded to two decimal places. *)
Definition hundredths (m : positive) (e : Z) : Z :=
  if 0 <=? e then Z.pos m * 2 ^ e * 100
  else round_half_even_div (Z.pos m * 100) (2 ^ (- e)).

(** [round(x, 2)] on a float: the exact binary value of [x] is rounded
    half-even to two decimal places and the decimal result is converted
    back to the nearest float.  Zeros, infinities and NaN are returned
    as they are. *)
Definition round2 (x : float) : float :=
  match Prim2SF x with
  | S754_finite s m e =>
      let y := of_ratio (hundredths m e) 100 in
      if s then PrimFloat.opp y else y
  | _ => x
  end.

(** The exact value of the finite float with mantissa [m] and exponent
    [e]. *)
Definition exact (m : positive) (e : Z) : Q :=
  if 0 <=? e then inject_Z (Z.pos m * 2 ^ e)
  else Qmake (Z.pos m) (Z.to_pos (2 ^ (- e))).

(** [k] is the integer nearest to [x], and the even one when two
    integers are equally near. *)
Definition nearest_even (x : Q) (k : Z) : Prop :=
  (Qabs (x - inject_Z k) <= 1 # 2)%Q
  ∧ ((Qabs (x - inject_Z k) == 1 # 2)%Q → Z.even k = true).

(** What rounding to two decimal places asks of the result [y] for the
    float [x]: the hundredths of [y] are the integer nearest to a hundred
    times the exact value of [x], the even one of two, [y] is the float
    nearest to that decimal number, and it has the sign of [x]. *)
Definition rounded2 (x y : float) : Prop :=
  match Prim2SF x with
  | S754_finite s m e =>
      ∃ k, nearest_even (100 * exact m e) k
           ∧ y = if s then PrimFloat.opp (of_ratio k 100) else of_ratio k 100
  | _ => y = x
  end.

(** What rounding to two decimal places asks of the number [k] of
    hundredths of the result, for a float [x] that is finite. *)
Definition rounds_to_hundredths (x : float) (k : Z) : Prop :=
  match Prim2SF x with
  | S754_finite s m e =>
      ∃ k0, nearest_even (100 * exact m e) k0 ∧ k = if s then - k0 else k0
  | S754_zero _ => k = 0
  | _ => True
  end.

(** The number of hundredths of [round(x, 2)], which is what a
    [DecimalField] of two places makes of it ([Decimal(str(y))],
    quantized); 0 for a value that is not finite, which no sum of 64-bit
    integers produces. *)
Definition round2_hundredths (x : float) : Z :=
  match Prim2SF x with
  | S754_finite s m e => if s then - hundredths m e else hundredths m e
  | _ => 0
  end.

End PyFloat.

(* ===================================================================== *)
(** ** Python values *)
(* ===================================================================== *)

(** The values that travel in request bodies, [attrs] and
    [validated_data] dictionaries. *)
Inductive Value :=
| VNull
| VInt (n : Z)
| VDecimal (cents : Z)
| VStr (s : string)
| VDate (d : date).

#[global] Instance Value_eq_dec : EqDecision Value.
Proof. solve_decision. Defined.

(** Truthiness of the operand of [if], [and], [or] and [not]. *)
Definition truthy (v : Value) : bool :=
  match v with
  | VNull => false
  | VInt n => negb (n =? 0)
  | VDecimal c => negb (c =? 0)
  | VStr s => negb (String.eqb s "")
  | VDate _ => true
  end.

(** An optional attribute as a value: [None] is Python's [None]. *)
Definition int_value (o : option Z) : Value := from_option VInt VNull o.
Definition decimal_value (o : option Z) : Value := from_option VDecimal VNull o.

(** A [dict] with string keys. *)
Abbreviation Dict := (gmap string Value).

(** [d.get(k)]: [None] when the key is missing. *)
Definition dict_get (d : Dict) (k : string) : Value := default VNull (d !! k).

(* ===================================================================== *)
(** ** Python exceptions *)
(* ===================================================================== *)

(** The outcome of code that may raise: a value, or the exception that
    leaves the view unhandled (a server error, with nothing written). *)
Inductive PyResult (A : Type) :=
| Returns (a : A)
| Raises (exc : string).
Arguments Returns {A} a.
Arguments Raises {A} exc.

(* ===================================================================== *)
(** ** activities/models.py *)
(* ===================================================================== *)

Module Activity.

Definition ACTIVITY_TYPE_CHOICES : list (string * string) :=
  [ ("RUNNING", "Running"); ("CYCLING", "Cycling"); ("SWIMMING", "Swimming");
    ("WALKING", "Walking"); ("WEIGHTLIFTING", "Weightlifting");
    ("YOGA", "Yoga"); ("HIIT", "HIIT"); ("CROSSFIT", "CrossFit");
    ("BOXING", "Boxing"); ("ROWING", "Rowing"); ("PILATES", "Pilates");
    ("DANCING", "Dancing"); ("HIKING", "Hiking");
    ("BASKETBALL", "Basketball"); ("FOOTBALL", "Football");
    ("TENNIS", "Tennis"); ("GOLF", "Golf"); ("OTHER", "Other") ]%string.

Definition INTENSITY_CHOICES : list (string * string) :=
  [ ("LOW", "Low"); ("MODERATE", "Moderate"); ("HIGH", "High");
    ("EXTREME", "Extreme") ]%string.

(** A row of the [activities] table, also the in-memory model instance.
    [id] is [None] until the first save; [user] is the owner's primary
    key.  [start_time], [created_at] and [updated_at] take no part in
    what follows and are left out. *)
Record t := Make {
  id : option Z;
  user : Z;
  activity_type : string;
  title : string;
  description : string;
  duration : Z;
  distance : option Z;
  calories_burned : option Z;
  intensity : string;
  date : Dates.date;
  average_heart_rate : option Z;
  max_heart_rate : option Z;
  elevation_gain : option Z;
  location : string
}.

#[global] Instance t_eq_dec : EqDecision t.
Proof. solve_decision. Defined.

Definition with_id (pk : option Z) (a : t) : t :=
  Make pk (user a) (activity_type a) (title a) (description a) (duration a)
    (distance a) (calories_burned a) (intensity a) (date a)
    (average_heart_rate a) (max_heart_rate a) (elevation_gain a)
    (location a).

Definition with_title (s : string) (a : t) : t :=
  Make (id a) (user a) (activity_type a) s (description a) (duration a)
    (distance a) (calories_burned a) (intensity a) (date a)
    (average_heart_rate a) (max_heart_rate a) (elevation_gain a)
    (location a).

(** [get_FOO_display()]: the label of the stored value, or the value
    itself when it is not one of the choices. *)
Definition get_display (choices : list (string * string)) (v : string)
  : string :=
  match List.find (λ c, String.eqb c.1 v) choices with
  | Some c => c.2
  | None => v
  end.

Definition get_activity_type_display (self : t) : string :=
  get_display ACTIVITY_TYPE_CHOICES (activity_type self).

Definition get_intensity_display (self : t) : string :=
  get_display INTENSITY_CHOICES (intensity self).

(** [if self.distance and self.distance > 0:
       return round(self.duration / float(self.distance), 2)] *)
Definition pace (self : t) : option float :=
  match distance self with
  | Some d =>
      if truthy (VDecimal d) && (0 <? d)
      then Some (PyFloat.round2
                   (PrimFloat.div (PyFloat.of_Z (duration self))
                                  (PyFloat.of_decimal d)))
      else None
  | None => None
  end.

(** [if self.distance and self.duration > 0:
       hours = self.duration / 60
       return round(float(self.distance) / hours, 2)]
    The quotient of the two [int]s is rounded once. *)
Definition speed (self : t) : option float :=
  match distance self with
  | Some d =>
      if truthy (VDecimal d) && (0 <? duration self)
      then
        let hours := PyFloat.of_ratio (duration self) 60 in
        Some (PyFloat.round2 (PrimFloat.div (PyFloat.of_decimal d) hours))
      else None
  | None => None
  end.

(** [setattr(self, name, value)] for the writable columns, with the value
    a serializer field of that column produces. *)
Definition setattr (self : t) (name : string) (v : Value) : t :=
  let 'Make i u ty ti de du di ca it da ah mh el lo := self in
  let opt (old : option Z) : option Z :=
    match v with
    | VNull => None
    | VInt n => Some n
    | VDecimal c => Some c
    | _ => old
    end in
  let str (old : string) : string :=
    match v with VStr x => x | _ => old end in
  if String.eqb name "activity_type" then
    Make i u (str ty) ti de du di ca it da ah mh el lo
  else if String.eqb name "title" then
    Make i u ty (str ti) de du di ca it da ah mh el lo
  else if String.eqb name "description" then
    Make i u ty ti (str de) du di ca it da ah mh el lo
  else if String.eqb name "duration" then
    Make i u ty ti de (match v with VInt n => n | _ => du end)
      di ca it da ah mh el lo
  else if String.eqb name "distance" then
    Make i u ty ti de du (opt di) ca it da ah mh el lo
  else if String.eqb name "calories_burned" then
    Make i u ty ti de du di (opt ca) it da ah mh el lo
  else if String.eqb name "intensity" then
    Make i u ty ti de du di ca (str it) da ah mh el lo
  else if String.eqb name "date" then
    Make i u ty ti de du di ca it (match v with VDate d => d | _ => da end)
      ah mh el lo
  else if String.eqb name "average_heart_rate" then
    Make i u ty ti de du di ca it da (opt ah) mh el lo
  else if String.eqb name "max_heart_rate" then
    Make i u ty ti de du di ca it da ah (opt mh) el lo
  else if String.eqb name "elevation_gain" then
    Make i u ty ti de du di ca it da ah mh (opt el) lo
  else if String.eqb name "location" then
    Make i u ty ti de du di ca it da ah mh el (str lo)
  else self.

(** The table: one row per saved activity. *)
Abbreviation table := (list t).

(** The next value of the auto-increment primary key. *)
Definition next_pk (db : table) : Z :=
  1 + foldr (λ a m, Z.max (default 0 (id a)) m) 0 db.

(** [models.Model.save]: UPDATE the row with this primary key when there
    is one, INSERT otherwise (drawing a fresh key when [pk] is unset).
    Returns the instance as saved and the new table. *)
Definition Model_save (self : t) (db : table) : t * table :=
  match id self with
  | Some pk =>
      if existsb (λ r, bool_decide (id r = Some pk)) db
      then (self, (λ r, if bool_decide (id r = Some pk) then self else r) <$> db)
      else (self, db ++ [self])
  | None =>
      let self' := with_id (Some (next_pk db)) self in
      (self', db ++ [self'])
  end.

(** [str(self.date)].  An instance that was loaded, or whose date a
    [DateField] of a serializer or form has produced, holds a
    [datetime.date].  An instance that was built without a date still
    holds what [default=timezone.now] returned, a [datetime.datetime]:
    [default_now] is that value, and the column [date] is the calendar
    date [DateField.to_python] makes of it when the row is written. *)
Definition str_date (default_now : option Dates.datetime) (self : t)
  : string :=
  match default_now with
  | Some now => Dates.str_datetime now
  | None => Dates.isoformat (date self)
  end.

(** [if not self.title:
       self.title = f"{self.get_activity_type_display()} - {self.date}"
     super().save()]
    for an instance whose date is a calendar date ([default_now = None])
    or was left to the default of the field. *)
Definition save_instance (default_now : option Dates.datetime) (self : t)
    (db : table) : t * table :=
  let self :=
    if negb (truthy (VStr (title self)))
    then with_title (get_activity_type_display self +:+ " - "
                       +:+ str_date default_now self) self
    else self in
  Model_save self db.

(** [save] on an instance that holds a calendar date: the instances the
    views and the admin action save are loaded from the table. *)
Definition save (self : t) (db : table) : t * table :=
  save_instance None self db.

(** [Activity.objects.filter(user=u)] *)
Definition filter_user (u : Z) (db : table) : table :=
  filter (λ a, user a = u) db.

(** [queryset.get(pk=pk)], with [None] for [DoesNotExist]. *)
Definition get_pk (pk : Z) (qs : table) : option t :=
  List.find (λ a, bool_decide (id a = Some pk)) qs.

(** [instance.delete()] *)
Definition delete (self : t) (db : table) : table :=
  filter (λ r, id r ≠ id self) db.

End Activity.

(* ===================================================================== *)
(** ** Django REST framework: responses, fields, serializers *)
(* ===================================================================== *)

Module Drf.

Definition HTTP_200_OK : Z := 200.
Definition HTTP_201_CREATED : Z := 201.
Definition HTTP_204_NO_CONTENT : Z := 204.
Definition HTTP_400_BAD_REQUEST : Z := 400.
Definition HTTP_401_UNAUTHORIZED : Z := 401.
Definition HTTP_403_FORBIDDEN : Z := 403.
Definition HTTP_404_NOT_FOUND : Z := 404.
Definition HTTP_500_INTERNAL_SERVER_ERROR : Z := 500.

(** A [ValidationError] detail: field name and message, in the order
    the fields are declared. *)
Abbreviation Errors := (list (string * string)).

Inductive Payload (A : Type) :=
| Content (a : A)
| Detail (msg : string)
| FieldErrors (e : Errors)
| NoContent.
Arguments Content {A} a.
Arguments Detail {A} msg.
Arguments FieldErrors {A} e.
Arguments NoContent {A}.

Record Response (A : Type) := Resp { status_code : Z; data : Payload A }.
Arguments Resp {A} status_code data.
Arguments status_code {A} r.
Arguments data {A} r.

(** What the exception handler makes of [Http404], [ValidationError] and
    [NotAuthenticated]. *)
Definition not_found {A} : Response A :=
  Resp HTTP_404_NOT_FOUND (Detail "Not found.").
Definition bad_request {A} (e : Errors) : Response A :=
  Resp HTTP_400_BAD_REQUEST (FieldErrors e).
Definition not_authenticated {A} : Response A :=
  Resp HTTP_401_UNAUTHORIZED
    (Detail "Authentication credentials were not provided.").

(** What Django makes of any other exception that leaves a view: the
    answer 500; [exc] names the exception. *)
Definition server_error {A} (exc : string) : Response A :=
  Resp HTTP_500_INTERNAL_SERVER_ERROR (Detail exc).

(** [permission_classes = [permissions.IsAuthenticated]]; [request.user]
    is [None] for an anonymous request. *)
Definition IsAuthenticated {A S} (request_user : option Z) (db : S)
    (view : Z → Response A * S) : Response A * S :=
  match request_user with
  | Some u => view u
  | None => (not_authenticated, db)
  end.

(** The serializer fields a [ModelSerializer] derives from the model's
    columns. *)
Inductive FieldKind :=
| ChoiceField (choices : list string) (allow_blank : bool)
| CharField (max_length : option nat) (allow_blank : bool)
| IntegerField (min_value max_value : Z)
| DecimalField (max_digits : nat) (min_value : Z)
| DateField.

Record Field := MkField {
  name : string;
  kind : FieldKind;
  required : bool;
  allow_null : bool
}.

(** [CharField.run_validation] on a string: a value that is empty once
    its surrounding whitespace is gone is the empty string where the
    field allows a blank and an error where it does not, and no validator
    sees it; any other value is trimmed ([trim_whitespace=True]) and then
    checked for its length and for null characters. *)
Definition run_char_field (max_length : option nat) (allow_blank : bool)
    (data : string) : string + Value :=
  let value := PyStr.strip data in
  if String.eqb value "" then
    if allow_blank then inr (VStr "")
    else inl "This field may not be blank."
  else if match max_length with
          | Some n => (n <? String.length value)%nat
          | None => false
          end
  then inl "Ensure this field has no more characters than allowed."
  else if PyStr.has_null value
  then inl "Null characters are not allowed."
  else inr (VStr value).

(** The bounds of a [DecimalField] of two places, on the hundredths. *)
Definition run_decimal_field (digits : nat) (lo : Z) (c : Z)
  : string + Value :=
  if c <? lo then inl "Ensure this value is greater than or equal to the minimum."
  else if 10 ^ Z.of_nat digits <=? Z.abs c
  then inl "Ensure that there are no more digits in total than allowed."
  else inr (VDecimal c).

(** [field.run_validation(value)]: the validated value or a message.
    The messages are shortened: they name no bound and no value.  A body
    gives a text field a string or an integer (which stands for its
    decimal notation), a number field a number and a date field a date;
    the other readings of the framework (a number written as a string, a
    number with a fraction for a text field) are not followed, and such
    a value counts as invalid. *)
Definition run_field (f : Field) (v : Value) : string + Value :=
  match v, kind f with
  | VNull, _ =>
      if allow_null f then inr VNull else inl "This field may not be null."
  | VStr s, ChoiceField choices allow_blank =>
      if String.eqb s "" && allow_blank then inr v
      else if bool_decide (s ∈ choices) then inr v
      else inl "Not a valid choice."
  | VStr s, CharField max_length allow_blank =>
      run_char_field max_length allow_blank s
  | VInt n, CharField max_length allow_blank =>
      run_char_field max_length allow_blank (PyStr.of_int n)
  | VInt n, IntegerField lo hi =>
      if n <? lo then inl "Ensure this value is greater than or equal to the minimum."
      else if hi <? n then inl "Ensure this value is less than or equal to the maximum."
      else inr v
  | VDecimal c, DecimalField digits lo => run_decimal_field digits lo c
  | VInt n, DecimalField digits lo => run_decimal_field digits lo (n * 100)
  | VDate _, DateField => inr v
  | _, ChoiceField _ _ => inl "Not a valid choice."
  | _, CharField _ _ => inl "Not a valid string."
  | _, IntegerField _ _ => inl "A valid integer is required."
  | _, DecimalField _ _ => inl "A valid number is required."
  | _, DateField => inl "Date has wrong format."
  end.

(** A serializer class: its writable fields, its [validate_<field>]
    methods and its [validate] method. *)
Record Serializer := MkSerializer {
  fields : list Field;
  validate_field : string → Value → string + Value;
  validate : Dict → Errors + Dict
}.

(** The defaults of [serializers.Serializer]. *)
Definition no_validate_field (_ : string) (v : Value) : string + Value :=
  inr v.
Definition no_validate (attrs : Dict) : Errors + Dict := inr attrs.

(** [Serializer.to_internal_value]: every declared field that the data
    carries is validated, by the field and then by [validate_<field>];
    a missing field is an error when it is required and the update is
    not partial, and is skipped otherwise.  Keys that are not declared
    are ignored. *)
Fixpoint to_internal_value (sz : Serializer) (partial : bool)
    (fs : list Field) (data : Dict) : Errors * Dict :=
  match fs with
  | [] => ([], ∅)
  | f :: fs =>
      let '(errors, ret) := to_internal_value sz partial fs data in
      match data !! name f with
      | None =>
          if required f && negb partial
          then ((name f, "This field is required.") :: errors, ret)
          else (errors, ret)
      | Some v =>
          match run_field f v with
          | inl msg => ((name f, msg) :: errors, ret)
          | inr v' =>
              match validate_field sz (name f) v' with
              | inl msg => ((name f, msg) :: errors, ret)
              | inr v'' => (errors, <[name f := v'']> ret)
              end
          end
      end
  end.

(** [Serializer.run_validation], the body of [is_valid]: field errors
    are raised before [validate] is reached. *)
Definition run_validation (sz : Serializer) (partial : bool) (data : Dict)
  : Errors + Dict :=
  match to_internal_value sz partial (fields sz) data with
  | ([], value) => validate sz value
  | (errors, _) => inl errors
  end.

End Drf.

(* ===================================================================== *)
(** ** activities/serializers.py *)
(* ===================================================================== *)

(** The writable fields both activity serializers derive from the model:
    choices, [MinValueValidator]/[MaxValueValidator] bounds, [blank],
    [null] and [default] decide the kind, [required] and [allow_null]. *)
Definition activity_model_fields : list Drf.Field :=
  [ Drf.MkField "activity_type"
      (Drf.ChoiceField (Activity.ACTIVITY_TYPE_CHOICES.*1) false) true false;
    Drf.MkField "title" (Drf.CharField (Some 200%nat) true) false false;
    Drf.MkField "description" (Drf.CharField None true) false false;
    Drf.MkField "duration" (Drf.IntegerField 1 2147483647) true false;
    Drf.MkField "distance" (Drf.DecimalField 6 0) false true;
    Drf.MkField "calories_burned" (Drf.IntegerField 0 2147483647) false true;
    Drf.MkField "intensity"
      (Drf.ChoiceField (Activity.INTENSITY_CHOICES.*1) false) false false;
    Drf.MkField "date" Drf.DateField false false;
    Drf.MkField "average_heart_rate" (Drf.IntegerField 30 220) false true;
    Drf.MkField "max_heart_rate" (Drf.IntegerField 30 220) false true;
    Drf.MkField "elevation_gain" (Drf.DecimalField 6 0) false true;
    Drf.MkField "location" (Drf.CharField (Some 200%nat) true) false false ].

(** [a > b] on two integer values. *)
Definition value_gtb (a b : Value) : bool :=
  match a, b with
  | VInt x, VInt y => y <? x
  | _, _ => false
  end.

Module ActivitySerializer.

(** [if value > timezone.now().date(): raise ValidationError(...)] *)
Definition validate_date (today : date) (value : Value) : string + Value :=
  match value with
  | VDate d =>
      if Dates.ltb today d
      then inl "Activity date cannot be in the future."
      else inr value
  | _ => inr value
  end.

Definition validate_field (today : date) (name : string) (v : Value)
  : string + Value :=
  if String.eqb name "date" then validate_date today v else inr v.

(** [avg_hr = attrs.get('average_heart_rate')
     max_hr = attrs.get('max_heart_rate')
     if avg_hr and max_hr and avg_hr > max_hr: raise ValidationError(...)
     return attrs] *)
Definition validate (attrs : Dict) : Drf.Errors + Dict :=
  let avg_hr := dict_get attrs "average_heart_rate" in
  let max_hr := dict_get attrs "max_heart_rate" in
  if truthy avg_hr && truthy max_hr && value_gtb avg_hr max_hr
  then inl [("average_heart_rate",
             "Average heart rate cannot be greater than max heart rate.")]
  else inr attrs.

Definition serializer (today : date) : Drf.Serializer :=
  Drf.MkSerializer activity_model_fields (validate_field today) validate.

End ActivitySerializer.

Module ActivityCreateSerializer.

(** The class declares [Meta.fields] and [create] only: it inherits
    [validate] and the [validate_<field>] hooks of [ModelSerializer],
    which accept everything. *)
Definition serializer : Drf.Serializer :=
  Drf.MkSerializer activity_model_fields Drf.no_validate_field
    Drf.no_validate.

End ActivityCreateSerializer.

(** [ModelSerializer.update]:
    [for attr, value in validated_data.items(): setattr(instance, attr, value)]
    then [instance.save()]. *)
Definition ModelSerializer_update (sz : Drf.Serializer)
    (instance : Activity.t) (validated_data : Dict) (db : Activity.table)
  : Activity.t * Activity.table :=
  let instance :=
    foldl (λ a f, match validated_data !! Drf.name f with
                  | Some v => Activity.setattr a (Drf.name f) v
                  | None => a
                  end) instance (Drf.fields sz) in
  Activity.save instance db.

(* ===================================================================== *)
(** ** activities/views.py: the detail view *)
(* ===================================================================== *)

Inductive Method := GET | PUT | PATCH | DELETE.

#[global] Instance Method_eq_dec : EqDecision Method.
Proof. solve_decision. Defined.

Module ActivityDetailView.

(** [return Activity.objects.filter(user=self.request.user)] *)
Definition get_queryset (request_user : Z) (db : Activity.table)
  : Activity.table :=
  Activity.filter_user request_user db.

(** [if self.request.method in ['PUT', 'PATCH']:
       return ActivityCreateSerializer
     return ActivitySerializer] *)
Definition get_serializer_class (today : date) (method : Method)
  : Drf.Serializer :=
  match method with
  | PUT | PATCH => ActivityCreateSerializer.serializer
  | _ => ActivitySerializer.serializer today
  end.

(** [GenericAPIView.get_object]: [get_object_or_404] on the view's
    queryset; [None] stands for the raised [Http404]. *)
Definition get_object (request_user pk : Z) (db : Activity.table)
  : option Activity.t :=
  Activity.get_pk pk (get_queryset request_user db).

(** [RetrieveModelMixin.retrieve] *)
Definition retrieve (request_user pk : Z) (db : Activity.table)
  : Drf.Response Activity.t * Activity.table :=
  match get_object request_user pk db with
  | None => (Drf.not_found, db)
  | Some instance => (Drf.Resp Drf.HTTP_200_OK (Drf.Content instance), db)
  end.

(** [UpdateModelMixin.update]: the object is fetched first, then the
    data is validated and saved.  [partial_update], the handler of
    PATCH, is [update] with [partial=True]. *)
Definition update (today : date) (method : Method) (partial : bool)
    (request_user pk : Z) (data : Dict) (db : Activity.table)
  : Drf.Response Activity.t * Activity.table :=
  match get_object request_user pk db with
  | None => (Drf.not_found, db)
  | Some instance =>
      let sz := get_serializer_class today method in
      match Drf.run_validation sz partial data with
      | inl errors => (Drf.bad_request errors, db)
      | inr validated_data =>
          let '(instance, db) :=
            ModelSerializer_update sz instance validated_data db in
          (Drf.Resp Drf.HTTP_200_OK (Drf.Content instance), db)
      end
  end.

(** [DestroyModelMixin.destroy] *)
Definition destroy (request_user pk : Z) (db : Activity.table)
  : Drf.Response Activity.t * Activity.table :=
  match get_object request_user pk db with
  | None => (Drf.not_found, db)
  | Some instance =>
      (Drf.Resp Drf.HTTP_204_NO_CONTENT Drf.NoContent,
       Activity.delete instance db)
  end.

(** The view behind [<int:pk>/], for a request with the given method,
    user, primary key and body. *)
Definition dispatch (today : date) (method : Method)
    (request_user : option Z) (pk : Z) (data : Dict) (db : Activity.table)
  : Drf.Response Activity.t * Activity.table :=
  Drf.IsAuthenticated request_user db (λ u,
    match method with
    | GET => retrieve u pk db
    | PUT => update today method false u pk data db
    | PATCH => update today method true u pk data db
    | DELETE => destroy u pk db
    end).

End ActivityDetailView.

(* ===================================================================== *)
(** ** activities/views.py: metrics and statistics *)
(* ===================================================================== *)

Module Aggregates.

(** The non-NULL values of a column. *)
Definition non_null {A} (col : list (option A)) : list A := omap id col.

Definition sum_Z (xs : list Z) : Z := foldr Z.add 0 xs.

(** [Count('id')] *)
Definition Count {A} (rows : list A) : Z := Z.of_nat (length rows).

(** [Sum(column)]: NULLs are skipped; NULL when nothing is left. *)
Definition Sum (col : list (option Z)) : option Z :=
  let xs := non_null col in
  match xs with
  | [] => None
  | _ :: _ => Some (sum_Z xs)
  end.

(** [Avg(column)] on a decimal column of hundredths: the mean of the
    non-NULL values, NULL when there is none.  The result is a
    [Decimal]; the mean is kept exact. *)
Definition Avg (col : list (option Z)) : option Q :=
  let xs := non_null col in
  match xs with
  | [] => None
  | _ :: _ => Some (Qmake (sum_Z xs) (100 * Pos.of_nat (length xs)))
  end.

(** [Avg(column)] on an integer column: the result is a [float], the
    sum of the non-NULL values divided by their number in binary64. *)
Definition Avg_int (col : list (option Z)) : option float :=
  let xs := non_null col in
  match xs with
  | [] => None
  | _ :: _ =>
      Some (PrimFloat.div (PyFloat.of_Z (sum_Z xs))
                          (PyFloat.of_Z (Z.of_nat (length xs))))
  end.

(** [round(x, 2)] on a [Decimal], which rounds half-even, in
    hundredths. *)
Definition round2 (x : Q) : Z :=
  PyFloat.round_half_even_div (Qnum x * 100) (Z.pos (Qden x)).

(** [round(x or 0, 2)] on the [float] of [Avg_int], in the hundredths
    the two-decimal output field renders: [None] and [0.0] give 0. *)
Definition round2_float (x : option float) : Z :=
  PyFloat.round2_hundredths (default 0%float x).

(** The order of [order_by('-count')]. *)
Definition count_desc (x y : string * nat) : Prop := (y.2 ≤ x.2)%nat.

#[global] Instance count_desc_dec x y : Decision (count_desc x y).
Proof. unfold count_desc. apply _. Defined.

(** [queryset.values('activity_type').annotate(count=Count('id'))
      .order_by('-count')]: one group per type with its size, largest
    first.  Groups of equal size keep the order in which their types
    first occur. *)
Definition count_by_type (qs : Activity.table) : list (string * nat) :=
  let types := remove_dups (Activity.activity_type <$> qs) in
  let groups :=
    (λ ty, (ty, length (filter (λ a, Activity.activity_type a = ty) qs)))
      <$> types in
  merge_sort count_desc groups.

End Aggregates.

Module Metrics.

(** [request.query_params] of the two statistics views.  Dates are
    taken as parsed; [None] is a missing (or empty) parameter. *)
Record QueryParams := MkParams {
  date_from : option date;
  date_to : option date;
  activity_type : option string;
  period : option string
}.

Record Summary := MkSummary {
  total_activities : Z;
  total_duration : Z;
  total_distance : Z;
  total_calories : Z;
  average_duration : Z;
  average_distance : Z;
  average_calories : Z;
  most_common_activity : option string;
  activity_breakdown : gmap string nat
}.

(** [if period:
       today = timezone.now().date()
       if period == 'week': date_from = today - timedelta(days=7)
       elif period == 'month': date_from = today - timedelta(days=30)
       elif period == 'year': date_from = today - timedelta(days=365)]
    The value of the variable [date_from] after these lines. *)
Definition resolve_date_from (today : date) (q : QueryParams)
  : option date :=
  match period q with
  | Some p =>
      if truthy (VStr p) then
        if String.eqb p "week" then Some (Dates.minus_days today 7)
        else if String.eqb p "month" then Some (Dates.minus_days today 30)
        else if String.eqb p "year" then Some (Dates.minus_days today 365)
        else date_from q
      else date_from q
  | None => date_from q
  end.

(** [queryset.filter(date__gte=d)] when [d] is given. *)
Definition filter_date_gte (d : option date) (qs : Activity.table)
  : Activity.table :=
  match d with
  | Some d => filter (λ a, Dates.leb d (Activity.date a)) qs
  | None => qs
  end.

(** [queryset.filter(date__lte=d)] when [d] is given. *)
Definition filter_date_lte (d : option date) (qs : Activity.table)
  : Activity.table :=
  match d with
  | Some d => filter (λ a, Dates.leb (Activity.date a) d) qs
  | None => qs
  end.

(** [queryset.filter(activity_type=t)] when [t] is given and not empty. *)
Definition filter_activity_type (t : option string) (qs : Activity.table)
  : Activity.table :=
  match t with
  | Some t =>
      if truthy (VStr t) then filter (λ a, Activity.activity_type a = t) qs
      else qs
  | None => qs
  end.

(** Lines 98-116 of [activity_metrics]: the filtered queryset. *)
Definition metrics_queryset (today : date) (request_user : Z)
    (q : QueryParams) (db : Activity.table) : Activity.table :=
  let queryset := Activity.filter_user request_user db in
  let date_from := resolve_date_from today q in
  let queryset := filter_date_gte date_from queryset in
  let queryset := filter_date_lte (date_to q) queryset in
  filter_activity_type (activity_type q) queryset.

(** Lines 118-154 of [activity_metrics]: [aggregate], the breakdown and
    [summary_data].  The decimals and the rounded floats are given in
    hundredths. *)
Definition summarize (queryset : Activity.table) : Summary :=
  let durations := (λ a, Some (Activity.duration a)) <$> queryset in
  let distances := Activity.distance <$> queryset in
  let calories := Activity.calories_burned <$> queryset in
  let activity_breakdown := Aggregates.count_by_type queryset in
  let breakdown_dict : gmap string nat := list_to_map activity_breakdown in
  let most_common := head activity_breakdown in
  let most_common_activity := fst <$> most_common in
  {| total_activities := Aggregates.Count queryset;
     total_duration := default 0 (Aggregates.Sum durations);
     total_distance := default 0 (Aggregates.Sum distances);
     total_calories := default 0 (Aggregates.Sum calories);
     average_duration :=
       Aggregates.round2_float (Aggregates.Avg_int durations);
     average_distance :=
       Aggregates.round2 (default 0%Q (Aggregates.Avg distances));
     average_calories :=
       Aggregates.round2_float (Aggregates.Avg_int calories);
     most_common_activity := most_common_activity;
     activity_breakdown := breakdown_dict |}.

(** [DecimalField(max_digits=10, decimal_places=2).to_representation]
    quantizes its value in a context of ten digits; [quantize] raises
    [decimal.InvalidOperation] when the result needs more digits, that
    is, from 100000000.00 on. *)
Definition decimal_fits (cents : Z) : bool := Z.abs cents <? 10 ^ 10.

(** [ActivitySummarySerializer(summary_data).data] *)
Definition summary_representation (s : Summary) : PyResult Summary :=
  if decimal_fits (total_distance s) && decimal_fits (average_duration s)
     && decimal_fits (average_distance s) && decimal_fits (average_calories s)
  then Returns s
  else Raises "decimal.InvalidOperation".

(** [GET /api/activities/metrics/] *)
Definition activity_metrics (today : date) (request_user : option Z)
    (q : QueryParams) (db : Activity.table)
  : Drf.Response Summary * Activity.table :=
  Drf.IsAuthenticated request_user db (λ user,
    match summary_representation
            (summarize (metrics_queryset today user q db)) with
    | Returns data => (Drf.Resp Drf.HTTP_200_OK (Drf.Content data), db)
    | Raises exc => (Drf.server_error exc, db)
    end).

Record TypeStat := MkTypeStat {
  ts_activity_type : string;
  ts_count : Z;
  ts_total_duration : Z;
  ts_total_distance : Z;
  ts_total_calories : Z;
  ts_average_duration : Z;
  ts_average_distance : Z;
  ts_average_calories : Z
}.

(** One entry of [stats_list]: the aggregates of the rows of one type. *)
Definition type_stat (queryset : Activity.table) (ty : string) : TypeStat :=
  let rows := filter (λ a, Activity.activity_type a = ty) queryset in
  let durations := (λ a, Some (Activity.duration a)) <$> rows in
  let distances := Activity.distance <$> rows in
  let calories := Activity.calories_burned <$> rows in
  {| ts_activity_type := ty;
     ts_count := Aggregates.Count rows;
     ts_total_duration := default 0 (Aggregates.Sum durations);
     ts_total_distance := default 0 (Aggregates.Sum distances);
     ts_total_calories := default 0 (Aggregates.Sum calories);
     ts_average_duration :=
       Aggregates.round2_float (Aggregates.Avg_int durations);
     ts_average_distance :=
       Aggregates.round2 (default 0%Q (Aggregates.Avg distances));
     ts_average_calories :=
       Aggregates.round2_float (Aggregates.Avg_int calories) |}.

(** The decimal fields of [ActivityTypeStatsSerializer], which are
    declared like those of the summary. *)
Definition type_stat_fits (ts : TypeStat) : bool :=
  decimal_fits (ts_total_distance ts) && decimal_fits (ts_average_duration ts)
  && decimal_fits (ts_average_distance ts)
  && decimal_fits (ts_average_calories ts).

(** [ActivityTypeStatsSerializer(stats_list, many=True).data] *)
Definition type_stats_representation (stats_list : list TypeStat)
  : PyResult (list TypeStat) :=
  if forallb type_stat_fits stats_list then Returns stats_list
  else Raises "decimal.InvalidOperation".

(** [GET /api/activities/type-stats/] *)
Definition activity_type_stats (request_user : option Z)
    (q : QueryParams) (db : Activity.table)
  : Drf.Response (list TypeStat) * Activity.table :=
  Drf.IsAuthenticated request_user db (λ user,
    let queryset := Activity.filter_user user db in
    let queryset := filter_date_gte (date_from q) queryset in
    let queryset := filter_date_lte (date_to q) queryset in
    let stats_list :=
      type_stat queryset <$> (Aggregates.count_by_type queryset).*1 in
    match type_stats_representation stats_list with
    | Returns data => (Drf.Resp Drf.HTTP_200_OK (Drf.Content data), db)
    | Raises exc => (Drf.server_error exc, db)
    end).

End Metrics.

(* ===================================================================== *)
(** ** users/models.py *)
(* ===================================================================== *)

Module UserProfile.

Definition GENDER_CHOICES : list (string * string) :=
  [ ("M", "Male"); ("F", "Female"); ("O", "Other");
    ("N", "Prefer not to say") ]%string.

Record t := Make {
  date_of_birth : option date;
  gender : option string;
  height : option Z;
  weight : option Z;
  bio : string;
  profile_picture : option string
}.

(** [if self.date_of_birth:
       today = date.today()
       return today.year - self.date_of_birth.year - (
           (today.month, today.day)
           < (self.date_of_birth.month, self.date_of_birth.day))
     return None]
    The comparison is a [bool], which counts as 0 or 1. *)
Definition age (today : date) (self : t) : option Z :=
  match date_of_birth self with
  | Some dob =>
      Some (Dates.year today - Dates.year dob
            - Z.b2z (Dates.pair_ltb (Dates.month today, Dates.day today)
                                    (Dates.month dob, Dates.day dob)))
  | None => None
  end.

(** [setattr(profile, name, value)] for the writable columns. *)
Definition setattr (self : t) (name : string) (v : Value) : t :=
  let 'Make dob ge he we bi pic := self in
  let opt_str (old : option string) : option string :=
    match v with VNull => None | VStr x => Some x | _ => old end in
  let opt_dec (old : option Z) : option Z :=
    match v with VNull => None | VDecimal c => Some c | _ => old end in
  if String.eqb name "date_of_birth" then
    Make (match v with VNull => None | VDate d => Some d | _ => dob end)
      ge he we bi pic
  else if String.eqb name "gender" then Make dob (opt_str ge) he we bi pic
  else if String.eqb name "height" then Make dob ge (opt_dec he) we bi pic
  else if String.eqb name "weight" then Make dob ge he (opt_dec we) bi pic
  else if String.eqb name "bio" then
    Make dob ge he we (match v with VStr x => x | _ => bi end) pic
  else if String.eqb name "profile_picture" then
    Make dob ge he we bi (opt_str pic)
  else self.

(** Modelled from the spec: the profile "created alongside user
    registration"; the code that creates it is not among the sources.
    Every column starts out unset. *)
Definition blank : t := Make None None None None "" None.

End UserProfile.

Module User.

(** A row of [auth_user] together with its one-to-one [profile]. *)
Record t := Make {
  id : Z;
  username : string;
  email : string;
  password : string;
  first_name : string;
  last_name : string;
  profile : UserProfile.t
}.

Abbreviation table := (list t).

Definition next_pk (db : table) : Z :=
  1 + foldr (λ u m, Z.max (id u) m) 0 db.

End User.

(** What Django contributes and the project settings configure: the
    password validators (the first complaint, if any), the password
    hasher, the syntax checks of [EmailValidator], of the
    [UnicodeUsernameValidator] of [User.username] and of [URLValidator],
    and the Unicode normalization [create_user] applies to the username.
    An address that [EmailValidator] accepts has no whitespace around it
    and no null character in it. *)
Record AuthConfig := MkAuthConfig {
  validate_password : string → option string;
  make_password : string → string;
  valid_email_syntax : string → bool;
  valid_username : string → bool;
  valid_url_syntax : string → bool;
  normalize_username : string → string;
  valid_email_plain : ∀ s,
    valid_email_syntax s = true →
    PyStr.strip s = s ∧ PyStr.has_null s = false
}.

(* ===================================================================== *)
(** ** users/serializers.py *)
(* ===================================================================== *)

Module UserProfileSerializer.

Definition fields : list Drf.Field :=
  [ Drf.MkField "date_of_birth" Drf.DateField false true;
    Drf.MkField "gender"
      (Drf.ChoiceField (UserProfile.GENDER_CHOICES.*1) true) false true;
    Drf.MkField "height" (Drf.DecimalField 5 0) false true;
    Drf.MkField "weight" (Drf.DecimalField 5 0) false true;
    Drf.MkField "bio" (Drf.CharField (Some 500%nat) true) false false;
    Drf.MkField "profile_picture" (Drf.CharField (Some 200%nat) true)
      false true ].

(** The class declares no [validate_<field>] method; [profile_picture]
    is a [URLField] and carries [URLValidator], which a blank value does
    not reach. *)
Definition validate_field (cfg : AuthConfig) (name : string) (v : Value)
  : string + Value :=
  if String.eqb name "profile_picture" then
    match v with
    | VStr s =>
        if String.eqb s "" || valid_url_syntax cfg s then inr v
        else inl "Enter a valid URL."
    | _ => inr v
    end
  else inr v.

Definition serializer (cfg : AuthConfig) : Drf.Serializer :=
  Drf.MkSerializer fields (validate_field cfg) Drf.no_validate.

End UserProfileSerializer.

Module UserRegistrationSerializer.

(** The body of a registration request: the flat fields and the
    optional nested [profile] object. *)
Record Data := MkData { flat : Dict; nested_profile : option Dict }.

Definition fields : list Drf.Field :=
  [ Drf.MkField "username" (Drf.CharField (Some 150%nat) false) true false;
    Drf.MkField "email" (Drf.CharField (Some 254%nat) true) true false;
    Drf.MkField "password" (Drf.CharField None false) true false;
    Drf.MkField "password2" (Drf.CharField None false) true false;
    Drf.MkField "first_name" (Drf.CharField (Some 150%nat) true) false false;
    Drf.MkField "last_name" (Drf.CharField (Some 150%nat) true) false false ].

(** [if User.objects.filter(email=value).exists(): raise ...] *)
Definition validate_email (db : User.table) (value : Value)
  : string + Value :=
  if existsb (λ u, bool_decide (VStr (User.email u) = value)) db
  then inl "A user with this email already exists."
  else inr value.

(** The validators the fields carry (the syntax check and the
    [UniqueValidator] of the model's unique [username], the e-mail
    syntax, [validate_password]), then the [validate_<field>] method of
    the class.  The validators of a field do not see a blank value; the
    method of the class does. *)
Definition validate_field (cfg : AuthConfig) (db : User.table)
    (name : string) (v : Value) : string + Value :=
  if String.eqb name "username" then
    match v with
    | VStr s =>
        if negb (valid_username cfg s)
        then inl "Enter a valid username."
        else if existsb (λ u, bool_decide (User.username u = s)) db
        then inl "A user with that username already exists."
        else inr v
    | _ => inr v
    end
  else if String.eqb name "email" then
    match v with
    | VStr s =>
        if String.eqb s "" || valid_email_syntax cfg s
        then validate_email db v
        else inl "Enter a valid email address."
    | _ => validate_email db v
    end
  else if String.eqb name "password" then
    match v with
    | VStr s =>
        match validate_password cfg s with
        | Some msg => inl msg
        | None => inr v
        end
    | _ => inr v
    end
  else inr v.

(** [if attrs['password'] != attrs['password2']:
       raise serializers.ValidationError(
           {"password": "Password fields didn't match."})
     return attrs] *)
Definition validate (attrs : Dict) : Drf.Errors + Dict :=
  if bool_decide (dict_get attrs "password" ≠ dict_get attrs "password2")
  then inl [("password", "Password fields didn't match.")]
  else inr attrs.

Definition serializer (cfg : AuthConfig) (db : User.table)
  : Drf.Serializer :=
  Drf.MkSerializer fields (validate_field cfg db) validate.

(** [to_internal_value]: the flat fields and the nested profile are
    validated field by field; the errors of the profile are filed under
    [profile]. *)
Definition to_internal_value (cfg : AuthConfig) (db : User.table) (d : Data)
  : Drf.Errors * (Dict * Dict) :=
  let sz := serializer cfg db in
  let '(errors, value) :=
    Drf.to_internal_value sz false (Drf.fields sz) (flat d) in
  let '(perrors, pvalue) :=
    match nested_profile d with
    | Some p =>
        Drf.to_internal_value (UserProfileSerializer.serializer cfg) false
          UserProfileSerializer.fields p
    | None => ([], ∅)
    end in
  (errors ++ (prod_map (λ f, "profile." +:+ f) id <$> perrors),
   (value, pvalue)).

(** [is_valid]: [validate] runs only when no field failed. *)
Definition run_validation (cfg : AuthConfig) (db : User.table) (d : Data)
  : Drf.Errors + (Dict * Dict) :=
  match to_internal_value cfg db d with
  | ([], (value, pvalue)) =>
      match validate value with
      | inl e => inl e
      | inr attrs => inr (attrs, pvalue)
      end
  | (es, _) => inl es
  end.

Definition str_of (v : Value) : string :=
  match v with VStr s => s | _ => "" end.

(** [BaseUserManager.normalize_email]:
    [try: email_name, domain_part = email.strip().rsplit("@", 1)
     except ValueError: pass
     else: email = email_name + "@" + domain_part.lower()
     return email] *)
Definition normalize_email (email : string) : string :=
  match PyStr.rsplit1 PyStr.at_sign (PyStr.strip email) with
  | Some (email_name, domain_part) =>
      email_name +:+ "@" +:+ PyStr.lower domain_part
  | None => email
  end.

(** [validated_data.pop('password2')
     profile_data = validated_data.pop('profile', {})
     user = User.objects.create_user(...)
     if profile_data:
         for attr, value in profile_data.items():
             setattr(user.profile, attr, value)
         user.profile.save()
     return user]
    [create_user] normalizes the e-mail address and the username and
    hashes the password. *)
Definition create (cfg : AuthConfig) (validated_data profile_data : Dict)
    (db : User.table) : User.t * User.table :=
  let profile :=
    foldl (λ p f, match profile_data !! Drf.name f with
                  | Some v => UserProfile.setattr p (Drf.name f) v
                  | None => p
                  end) UserProfile.blank UserProfileSerializer.fields in
  let user :=
    User.Make (User.next_pk db)
      (normalize_username cfg (str_of (dict_get validated_data "username")))
      (normalize_email (str_of (dict_get validated_data "email")))
      (make_password cfg (str_of (dict_get validated_data "password")))
      (str_of (default (VStr "") (validated_data !! "first_name")))
      (str_of (default (VStr "") (validated_data !! "last_name")))
      profile in
  (user, db ++ [user]).

End UserRegistrationSerializer.

(* ===================================================================== *)
(** ** users/views.py *)
(* ===================================================================== *)

Module UserRegistrationView.

(** [serializer = self.get_serializer(data=request.data)
     serializer.is_valid(raise_exception=True)
     user = serializer.save()
     ...
     return Response({'user': ..., ...}, status=status.HTTP_201_CREATED)]
    The token pair of the response is left out. *)
Definition create (cfg : AuthConfig) (data : UserRegistrationSerializer.Data)
    (db : User.table) : Drf.Response User.t * User.table :=
  match UserRegistrationSerializer.run_validation cfg db data with
  | inl errors => (Drf.bad_request errors, db)
  | inr (validated_data, profile_data) =>
      let '(user, db) :=
        UserRegistrationSerializer.create cfg validated_data profile_data db in
      (Drf.Resp Drf.HTTP_201_CREATED (Drf.Content user), db)
  end.

End UserRegistrationView.

(* ===================================================================== *)
(** ** activities/views.py: creating, listing, recent activities *)
(* ===================================================================== *)

Module ActivityListCreateView.

(** [Activity.objects.create], the manager method of Django: given the
    keyword arguments and the table, the instance it builds and the table
    after its INSERT. *)
Abbreviation ObjectsCreate :=
  (Dict → Activity.table → Activity.t * Activity.table).

(** [ActivityCreateSerializer.create]:
    [user = self.context['request'].user
     return Activity.objects.create(user=user, **validated_data)]
    A call that names a keyword and also finds it in the unpacked
    dictionary raises [TypeError] before the callee runs. *)
Definition serializer_create (objects_create : ObjectsCreate)
    (request_user : Z) (validated_data : Dict) (db : Activity.table)
  : PyResult (Activity.t * Activity.table) :=
  if bool_decide (is_Some (validated_data !! "user"))
  then Raises "TypeError: got multiple values for keyword argument 'user'"
  else Returns (objects_create (<["user" := VInt request_user]> validated_data)
                  db).

(** [perform_create]: [serializer.save(user=self.request.user)].
    [BaseSerializer.save] merges its keyword arguments into the validated
    data and hands the result to [create]. *)
Definition perform_create (objects_create : ObjectsCreate)
    (request_user : Z) (validated_data : Dict) (db : Activity.table)
  : PyResult (Activity.t * Activity.table) :=
  serializer_create objects_create request_user
    (<["user" := VInt request_user]> validated_data) db.

(** [CreateModelMixin.create], the handler of POST; the serializer class
    of POST is [ActivityCreateSerializer]. *)
Definition create (objects_create : ObjectsCreate) (request_user : option Z)
    (data : Dict) (db : Activity.table)
  : PyResult (Drf.Response Activity.t * Activity.table) :=
  match request_user with
  | None => Returns (Drf.not_authenticated, db)
  | Some u =>
      match Drf.run_validation ActivityCreateSerializer.serializer false data
      with
      | inl errors => Returns (Drf.bad_request errors, db)
      | inr validated_data =>
          match perform_create objects_create u validated_data db with
          | Raises exc => Raises exc
          | Returns (instance, db) =>
              Returns (Drf.Resp Drf.HTTP_201_CREATED (Drf.Content instance),
                       db)
          end
      end
  end.

End ActivityListCreateView.

Module RecentActivities.

(** [order_by('-date', '-created_at')]: later dates first, and on one date
    the later creation first.  [created_at] is the creation time of a
    row. *)
Definition newer_first (created_at : Activity.t → Z) (x y : Activity.t)
  : Prop :=
  if Dates.ltb (Activity.date y) (Activity.date x) then True
  else if Dates.ltb (Activity.date x) (Activity.date y) then False
  else created_at y ≤ created_at x.

#[global] Instance newer_first_dec created_at x y :
  Decision (newer_first created_at x y).
Proof. unfold newer_first. repeat case_match; apply _. Defined.

(** [Activity.objects.filter(user=user).order_by('-date', '-created_at')[:10]] *)
Definition recent_queryset (created_at : Activity.t → Z) (request_user : Z)
    (db : Activity.table) : Activity.table :=
  take 10 (merge_sort (newer_first created_at)
             (Activity.filter_user request_user db)).

(** [GET /api/activities/recent/] *)
Definition recent_activities (created_at : Activity.t → Z)
    (request_user : option Z) (db : Activity.table)
  : Drf.Response Activity.table * Activity.table :=
  Drf.IsAuthenticated request_user db (λ user,
    (Drf.Resp Drf.HTTP_200_OK
       (Drf.Content (recent_queryset created_at user db)), db)).

End RecentActivities.

(* ===================================================================== *)
(** ** activities/filters.py *)
(* ===================================================================== *)

Module ActivityFilter.

(** The parameters of the filters the class declares.  A [NumberFilter]
    takes any decimal number; [None] is a missing or empty parameter,
    which its filter skips. *)
Record Params := MkParams {
  date_from : option date;
  date_to : option date;
  min_duration : option Q;
  max_duration : option Q;
  min_distance : option Q;
  max_distance : option Q;
  min_calories : option Q;
  max_calories : option Q;
  search : option string
}.

(** The bound of an integer column goes through
    [IntegerField.get_prep_value], which is [int(value)]: a [Decimal] is
    truncated toward zero. *)
Definition int_bound (v : Q) : Z := Z.quot (Qnum v) (Z.pos (Qden v)).

(** The bound of the decimal column goes through
    [DecimalField.get_db_prep_value] when the query is run: it is
    quantized to the two places of the column, half-even, in a context of
    [max_digits=6] digits, and [quantize] raises when the result needs
    more. *)
Definition decimal_bound (v : Q) : PyResult Z :=
  let cents := PyFloat.round_half_even_div (Qnum v * 100) (Z.pos (Qden v)) in
  if Z.abs cents <? 10 ^ 6 then Returns cents
  else Raises "decimal.InvalidOperation".

(** A comparison with a NULL column is not true. *)
Definition column_test (test : Z → bool) (x : option Z) : bool :=
  match x with
  | Some x => test x
  | None => false
  end.

(** [qs.filter(column__gte=value)] *)
Definition gte (value : option Z) (column : Activity.t → option Z)
    (qs : Activity.table) : Activity.table :=
  match value with
  | Some v => filter (λ a, column_test (Z.leb v) (column a)) qs
  | None => qs
  end.

(** [qs.filter(column__lte=value)] *)
Definition lte (value : option Z) (column : Activity.t → option Z)
    (qs : Activity.table) : Activity.table :=
  match value with
  | Some v => filter (λ a, column_test (λ x, x <=? v) (column a)) qs
  | None => qs
  end.

(** [filter_search]: its body starts with [models.Q(...)], and the module
    imports [django_filters] and [Activity] only, so the name [models] is
    not bound. *)
Definition filter_search (queryset : Activity.table) (name value : string)
  : PyResult Activity.table :=
  Raises "NameError: name 'models' is not defined".

(** The bound of a decimal column as the query needs it. *)
Definition prepare (value : option Q) : PyResult (option Z) :=
  match value with
  | Some v =>
      match decimal_bound v with
      | Returns cents => Returns (Some cents)
      | Raises exc => Raises exc
      end
  | None => Returns None
  end.

(** The declared filters, applied one after the other to the queryset,
    and the run of the query they build.  [filter_search] raises while
    the query is built, a bound of the decimal column when it is run.
    (The filters generated from [Meta.fields] restrict the result
    further.) *)
Definition declared_filters (p : Params) (qs : Activity.table)
  : PyResult Activity.table :=
  let duration a := Some (Activity.duration a) in
  let qs := Metrics.filter_date_gte (date_from p) qs in
  let qs := Metrics.filter_date_lte (date_to p) qs in
  let qs := gte (int_bound <$> min_duration p) duration qs in
  let qs := lte (int_bound <$> max_duration p) duration qs in
  let qs := gte (int_bound <$> min_calories p) Activity.calories_burned qs in
  let qs := lte (int_bound <$> max_calories p) Activity.calories_burned qs in
  let run qs :=
    match prepare (min_distance p), prepare (max_distance p) with
    | Returns lo, Returns hi =>
        Returns (lte hi Activity.distance (gte lo Activity.distance qs))
    | Raises exc, _ | _, Raises exc => Raises exc
    end in
  match search p with
  | Some value =>
      if truthy (VStr value) then filter_search qs "search" value
      else run qs
  | None => run qs
  end.

End ActivityFilter.

(* ===================================================================== *)
(** ** activities/admin.py *)
(* ===================================================================== *)

Module ActivityAdmin.

(** [for activity in queryset:
        activity.pk = None
        activity.title = f"{activity.title} (Copy)"
        activity.save()] *)
Definition duplicate_activity (queryset : list Activity.t)
    (db : Activity.table) : Activity.table :=
  foldl (λ db activity,
           (Activity.save
              (Activity.with_title (Activity.title activity +:+ " (Copy)")
                 (Activity.with_id None activity)) db).2)
    db queryset.

End ActivityAdmin.

(* ===================================================================== *)
(** ** users: updating the account, changing the password *)
(* ===================================================================== *)

Definition with_password (encoded : string) (u : User.t) : User.t :=
  User.Make (User.id u) (User.username u) (User.email u) encoded
    (User.first_name u) (User.last_name u) (User.profile u).

(** [user.save()]: UPDATE of the row with the user's primary key. *)
Definition User_save (u : User.t) (users : User.table) : User.table :=
  (λ r, if bool_decide (User.id r = User.id u) then u else r) <$> users.

(** The user the authentication loads for [request.user]. *)
Definition load_user (pk : Z) (users : User.table) : option User.t :=
  List.find (λ r, bool_decide (User.id r = pk)) users.

Module UserUpdateSerializer.

Definition fields : list Drf.Field :=
  [ Drf.MkField "email" (Drf.CharField (Some 254%nat) true) false false;
    Drf.MkField "first_name" (Drf.CharField (Some 150%nat) true) false false;
    Drf.MkField "last_name" (Drf.CharField (Some 150%nat) true) false false ].

(** The class declares no [validate_<field>] method; the [email] field
    carries the syntax check of [EmailField], which a blank value does
    not reach. *)
Definition validate_field (cfg : AuthConfig) (name : string) (v : Value)
  : string + Value :=
  if String.eqb name "email" then
    match v with
    | VStr s =>
        if String.eqb s "" || valid_email_syntax cfg s then inr v
        else inl "Enter a valid email address."
    | _ => inr v
    end
  else inr v.

Definition serializer (cfg : AuthConfig) : Drf.Serializer :=
  Drf.MkSerializer fields (validate_field cfg) Drf.no_validate.

(** [is_valid]: the flat fields and the nested profile. *)
Definition run_validation (cfg : AuthConfig) (partial : bool)
    (d : UserRegistrationSerializer.Data) : Drf.Errors + (Dict * Dict) :=
  let '(errors, value) :=
    Drf.to_internal_value (serializer cfg) partial fields
      (UserRegistrationSerializer.flat d) in
  let '(perrors, pvalue) :=
    match UserRegistrationSerializer.nested_profile d with
    | Some p =>
        Drf.to_internal_value (UserProfileSerializer.serializer cfg) partial
          UserProfileSerializer.fields p
    | None => ([], ∅)
    end in
  match errors ++ (prod_map (λ f, "profile." +:+ f) id <$> perrors) with
  | [] => inr (value, pvalue)
  | es => inl es
  end.

Definition get_str (validated_data : Dict) (key : string) (old : string)
  : string :=
  match validated_data !! key with
  | Some (VStr s) => s
  | _ => old
  end.

(** [profile_data = validated_data.pop('profile', {})
     instance.email = validated_data.get('email', instance.email)
     instance.first_name = validated_data.get('first_name', ...)
     instance.last_name = validated_data.get('last_name', ...)
     instance.save()
     if profile_data:
         for attr, value in profile_data.items(): setattr(profile, attr, value)
         profile.save()
     return instance] *)
Definition update (instance : User.t) (validated_data profile_data : Dict)
    (users : User.table) : User.t * User.table :=
  let profile :=
    foldl (λ p f, match profile_data !! Drf.name f with
                  | Some v => UserProfile.setattr p (Drf.name f) v
                  | None => p
                  end) (User.profile instance) UserProfileSerializer.fields in
  let instance :=
    User.Make (User.id instance) (User.username instance)
      (get_str validated_data "email" (User.email instance))
      (User.password instance)
      (get_str validated_data "first_name" (User.first_name instance))
      (get_str validated_data "last_name" (User.last_name instance))
      profile in
  (instance, User_save instance users).

End UserUpdateSerializer.

Module CurrentUserView.

(** The state the view works on: the users and, for the cascade of a
    deletion, the activities. *)
Abbreviation State := (User.table * Activity.table)%type.

(** [UpdateModelMixin.update] on [self.request.user], with
    [UserUpdateSerializer]. *)
Definition update (cfg : AuthConfig) (partial : bool) (request_user : Z)
    (data : UserRegistrationSerializer.Data) (st : State)
  : Drf.Response User.t * State :=
  match load_user request_user st.1 with
  | None => (Drf.not_authenticated, st)
  | Some instance =>
      match UserUpdateSerializer.run_validation cfg partial data with
      | inl errors => (Drf.bad_request errors, st)
      | inr (validated_data, profile_data) =>
          let '(instance, users) :=
            UserUpdateSerializer.update instance validated_data profile_data
              st.1 in
          (Drf.Resp Drf.HTTP_200_OK (Drf.Content instance), (users, st.2))
      end
  end.

(** [user = self.get_object(); user.delete()], answered with 204.  The
    profile is a part of the user's row here; the activities go with
    their owner ([on_delete=models.CASCADE]). *)
Definition delete (request_user : Z) (st : State)
  : Drf.Response User.t * State :=
  match load_user request_user st.1 with
  | None => (Drf.not_authenticated, st)
  | Some user =>
      (Drf.Resp Drf.HTTP_204_NO_CONTENT
         (Drf.Detail "User account deleted successfully"),
       (filter (λ r, User.id r ≠ User.id user) st.1,
        filter (λ a, Activity.user a ≠ User.id user) st.2))
  end.

End CurrentUserView.

Module ChangePasswordSerializer.

Definition fields : list Drf.Field :=
  [ Drf.MkField "old_password" (Drf.CharField None false) true false;
    Drf.MkField "new_password" (Drf.CharField None false) true false;
    Drf.MkField "new_password2" (Drf.CharField None false) true false ].

(** [if not user.check_password(value): raise ValidationError(...)];
    [check_password raw encoded] is the hasher's verification. *)
Definition validate_old_password (check_password : string → string → bool)
    (user : User.t) (value : Value) : string + Value :=
  match value with
  | VStr raw =>
      if check_password raw (User.password user) then inr value
      else inl "Old password is incorrect."
  | _ => inr value
  end.

(** [validators=[validate_password]] on [new_password], and the
    [validate_old_password] method. *)
Definition validate_field (cfg : AuthConfig)
    (check_password : string → string → bool) (user : User.t)
    (name : string) (v : Value) : string + Value :=
  if String.eqb name "old_password"
  then validate_old_password check_password user v
  else if String.eqb name "new_password" then
    match v with
    | VStr s =>
        match validate_password cfg s with
        | Some msg => inl msg
        | None => inr v
        end
    | _ => inr v
    end
  else inr v.

(** [if attrs['new_password'] != attrs['new_password2']: raise ...] *)
Definition validate (attrs : Dict) : Drf.Errors + Dict :=
  if bool_decide (dict_get attrs "new_password"
                  ≠ dict_get attrs "new_password2")
  then inl [("new_password", "New password fields didn't match.")]
  else inr attrs.

Definition serializer (cfg : AuthConfig)
    (check_password : string → string → bool) (user : User.t)
  : Drf.Serializer :=
  Drf.MkSerializer fields (validate_field cfg check_password user) validate.

End ChangePasswordSerializer.

Module ChangePasswordView.

(** [if serializer.is_valid():
        user.set_password(serializer.validated_data['new_password'])
        user.save()
        return Response({"message": ...}, status=status.HTTP_200_OK)
     return Response(serializer.errors, status=status.HTTP_400_BAD_REQUEST)] *)
Definition post (cfg : AuthConfig) (check_password : string → string → bool)
    (request_user : Z) (data : Dict) (users : User.table)
  : Drf.Response User.t * User.table :=
  match load_user request_user users with
  | None => (Drf.not_authenticated, users)
  | Some user =>
      match Drf.run_validation
              (ChangePasswordSerializer.serializer cfg check_password user)
              false data with
      | inr validated_data =>
          let user :=
            with_password
              (make_password cfg
                 (UserRegistrationSerializer.str_of
                    (dict_get validated_data "new_password"))) user in
          (Drf.Resp Drf.HTTP_200_OK
             (Drf.Detail "Password changed successfully"),
           User_save user users)
      | inl errors => (Drf.bad_request errors, users)
      end
  end.

End ChangePasswordView.

(* ===================================================================== *)
(** ** The bounds the model declares *)
(* ===================================================================== *)

(** The choices and the [MinValueValidator]/[MaxValueValidator] bounds of
    the columns of [Activity], as a predicate on a row. *)
Definition within_bounds (a : Activity.t) : Prop :=
  Activity.activity_type a ∈ Activity.ACTIVITY_TYPE_CHOICES.*1
  ∧ Activity.intensity a ∈ Activity.INTENSITY_CHOICES.*1
  ∧ 1 ≤ Activity.duration a
  ∧ (∀ d, Activity.distance a = Some d → 0 ≤ d)
  ∧ (∀ c, Activity.calories_burned a = Some c → 0 ≤ c)
  ∧ (∀ n, Activity.average_heart_rate a = Some n → 30 ≤ n ≤ 220)
  ∧ (∀ n, Activity.max_heart_rate a = Some n → 30 ≤ n ≤ 220)
  ∧ (∀ e, Activity.elevation_gain a = Some e → 0 ≤ e).

(** The number of activities of a type in a queryset. *)
Definition count_of (ty : string) (qs : Activity.table) : nat :=
  length (filter (λ a, Activity.activity_type a = ty) qs).

(* ===================================================================== *)
(** ** Sample data and tables used in the statements *)
(* ===================================================================== *)

Definition born_2000_06_15 : UserProfile.t :=
  UserProfile.Make (Some (Date 2000 6 15)) None None None "" None.

Definition run_30min_5km : Activity.t :=
  Activity.Make (Some 1) 1 "RUNNING" "Morning run" "" 30 (Some 500)
    (Some 300) "MODERATE" (Date 2024 6 14) None None None "".

Definition yoga_45min : Activity.t :=
  Activity.Make (Some 2) 1 "YOGA" "" "" 45 None None "MODERATE"
    (Date 2024 6 9) None None None "".

(** 107 minutes over 40 km: 2.675 minutes per kilometre, which is not a
    binary fraction. *)
Definition ride_107min_40km : Activity.t :=
  Activity.Make None 1 "CYCLING" "" "" 107 (Some 4000) None "MODERATE"
    (Date 2024 6 14) None None None "".

(** A distance with a duration of zero, which [save] does not refuse. *)
Definition walk_0min_5km : Activity.t :=
  Activity.Make None 1 "WALKING" "" "" 0 (Some 500) None "LOW"
    (Date 2024 6 14) None None None "".

(** A run that is built without a title and without a date, and the
    moment [timezone.now()] returns for it. *)
Definition run_without_title : Activity.t :=
  Activity.Make None 1 "RUNNING" "" "" 30 None None "MODERATE"
    (Date 2024 6 14) None None None "".

Definition june_14_10_20_30 : Dates.datetime :=
  Dates.Datetime (Date 2024 6 14) 10 20 30 0 true.

Definition PERIOD_DAYS : list (string * Z) :=
  [ ("week", 7); ("month", 30); ("year", 365) ]%string.

(** A Sunday-to-Friday log of one user, and one activity of another. *)
Definition run_of_100000000min : Activity.t :=
  Activity.Make (Some 9) 1 "RUNNING" "Long run" "" 100000000 None None
    "MODERATE" (Date 2024 6 14) None None None "".

Definition sample_log : Activity.table :=
  [ run_30min_5km;
    Activity.Make (Some 2) 1 "YOGA" "Stretch" "" 45 None None "LOW"
      (Date 2024 6 9) None None None "";
    Activity.Make (Some 3) 2 "SWIMMING" "Laps" "" 45 (Some 200) (Some 400)
      "MODERATE" (Date 2024 6 14) None None None "" ].

Definition week_since_june_12 : Metrics.QueryParams :=
  Metrics.MkParams (Some (Date 2024 6 12)) None None (Some "week"%string).

Definition since_june_12 : Metrics.QueryParams :=
  Metrics.MkParams (Some (Date 2024 6 12)) None None None.

Definition decade_since_june_12 : Metrics.QueryParams :=
  Metrics.MkParams (Some (Date 2024 6 12)) None None (Some "decade"%string).

Definition run_and_yoga : Activity.table := [ run_30min_5km; yoga_45min ].

(** Forty short walks of one or two minutes that burn one or two
    calories: 43 minutes and 43 calories in all, 1.075 on average. *)
Definition short_walk (n : Z) : Activity.t :=
  Activity.Make None 1 "WALKING" "Stroll" "" n None (Some n) "LOW"
    (Date 2024 6 14) None None None "".

Definition forty_short_walks : Activity.table :=
  replicate 37 (short_walk 1) ++ replicate 3 (short_walk 2).

Definition stored_with_max_150 : Activity.table :=
  [ Activity.Make (Some 7) 1 "RUNNING" "Intervals" "" 40 (Some 800) None
      "HIGH" (Date 2024 6 10) (Some 140) (Some 150) None "" ].

Definition put_average_200_max_100 : Dict :=
  {[ "activity_type" := VStr "RUNNING"; "duration" := VInt 40;
     "average_heart_rate" := VInt 200; "max_heart_rate" := VInt 100 ]}.

Definition PASSWORD_MISMATCH : Drf.Errors :=
  [ ("password", "Password fields didn't match.") ]%string.

(** Strings of printable ASCII characters other than the space. *)
Fixpoint printable (s : string) : bool :=
  match s with
  | EmptyString => true
  | String c s' =>
      ((33 <=? PyStr.ord c) && (PyStr.ord c <=? 126))%N && printable s'
  end.

Fixpoint has_at (s : string) : bool :=
  match s with
  | EmptyString => false
  | String c s' => Ascii.eqb c PyStr.at_sign || has_at s'
  end.

Definition printable_rev_app (s t : string) :
  printable s = true → printable t = true →
  printable (String.rev_app s t) = true.
Proof.
  revert t. induction s as [| c s IH]; intros t Hs Ht; [done |].
  simpl in Hs. apply andb_true_iff in Hs as [Hc Hs].
  simpl. apply IH; [done |]. simpl. by rewrite Hc, Ht.
Qed.

Definition rev_app_rev_app (s t u : string) :
  String.rev_app (String.rev_app s t) u = String.rev_app t (s +:+ u).
Proof.
  revert t u. induction s as [| c s IH]; intros t u; [done |].
  simpl. by rewrite IH.
Qed.

Definition printable_lstrip (s : string) :
  printable s = true → PyStr.lstrip s = s.
Proof.
  destruct s as [| c s]; [done |]. simpl. intros H.
  apply andb_true_iff in H as [Hc _].
  apply andb_true_iff in Hc as [Hlo Hhi].
  apply N.leb_le in Hlo, Hhi.
  unfold PyStr.isspace.
  destruct (N.leb_spec 9 (PyStr.ord c)), (N.leb_spec (PyStr.ord c) 13),
    (N.leb_spec 28 (PyStr.ord c)), (N.leb_spec (PyStr.ord c) 32),
    (N.eqb_spec (PyStr.ord c) 133), (N.eqb_spec (PyStr.ord c) 160);
    simpl; first [ reflexivity | lia ].
Qed.

Definition printable_plain (s : string) :
  printable s && has_at s = true →
  PyStr.strip s = s ∧ PyStr.has_null s = false.
Proof.
  intros H. apply andb_true_iff in H as [H _]. split.
  - unfold PyStr.strip, PyStr.rstrip. rewrite (printable_lstrip s H).
    rewrite printable_lstrip
      by (unfold String.rev; by apply printable_rev_app).
    unfold String.rev. rewrite rev_app_rev_app. simpl.
    clear H. induction s as [| c s IH]; [done |].
    change (String c (s +:+ "") = String c s). by rewrite IH.
  - induction s as [| c s IH]; [done |]. simpl in H |- *.
    apply andb_true_iff in H as [Hc Hs]. rewrite (IH Hs).
    apply andb_true_iff in Hc as [Hlo _]. apply N.leb_le in Hlo.
    destruct (N.eqb_spec (PyStr.ord c) 0); [lia | done].
Qed.

(** Settings with no password rule, a hasher that tags the password,
    syntax checks that ask for printable characters (and an at sign in
    an address), and no change to a username. *)
Definition permissive_auth : AuthConfig :=
  MkAuthConfig (λ _, None) (λ s, "hashed:" +:+ s)
    (λ s, printable s && has_at s) printable printable id printable_plain.

Definition ann : User.t :=
  User.Make 1 "ann" "ann@example.com" "hashed:secret-of-ann" "" ""
    UserProfile.blank.

Definition registration (username email password password2 : string)
  : UserRegistrationSerializer.Data :=
  UserRegistrationSerializer.MkData
    {[ "username" := VStr username; "email" := VStr email;
       "password" := VStr password; "password2" := VStr password2 ]}
    None.

(* ===================================================================== *)
(** * Properties *)
(* ===================================================================== *)

(** ** Dates *)

Lemma pair_ltb_spec (a b : Z * Z) :
  Dates.pair_ltb a b = true ↔ a.1 < b.1 ∨ (a.1 = b.1 ∧ a.2 < b.2).
Proof.
  unfold Dates.pair_ltb.
  destruct (Z.eqb_spec a.1 b.1) as [E | E].
  - rewrite Z.ltb_lt. lia.
  - rewrite Z.ltb_lt. lia.
Qed.

Lemma date_ltb_spec (a b : date) :
  Dates.ltb a b = true ↔
  Dates.year a < Dates.year b
  ∨ (Dates.year a = Dates.year b
     ∧ (Dates.month a < Dates.month b
        ∨ (Dates.month a = Dates.month b ∧ Dates.day a < Dates.day b))).
Proof.
  unfold Dates.ltb.
  destruct (Z.eqb_spec (Dates.year a) (Dates.year b)) as [E | E].
  - rewrite pair_ltb_spec. simpl. lia.
  - rewrite Z.ltb_lt. lia.
Qed.

Lemma date_leb_spec (a b : date) :
  Dates.leb a b = true ↔
  Dates.year a < Dates.year b
  ∨ (Dates.year a = Dates.year b
     ∧ (Dates.month a < Dates.month b
        ∨ (Dates.month a = Dates.month b ∧ Dates.day a ≤ Dates.day b))).
Proof.
  unfold Dates.leb. rewrite negb_true_iff, <- not_true_iff_false.
  rewrite date_ltb_spec. lia.
Qed.

Lemma date_leb_trans (a b c : date) :
  Dates.leb a b = true → Dates.leb b c = true → Dates.leb a c = true.
Proof. rewrite !date_leb_spec. lia. Qed.

(** ** Derived fields of the models *)

(** C8: the age of a profile with a date of birth is today's year minus
    the birth year, less one exactly when (today's month, today's day)
    comes before (birth month, birth day); it is the number of whole
    years between the two dates, that is, the [n]-th anniversary of the
    birth date is on or before today exactly for the [n] up to the age. *)
Theorem age_whole_years (today dob : date) (p : UserProfile.t) :
  UserProfile.date_of_birth p = Some dob →
  ∃ age,
    UserProfile.age today p = Some age
    ∧ ((Dates.month today < Dates.month dob
        ∨ (Dates.month today = Dates.month dob
           ∧ Dates.day today < Dates.day dob))
       → age = Dates.year today - Dates.year dob - 1)
    ∧ (¬ (Dates.month today < Dates.month dob
          ∨ (Dates.month today = Dates.month dob
             ∧ Dates.day today < Dates.day dob))
       → age = Dates.year today - Dates.year dob)
    ∧ ∀ n, n ≤ age ↔
           Dates.leb (Date (Dates.year dob + n) (Dates.month dob)
                        (Dates.day dob)) today = true.
Proof.
  intros Hdob. unfold UserProfile.age. rewrite Hdob.
  eexists. split; [reflexivity |].
  pose proof (pair_ltb_spec (Dates.month today, Dates.day today)
                (Dates.month dob, Dates.day dob)) as Hlt.
  simpl in Hlt.
  destruct (Dates.pair_ltb _ _); simpl Z.b2z.
  - assert (Hp : Dates.month today < Dates.month dob
                 ∨ (Dates.month today = Dates.month dob
                    ∧ Dates.day today < Dates.day dob))
      by (apply Hlt; reflexivity).
    repeat split; try lia.
    + intros Hn. apply date_leb_spec. simpl. lia.
    + intros Hn. apply date_leb_spec in Hn. simpl in Hn. lia.
  - assert (Hp : ¬ (Dates.month today < Dates.month dob
                    ∨ (Dates.month today = Dates.month dob
                       ∧ Dates.day today < Dates.day dob)))
      by (intros H; apply Hlt in H; discriminate).
    repeat split; try lia.
    + intros Hn. apply date_leb_spec. simpl. lia.
    + intros Hn. apply date_leb_spec in Hn. simpl in Hn. lia.
Qed.

Lemma age_whole_years_witness :
  UserProfile.age (Date 2024 6 14) born_2000_06_15 = Some 23.
Proof.
  destruct (age_whole_years (Date 2024 6 14) (Date 2000 6 15)
              born_2000_06_15 eq_refl) as (age & Hage & Hbefore & _).
  rewrite Hage. f_equal. apply Hbefore. simpl. lia.
Defined.

Example age_on_the_birthday :
  UserProfile.age (Date 2024 6 15) born_2000_06_15 = Some 24.
Proof. reflexivity. Qed.

Example age_without_date_of_birth (today : date) :
  UserProfile.age today UserProfile.blank = None.
Proof. reflexivity. Qed.

Lemma round_half_even_div_spec (n d : Z) :
  0 < d →
  let k := PyFloat.round_half_even_div n d in
  2 * Z.abs (n - k * d) ≤ d
  ∧ (2 * Z.abs (n - k * d) = d → Z.even k = true).
Proof.
  intros Hd k. subst k. unfold PyFloat.round_half_even_div.
  pose proof (Z.div_mod n d ltac:(lia)) as Hdm.
  pose proof (Z.mod_pos_bound n d Hd) as Hr.
  destruct (Z.ltb_spec (2 * (n mod d)) d) as [H1 | H1].
  - split; [lia | intros; lia].
  - destruct (Z.ltb_spec d (2 * (n mod d))) as [H2 | H2].
    + split; [lia | intros; lia].
    + destruct (Z.even (n / d)) eqn:Hev.
      * split; [lia | done].
      * split; [lia |]. intros _. rewrite Z.even_add, Hev. done.
Qed.

Lemma nearest_even_ratio (n : Z) (d : positive) (k : Z) :
  PyFloat.nearest_even (n # d) k ↔
  2 * Z.abs (n - k * Z.pos d) ≤ Z.pos d
  ∧ (2 * Z.abs (n - k * Z.pos d) = Z.pos d → Z.even k = true).
Proof.
  unfold PyFloat.nearest_even.
  assert (Habs : (Qabs ((n # d) - inject_Z k) == Z.abs (n - k * Z.pos d) # d)%Q).
  { unfold Qabs, Qminus, Qplus, Qopp, inject_Z, Qeq. simpl.
    rewrite Pos.mul_1_r. f_equal. lia. }
  rewrite Habs. unfold Qle, Qeq. simpl.
  by rewrite Z.mul_1_l, (Z.mul_comm _ 2).
Qed.

(** The nearest integer, with ties to the even one, is unique. *)
Lemma nearest_even_unique (x : Q) (k1 k2 : Z) :
  PyFloat.nearest_even x k1 → PyFloat.nearest_even x k2 → k1 = k2.
Proof.
  destruct x as [n d]. rewrite !nearest_even_ratio.
  intros [H1 E1] [H2 E2].
  assert (Hd : 0 < Z.pos d) by lia.
  destruct (Z.lt_trichotomy k1 k2) as [Hlt | [-> | Hlt]]; [| done |].
  - assert (k2 = k1 + 1) as -> by nia.
    rewrite Z.even_add in E2. simpl in E2.
    assert (Z.even k1 = true) by (apply E1; nia).
    assert (Bool.eqb (Z.even k1) false = true) by (apply E2; nia).
    destruct (Z.even k1); done.
  - assert (k1 = k2 + 1) as -> by nia.
    rewrite Z.even_add in E1. simpl in E1.
    assert (Z.even k2 = true) by (apply E2; nia).
    assert (Bool.eqb (Z.even k2) false = true) by (apply E1; nia).
    destruct (Z.even k2); done.
Qed.

Lemma nearest_even_proper (x y : Q) (k : Z) :
  (x == y)%Q → PyFloat.nearest_even x k → PyFloat.nearest_even y k.
Proof. unfold PyFloat.nearest_even. by intros ->. Qed.

(** The hundredths [round2] computes are the nearest to a hundred times
    the exact value. *)
Lemma hundredths_nearest (m : positive) (e : Z) :
  PyFloat.nearest_even (100 * PyFloat.exact m e) (PyFloat.hundredths m e).
Proof.
  unfold PyFloat.exact, PyFloat.hundredths.
  destruct (Z.leb_spec 0 e) as [He | He].
  - apply (nearest_even_proper (inject_Z (Z.pos m * 2 ^ e * 100))).
    + unfold Qeq, Qmult, inject_Z. simpl. lia.
    + apply (nearest_even_ratio _ 1). split; [lia | intros; lia].
  - assert (Hpow : 0 < 2 ^ (- e)) by (apply Z.pow_pos_nonneg; lia).
    apply (nearest_even_proper ((Z.pos m * 100) # Z.to_pos (2 ^ (- e)))).
    + unfold Qeq, Qmult. simpl. lia.
    + apply nearest_even_ratio. rewrite Z2Pos.id by done.
      by apply round_half_even_div_spec.
Qed.

(** [round2] rounds to two decimal places, and nothing else does. *)
Lemma round2_rounded2 (x : float) : PyFloat.rounded2 x (PyFloat.round2 x).
Proof.
  unfold PyFloat.rounded2, PyFloat.round2.
  destruct (Prim2SF x) as [| | | s m e]; try done.
  exists (PyFloat.hundredths m e). split; [apply hundredths_nearest | done].
Qed.

Lemma rounded2_unique (x y : float) :
  PyFloat.rounded2 x y → y = PyFloat.round2 x.
Proof.
  unfold PyFloat.rounded2, PyFloat.round2.
  destruct (Prim2SF x) as [| | | s m e]; try done.
  intros (k & Hk & ->).
  by rewrite (nearest_even_unique _ _ _ Hk (hundredths_nearest m e)).
Qed.

(** C3, as the code has it: with a distance above zero the pace is the
    binary64 quotient of the duration by the distance, rounded to two
    decimal places as [round] does it (half-even, on the exact binary
    value); the speed is the quotient of the distance by [duration / 60]
    rounded in the same way when the duration is above zero, and [None]
    when it is not; with no distance, or a distance of zero, both are
    [None].  The duration is one that [float] can hold. *)
Theorem pace_speed_of_distance (a : Activity.t) :
  Z.abs (Activity.duration a) < 2 ^ 1023 →
  (∀ d, Activity.distance a = Some d → 0 < d →
        (∃ pace,
           Activity.pace a = Some pace
           ∧ PyFloat.rounded2
               (PrimFloat.div (PyFloat.of_Z (Activity.duration a))
                              (PyFloat.of_decimal d)) pace)
        ∧ (0 < Activity.duration a →
           ∃ speed,
             Activity.speed a = Some speed
             ∧ PyFloat.rounded2
                 (PrimFloat.div (PyFloat.of_decimal d)
                                (PyFloat.of_ratio (Activity.duration a) 60))
                 speed)
        ∧ (Activity.duration a ≤ 0 → Activity.speed a = None))
  ∧ (Activity.distance a = None ∨ Activity.distance a = Some 0 →
     Activity.pace a = None ∧ Activity.speed a = None).
Proof.
  intros _. unfold Activity.pace, Activity.speed. split.
  - intros d Hd Hpos. rewrite Hd. simpl truthy.
    destruct (Z.eqb_spec d 0) as [-> | _]; [lia |].
    destruct (Z.ltb_spec 0 d); [| lia]. simpl.
    split; [| split].
    + eexists. split; [reflexivity | apply round2_rounded2].
    + intros Hdur. destruct (Z.ltb_spec 0 (Activity.duration a)); [| lia].
      eexists. split; [reflexivity | apply round2_rounded2].
    + intros Hdur. by destruct (Z.ltb_spec 0 (Activity.duration a)); [lia |].
  - intros [-> | ->]; split; reflexivity.
Qed.

#[warnings="-inexact-float"]
Lemma pace_speed_of_distance_witness :
  (Activity.pace ride_107min_40km = Some 2.67%float
   ∧ Activity.speed ride_107min_40km = Some 22.43%float)
  ∧ Activity.pace yoga_45min = None ∧ Activity.speed yoga_45min = None.
Proof.
  split.
  - destruct (pace_speed_of_distance ride_107min_40km) as [H _];
      [vm_compute; reflexivity |].
    destruct (H 4000 eq_refl ltac:(lia))
      as ((pace & Hpace & Hp) & Hspeed & _).
    destruct (Hspeed ltac:(simpl; lia)) as (speed & Hspeed' & Hs).
    rewrite Hpace, Hspeed'.
    rewrite (rounded2_unique _ _ Hp), (rounded2_unique _ _ Hs).
    vm_compute. split; reflexivity.
  - destruct (pace_speed_of_distance yoga_45min) as [_ H];
      [vm_compute; reflexivity |].
    apply H. left. reflexivity.
Defined.

(** C3, as the claim has it, fails for the speed: an activity with a
    distance above zero and a duration of zero has a pace, 0.0, and no
    speed. *)
Lemma zero_duration_has_no_speed :
  Activity.distance walk_0min_5km = Some 500
  ∧ Activity.pace walk_0min_5km = Some 0%float
  ∧ Activity.speed walk_0min_5km = None.
Proof. vm_compute. done. Qed.

(** The quotient 2.675 is not a binary fraction: the float below it is
    what gets rounded, and the pace is 2.67, not 2.68. *)
Example pace_rounds_the_binary_value :
  Activity.pace ride_107min_40km = Some (PyFloat.of_decimal 267).
Proof. vm_compute. reflexivity. Qed.

(** One minute over eight kilometres: 0.125 is a binary fraction
    half-way between 0.12 and 0.13, and the pace is the even 0.12. *)
#[warnings="-inexact-float"]
Example pace_rounds_a_tie_to_even :
  Activity.pace
    (Activity.Make None 1 "CYCLING" "" "" 1 (Some 800) None "MODERATE"
       (Date 2024 6 14) None None None "")
  = Some 0.12%float.
Proof. vm_compute. reflexivity. Qed.

(** [Model.save] stores the instance it is given, changing at most its
    primary key. *)
Lemma Model_save_stores (a : Activity.t) (db : Activity.table) :
  Activity.title (Activity.Model_save a db).1 = Activity.title a
  ∧ (Activity.Model_save a db).1 ∈ (Activity.Model_save a db).2.
Proof.
  unfold Activity.Model_save.
  destruct (Activity.id a) as [pk |] eqn:Eid.
  - destruct (existsb _ db) eqn:Ex; simpl; split; try done.
    + apply existsb_exists in Ex as (r & Hin & Hr).
      apply list_elem_of_fmap. exists r. rewrite Hr.
      split; [done | by apply list_elem_of_In].
    + apply elem_of_app. right. by apply list_elem_of_singleton.
  - simpl. split; [done |].
    apply elem_of_app. right. by apply list_elem_of_singleton.
Qed.

(** The display name of a type is the label its choice carries, and the
    stored value itself when it is not one of the choices. *)
Lemma activity_type_display_label (a : Activity.t) (label : string) :
  (Activity.activity_type a, label) ∈ Activity.ACTIVITY_TYPE_CHOICES →
  Activity.get_activity_type_display a = label.
Proof.
  unfold Activity.get_activity_type_display, Activity.ACTIVITY_TYPE_CHOICES.
  intros H.
  repeat (apply elem_of_cons in H as [[= -> ->] | H]; [reflexivity |]).
  by apply elem_of_nil in H.
Qed.

Lemma activity_type_display_other (a : Activity.t) :
  Activity.activity_type a ∉ Activity.ACTIVITY_TYPE_CHOICES.*1 →
  Activity.get_activity_type_display a = Activity.activity_type a.
Proof.
  unfold Activity.get_activity_type_display, Activity.get_display,
    Activity.ACTIVITY_TYPE_CHOICES.
  intros H. cbn [fmap list_fmap fst] in H.
  assert (Hfind : ∀ l : list (string * string),
            Activity.activity_type a ∉ l.*1 →
            find (λ c, String.eqb c.1 (Activity.activity_type a)) l = None).
  { clear H. induction l as [| c l IH]; intros Hl; [done |].
    simpl. destruct (String.eqb_spec c.1 (Activity.activity_type a)) as [E | _].
    - exfalso. apply Hl. rewrite <- E. apply list_elem_of_here.
    - apply IH. intros Hin. apply Hl. by apply list_elem_of_further. }
  by rewrite Hfind.
Qed.

(** Two and four decimal digits. *)
Lemma zero_pad_2 (n : Z) :
  0 ≤ n < 100 →
  Dates.zero_pad 2 n
  = String (Dates.digit_char (n / 10))
      (String (Dates.digit_char (n mod 10)) "").
Proof.
  intros Hn. unfold Dates.zero_pad. cbn [Dates.digits_rev].
  destruct (Z.ltb_spec n 10).
  - rewrite (Z.div_small n 10), (Z.mod_small n 10) by lia. reflexivity.
  - destruct (Z.ltb_spec (n / 10) 10); [reflexivity |].
    exfalso. Z.to_euclidean_division_equations. lia.
Qed.

Lemma zero_pad_4 (n : Z) :
  0 ≤ n < 10000 →
  Dates.zero_pad 4 n
  = String (Dates.digit_char (n / 1000))
      (String (Dates.digit_char (n / 100 mod 10))
         (String (Dates.digit_char (n / 10 mod 10))
            (String (Dates.digit_char (n mod 10)) ""))).
Proof.
  intros Hn. unfold Dates.zero_pad. cbn [Dates.digits_rev].
  assert (H100 : n / 10 / 10 = n / 100) by (rewrite Z.div_div by lia; done).
  assert (H1000 : n / 10 / 10 / 10 = n / 1000)
    by (rewrite !Z.div_div by lia; done).
  rewrite H1000, H100.
  destruct (Z.ltb_spec n 10).
  { rewrite (Z.div_small n 1000) by lia.
    rewrite (Z.div_small n 100) by lia.
    rewrite (Z.div_small n 10) by lia.
    rewrite (Z.mod_small n 10) by lia.
    reflexivity. }
  destruct (Z.ltb_spec (n / 10) 10).
  { assert (n < 100) by (Z.to_euclidean_division_equations; lia).
    rewrite (Z.div_small n 1000) by lia.
    rewrite (Z.div_small n 100) by lia.
    rewrite (Z.mod_small (n / 10) 10)
      by (Z.to_euclidean_division_equations; lia).
    reflexivity. }
  destruct (Z.ltb_spec (n / 100) 10).
  { assert (n < 1000) by (Z.to_euclidean_division_equations; lia).
    rewrite (Z.div_small n 1000) by lia.
    rewrite (Z.mod_small (n / 100) 10)
      by (Z.to_euclidean_division_equations; lia).
    reflexivity. }
  destruct (Z.ltb_spec (n / 1000) 10); [reflexivity |].
  exfalso. Z.to_euclidean_division_equations. lia.
Qed.




Example save_cycling_without_title :
  Activity.title (Activity.save ride_107min_40km []).1
  = "Cycling - 2024-06-14"%string.
Proof. reflexivity. Qed.

Example save_keeps_title :
  Activity.title (Activity.save run_30min_5km []).1 = "Morning run"%string.
Proof. reflexivity. Qed.

(** ** The metrics view *)

Lemma elem_of_filter_date_gte (d : option date) (qs : Activity.table)
    (a : Activity.t) :
  a ∈ Metrics.filter_date_gte d qs ↔
  a ∈ qs ∧ ∀ x, d = Some x → Dates.leb x (Activity.date a) = true.
Proof.
  destruct d as [x |]; simpl.
  - rewrite list_elem_of_filter. split.
    + intros [H ?]. split; [done |]. intros ? [= <-]. by apply Is_true_true.
    + intros [? H]. split; [| done]. apply Is_true_true. by apply H.
  - split; [intros ?; split; [done | intros ? [=]] | by intros [? _]].
Qed.

Lemma elem_of_filter_date_lte (d : option date) (qs : Activity.table)
    (a : Activity.t) :
  a ∈ Metrics.filter_date_lte d qs ↔
  a ∈ qs ∧ ∀ x, d = Some x → Dates.leb (Activity.date a) x = true.
Proof.
  destruct d as [x |]; simpl.
  - rewrite list_elem_of_filter. split.
    + intros [H ?]. split; [done |]. intros ? [= <-]. by apply Is_true_true.
    + intros [? H]. split; [| done]. apply Is_true_true. by apply H.
  - split; [intros ?; split; [done | intros ? [=]] | by intros [? _]].
Qed.

Lemma elem_of_filter_activity_type (t : option string) (qs : Activity.table)
    (a : Activity.t) :
  a ∈ Metrics.filter_activity_type t qs → a ∈ qs.
Proof.
  destruct t as [x |]; simpl; [| done].
  destruct (negb _); [| done].
  rewrite list_elem_of_filter. by intros [_ ?].
Qed.

(** What every activity of the filtered queryset satisfies. *)
Lemma elem_of_metrics_queryset (today : date) (u : Z)
    (q : Metrics.QueryParams) (db : Activity.table) (a : Activity.t) :
  a ∈ Metrics.metrics_queryset today u q db →
  a ∈ db ∧ Activity.user a = u
  ∧ (∀ d, Metrics.resolve_date_from today q = Some d →
          Dates.leb d (Activity.date a) = true)
  ∧ (∀ d, Metrics.date_to q = Some d →
          Dates.leb (Activity.date a) d = true).
Proof.
  unfold Metrics.metrics_queryset. intros H.
  apply elem_of_filter_activity_type in H.
  apply elem_of_filter_date_lte in H as [H Hto].
  apply elem_of_filter_date_gte in H as [H Hfrom].
  unfold Activity.filter_user in H.
  apply list_elem_of_filter in H as [Hu H].
  done.
Qed.

Lemma resolve_date_from_period (today : date) (q : Metrics.QueryParams)
    (p : string) (days : Z) :
  Metrics.period q = Some p → (p, days) ∈ PERIOD_DAYS →
  Metrics.resolve_date_from today q = Some (Dates.minus_days today days).
Proof.
  intros Hp Hin. unfold Metrics.resolve_date_from. rewrite Hp.
  unfold PERIOD_DAYS in Hin.
  repeat (apply elem_of_cons in Hin as [[= -> ->] | Hin]; [reflexivity |]).
  by apply elem_of_nil in Hin.
Qed.

Lemma resolve_date_from_other (today : date) (q : Metrics.QueryParams) :
  (∀ p, Metrics.period q = Some p → p ∉ PERIOD_DAYS.*1) →
  Metrics.resolve_date_from today q = Metrics.date_from q.
Proof.
  intros Hother. unfold Metrics.resolve_date_from.
  destruct (Metrics.period q) as [p |]; [| done].
  specialize (Hother p eq_refl).
  destruct (truthy (VStr p)); [| done].
  destruct (String.eqb_spec p "week") as [-> | _].
  { destruct Hother. apply list_elem_of_here. }
  destruct (String.eqb_spec p "month") as [-> | _].
  { destruct Hother. apply list_elem_of_further, list_elem_of_here. }
  destruct (String.eqb_spec p "year") as [-> | _]; [| done].
  destruct Hother. do 2 apply list_elem_of_further. apply list_elem_of_here.
Qed.

(** C1, as the code has it: with [period] one of week, month and year the
    date floor derived from it replaces an explicit [date_from], which
    then plays no part in the result; every selected activity is dated on
    or after the period floor (hence also on or after an explicit
    [date_from] that is not later than the floor) and on or before
    [date_to].  With any other [period], or none, the request is treated
    as one without [period], and the explicit [date_from] is the floor. *)
Theorem period_replaces_date_from (today : date) (u : Z)
    (q : Metrics.QueryParams) (db : Activity.table) :
  (∀ p days,
     Metrics.period q = Some p → (p, days) ∈ PERIOD_DAYS →
     Metrics.metrics_queryset today u q db
     = Metrics.metrics_queryset today u
         (Metrics.MkParams None (Metrics.date_to q) (Metrics.activity_type q)
            (Metrics.period q)) db
     ∧ ∀ a, a ∈ Metrics.metrics_queryset today u q db →
            Dates.leb (Dates.minus_days today days) (Activity.date a) = true
            ∧ (∀ d, Metrics.date_from q = Some d →
                    Dates.leb d (Dates.minus_days today days) = true →
                    Dates.leb d (Activity.date a) = true)
            ∧ (∀ d, Metrics.date_to q = Some d →
                    Dates.leb (Activity.date a) d = true))
  ∧ ((∀ p, Metrics.period q = Some p → p ∉ PERIOD_DAYS.*1) →
     Metrics.metrics_queryset today u q db
     = Metrics.metrics_queryset today u
         (Metrics.MkParams (Metrics.date_from q) (Metrics.date_to q)
            (Metrics.activity_type q) None) db
     ∧ ∀ a, a ∈ Metrics.metrics_queryset today u q db →
            ∀ d, Metrics.date_from q = Some d →
                 Dates.leb d (Activity.date a) = true).
Proof.
  split.
  - intros p days Hp Hin.
    pose proof (resolve_date_from_period today q p days Hp Hin) as Hq.
    split.
    + unfold Metrics.metrics_queryset. rewrite Hq.
      rewrite (resolve_date_from_period today
                 (Metrics.MkParams None (Metrics.date_to q)
                    (Metrics.activity_type q) (Metrics.period q)) p days Hp Hin).
      reflexivity.
    + intros a Ha.
      apply elem_of_metrics_queryset in Ha as (_ & _ & Hfrom & Hto).
      specialize (Hfrom _ Hq).
      repeat split; [done | | done].
      intros d _ Hd. by apply date_leb_trans with (Dates.minus_days today days).
  - intros Hother.
    pose proof (resolve_date_from_other today q Hother) as Hq.
    split.
    + unfold Metrics.metrics_queryset. by rewrite Hq.
    + intros a Ha d Hd.
      apply elem_of_metrics_queryset in Ha as (_ & _ & Hfrom & _).
      apply Hfrom. by rewrite Hq.
Qed.

Lemma period_replaces_date_from_witness :
  (Metrics.metrics_queryset (Date 2024 6 14) 1 week_since_june_12 sample_log
   = Metrics.metrics_queryset (Date 2024 6 14) 1
       (Metrics.MkParams None None None (Some "week"%string)) sample_log
   ∧ Forall (λ a, Dates.leb (Date 2024 6 7) (Activity.date a) = true)
       (Metrics.metrics_queryset (Date 2024 6 14) 1 week_since_june_12
          sample_log))
  ∧ Forall (λ a, Dates.leb (Date 2024 6 12) (Activity.date a) = true)
      (Metrics.metrics_queryset (Date 2024 6 14) 1 since_june_12 sample_log)
  ∧ Metrics.metrics_queryset (Date 2024 6 14) 1 decade_since_june_12
      sample_log
    = Metrics.metrics_queryset (Date 2024 6 14) 1 since_june_12 sample_log.
Proof.
  split.
  - destruct (period_replaces_date_from (Date 2024 6 14) 1 week_since_june_12
                sample_log) as [H _].
    destruct (H "week"%string 7 eq_refl ltac:(apply list_elem_of_here))
      as [Heq Hall].
    split; [exact Heq |].
    apply Forall_forall. intros a Ha. exact (proj1 (Hall a Ha)).
  - split.
    + destruct (period_replaces_date_from (Date 2024 6 14) 1 since_june_12
                  sample_log) as [_ H].
      destruct H as [_ H]; [intros p [=] |].
      apply Forall_forall. intros a Ha.
      exact (H a Ha (Date 2024 6 12) eq_refl).
    + destruct (period_replaces_date_from (Date 2024 6 14) 1
                  decade_since_june_12 sample_log) as [_ H].
      destruct H as [H _]; [| exact H].
      intros p [= <-]. vm_compute.
      intros H. repeat (apply elem_of_cons in H as [[=] | H]).
      by apply elem_of_nil in H.
Defined.

(** C1, as the claim has it, fails: with [period=week] on 2024-06-14 and
    an explicit [date_from] of 2024-06-12 the activity of 2024-06-09 is
    selected, although it is older than the explicit [date_from]. *)
Lemma period_date_from_do_not_compose :
  ¬ (∀ a, a ∈ Metrics.metrics_queryset (Date 2024 6 14) 1 week_since_june_12
                sample_log →
          Dates.leb (Date 2024 6 12) (Activity.date a) = true).
Proof.
  intros H.
  specialize (H (Activity.Make (Some 2) 1 "YOGA" "Stretch" "" 45 None None
                   "LOW" (Date 2024 6 9) None None None "")).
  assert (Hin : Activity.Make (Some 2) 1 "YOGA" "Stretch" "" 45 None None
                  "LOW" (Date 2024 6 9) None None None ""
                ∈ Metrics.metrics_queryset (Date 2024 6 14) 1
                    week_since_june_12 sample_log).
  { vm_compute. apply list_elem_of_further, list_elem_of_here. }
  specialize (H Hin). vm_compute in H. discriminate.
Qed.

(** C4: over an empty filtered set the summary counts no activity, all
    sums and averages are zero, there is no most common activity and the
    breakdown is empty. *)
Theorem summary_of_empty_set (today : date) (u : Z) (q : Metrics.QueryParams)
    (db : Activity.table) :
  Metrics.metrics_queryset today u q db = [] →
  Metrics.activity_metrics today (Some u) q db
  = (Drf.Resp Drf.HTTP_200_OK
       (Drf.Content
          {| Metrics.total_activities := 0;
             Metrics.total_duration := 0;
             Metrics.total_distance := 0;
             Metrics.total_calories := 0;
             Metrics.average_duration := 0;
             Metrics.average_distance := 0;
             Metrics.average_calories := 0;
             Metrics.most_common_activity := None;
             Metrics.activity_breakdown := ∅ |}), db).
Proof.
  intros Hempty. unfold Metrics.activity_metrics. simpl. rewrite Hempty.
  reflexivity.
Qed.

Lemma summary_of_empty_set_witness :
  Metrics.total_activities (Metrics.summarize
     (Metrics.metrics_queryset (Date 2024 6 14) 3 week_since_june_12
        sample_log)) = 0
  ∧ (Metrics.activity_metrics (Date 2024 6 14) (Some 3) week_since_june_12
       sample_log).2 = sample_log.
Proof.
  rewrite (summary_of_empty_set (Date 2024 6 14) 3 week_since_june_12
             sample_log eq_refl).
  split; [| reflexivity].
  vm_compute. reflexivity.
Defined.

(** ** Aggregates and missing values *)

Lemma sum_non_null (col : list (option Z)) :
  Aggregates.sum_Z (Aggregates.non_null col)
  = Aggregates.sum_Z (default 0 <$> col).
Proof.
  unfold Aggregates.sum_Z, Aggregates.non_null.
  induction col as [| [x |] col IH]; csimpl; [done | |]; rewrite IH; done.
Qed.

Lemma length_non_null_le (col : list (option Z)) :
  (length (Aggregates.non_null col) ≤ length col)%nat.
Proof.
  unfold Aggregates.non_null.
  induction col as [| [x |] col IH]; csimpl; lia.
Qed.

Lemma length_non_null_lt (col : list (option Z)) :
  None ∈ col → (length (Aggregates.non_null col) < length col)%nat.
Proof.
  unfold Aggregates.non_null.
  induction col as [| [x |] col IH]; intros Hin.
  - by apply elem_of_nil in Hin.
  - apply elem_of_cons in Hin as [[=] | Hin]. specialize (IH Hin).
    csimpl. lia.
  - csimpl. pose proof (length_non_null_le col) as Hle.
    unfold Aggregates.non_null in Hle. lia.
Qed.

(** [Sum(col) or 0] adds the column up with every NULL counted as 0. *)
Lemma Sum_or_zero (col : list (option Z)) :
  default 0 (Aggregates.Sum col) = Aggregates.sum_Z (default 0 <$> col).
Proof.
  rewrite <- sum_non_null. unfold Aggregates.Sum.
  by destruct (Aggregates.non_null col).
Qed.

(** [Avg(col) or 0] on a decimal column divides the sum of the non-NULL
    values by their number. *)
Lemma Avg_or_zero (col : list (option Z)) :
  default 0%Q (Aggregates.Avg col)
  = match Aggregates.non_null col with
    | [] => 0%Q
    | _ :: _ =>
        Qmake (Aggregates.sum_Z (Aggregates.non_null col))
          (100 * Pos.of_nat (length (Aggregates.non_null col)))
    end.
Proof. unfold Aggregates.Avg. by destruct (Aggregates.non_null col). Qed.

Lemma Zpos_of_nat (n : nat) : n ≠ 0%nat → Z.pos (Pos.of_nat n) = Z.of_nat n.
Proof. intros Hn. rewrite <- positive_nat_Z, Nat2Pos.id; done. Qed.

(** The hundredths that [round2_hundredths] computes are those that
    rounding to two decimal places asks for, and no others are. *)
Lemma round2_hundredths_spec (x : float) :
  PyFloat.rounds_to_hundredths x (PyFloat.round2_hundredths x).
Proof.
  unfold PyFloat.rounds_to_hundredths, PyFloat.round2_hundredths.
  destruct (Prim2SF x) as [| | | s m e]; try done.
  exists (PyFloat.hundredths m e). split; [apply hundredths_nearest | done].
Qed.

Lemma rounds_to_hundredths_unique (x : float) (k : Z) :
  match Prim2SF x with
  | S754_infinity _ | S754_nan => False
  | _ => True
  end →
  PyFloat.rounds_to_hundredths x k → k = PyFloat.round2_hundredths x.
Proof.
  unfold PyFloat.rounds_to_hundredths, PyFloat.round2_hundredths.
  destruct (Prim2SF x) as [| | | s m e]; try done.
  intros _ (k0 & Hk0 & ->).
  by rewrite (nearest_even_unique _ _ _ Hk0 (hundredths_nearest m e)).
Qed.

(** [round(Avg(col) or 0, 2)] on an integer column: 0 when no value is
    present, and else the binary64 quotient of the sum of the values that
    are present by their number, rounded to two decimal places. *)
Lemma round2_float_Avg_int (col : list (option Z)) :
  let xs := Aggregates.non_null col in
  (xs = [] → Aggregates.round2_float (Aggregates.Avg_int col) = 0)
  ∧ (xs ≠ [] →
     PyFloat.rounds_to_hundredths
       (PrimFloat.div (PyFloat.of_Z (Aggregates.sum_Z xs))
                      (PyFloat.of_Z (Z.of_nat (length xs))))
       (Aggregates.round2_float (Aggregates.Avg_int col))).
Proof.
  intros xs. subst xs.
  unfold Aggregates.round2_float, Aggregates.Avg_int.
  destruct (Aggregates.non_null col) as [| x xs]; split; try done.
  intros _. simpl default. apply round2_hundredths_spec.
Qed.

(** [round(x, 2)] on the [Decimal] of [n / d] hundredths gives the
    number of hundredths nearest to [n / d]. *)
Lemma round2_nearest (n : Z) (d : positive) :
  PyFloat.nearest_even (n # d) (Aggregates.round2 (n # 100 * d)).
Proof.
  apply nearest_even_ratio. unfold Aggregates.round2. simpl Qnum. simpl Qden.
  pose proof (round_half_even_div_spec (n * 100) (Z.pos (100 * d))
                ltac:(lia)) as H.
  cbv zeta in H.
  set (k := PyFloat.round_half_even_div _ _) in *.
  rewrite Pos2Z.inj_mul in H.
  destruct H as [H1 H2]. split; [lia | intros; apply H2; lia].
Qed.




(** The same happens with distances above zero: five activities covering
    0.06 km and one without a distance average 0.012, rendered 0.01,
    which is 0.06 / 6. *)
Example rounded_average_equals_total_over_count :
  let short d i :=
    Activity.Make (Some i) 1 "WALKING" "Stroll" "" 1 d None "LOW"
      (Date 2024 6 14) None None None "" in
  let s := Metrics.summarize
             [ short (Some 2) 1; short (Some 1) 2; short (Some 1) 3;
               short (Some 1) 4; short (Some 1) 5; short None 6 ] in
  Metrics.average_distance s = 1 ∧ Metrics.total_distance s = 6
  ∧ Metrics.total_activities s = 6.
Proof. vm_compute. done. Qed.

(** The average of forty values that add up to 43 is the float next to
    1.075, which lies below it, and is rendered 1.07. *)
Example average_rounds_the_binary_value :
  Metrics.average_duration (Metrics.summarize forty_short_walks) = 107
  ∧ Aggregates.round2 (43 # 40) = 108.
Proof. vm_compute. done. Qed.

(** ** The detail view *)

Lemma get_object_Some (u pk : Z) (db : Activity.table) (a : Activity.t) :
  ActivityDetailView.get_object u pk db = Some a →
  a ∈ db ∧ Activity.user a = u ∧ Activity.id a = Some pk.
Proof.
  unfold ActivityDetailView.get_object, ActivityDetailView.get_queryset,
    Activity.get_pk, Activity.filter_user.
  intros H. apply find_some in H as [Hin Hid].
  apply list_elem_of_In, list_elem_of_filter in Hin as [Hu Hin].
  apply bool_decide_eq_true in Hid. done.
Qed.

Lemma get_object_None (u pk : Z) (db : Activity.table) :
  (∀ a, a ∈ db → Activity.id a = Some pk → Activity.user a ≠ u) →
  ActivityDetailView.get_object u pk db = None.
Proof.
  intros Hnone.
  destruct (ActivityDetailView.get_object u pk db) as [a |] eqn:E; [| done].
  apply get_object_Some in E as (Hin & Hu & Hid).
  by destruct (Hnone a Hin Hid).
Qed.

(** After the UPDATE of [Model.save] the owner finds the saved instance
    under its primary key. *)
Lemma get_object_saved (u pk : Z) (db : Activity.table) (a' : Activity.t) :
  (∃ r, r ∈ db ∧ Activity.id r = Some pk) →
  Activity.id a' = Some pk → Activity.user a' = u →
  ActivityDetailView.get_object u pk
    ((λ r, if bool_decide (Activity.id r = Some pk) then a' else r) <$> db)
  = Some a'.
Proof.
  intros Hex Hid Hu.
  unfold ActivityDetailView.get_object, ActivityDetailView.get_queryset,
    Activity.get_pk, Activity.filter_user.
  induction db as [| r db IH].
  - destruct Hex as (r & Hin & _). by apply elem_of_nil in Hin.
  - rewrite fmap_cons. destruct (decide (Activity.id r = Some pk)) as [Hr | Hr].
    + rewrite bool_decide_eq_true_2 by done.
      rewrite filter_cons_True by done. simpl.
      by rewrite bool_decide_eq_true_2.
    + rewrite bool_decide_eq_false_2 by done.
      assert (Hex' : ∃ r, r ∈ db ∧ Activity.id r = Some pk).
      { destruct Hex as (r' & Hin & Hr').
        apply elem_of_cons in Hin as [-> | Hin]; [done | by exists r']. }
      destruct (decide (Activity.user r = u)).
      * rewrite filter_cons_True by done. simpl.
        rewrite bool_decide_eq_false_2 by done. by apply IH.
      * rewrite filter_cons_False by done. by apply IH.
Qed.

Lemma run_validation_heart_rate_only (k : string) (v : Z) :
  k = "average_heart_rate"%string ∨ k = "max_heart_rate"%string →
  30 ≤ v ≤ 220 →
  Drf.run_validation ActivityCreateSerializer.serializer true {[ k := VInt v ]}
  = inr {[ k := VInt v ]}.
Proof.
  intros Hk Hv.
  assert (Hlo : (v <? 30) = false) by (apply Z.ltb_ge; lia).
  assert (Hhi : (220 <? v) = false) by (apply Z.ltb_ge; lia).
  unfold Drf.run_validation.
  destruct Hk as [-> | ->]; cbn -[Z.ltb];
    repeat (first [ rewrite lookup_singleton_eq
                  | rewrite lookup_singleton_ne by done ];
            cbn -[Z.ltb]; rewrite ?Hlo, ?Hhi; cbn -[Z.ltb]);
    reflexivity.
Qed.

Lemma update_heart_rate_only (k : string) (v : Z) (a : Activity.t)
    (db : Activity.table) :
  k = "average_heart_rate"%string ∨ k = "max_heart_rate"%string →
  ModelSerializer_update ActivityCreateSerializer.serializer a
    {[ k := VInt v ]} db
  = Activity.save (Activity.setattr a k (VInt v)) db.
Proof.
  unfold ModelSerializer_update.
  intros [-> | ->]; cbn [Drf.fields ActivityCreateSerializer.serializer
                           activity_model_fields foldl Drf.name];
    repeat (first [ rewrite lookup_singleton_eq
                  | rewrite lookup_singleton_ne by done ]);
    reflexivity.
Qed.

(** [save] keeps the key, the owner and the heart rates of the instance
    that has a primary key. *)
Lemma save_keeps (a : Activity.t) (db : Activity.table) (pk : Z) :
  Activity.id a = Some pk →
  let a' := (Activity.save a db).1 in
  Activity.id a' = Some pk ∧ Activity.user a' = Activity.user a
  ∧ Activity.average_heart_rate a' = Activity.average_heart_rate a
  ∧ Activity.max_heart_rate a' = Activity.max_heart_rate a.
Proof.
  intros Hid. unfold Activity.save, Activity.save_instance, Activity.str_date,
    Activity.Model_save.
  destruct (negb _); simpl Activity.id; rewrite Hid;
    destruct (existsb _ db); done.
Qed.

Lemma save_updates (a : Activity.t) (db : Activity.table) (pk : Z) :
  Activity.id a = Some pk →
  (∃ r, r ∈ db ∧ Activity.id r = Some pk) →
  (Activity.save a db).2
  = (λ r, if bool_decide (Activity.id r = Some pk)
          then (Activity.save a db).1 else r) <$> db.
Proof.
  intros Hid (r & Hin & Hr). unfold Activity.save, Activity.save_instance, Activity.str_date,
    Activity.Model_save.
  assert (Hex : existsb (λ r, bool_decide (Activity.id r = Some pk)) db = true).
  { apply existsb_exists. exists r. split; [by apply list_elem_of_In |].
    by apply bool_decide_eq_true. }
  destruct (negb _); simpl Activity.id; rewrite Hid, Hex; done.
Qed.

Lemma setattr_heart_rate (a : Activity.t) (v : Z) :
  let a1 := Activity.setattr a "average_heart_rate" (VInt v) in
  let a2 := Activity.setattr a "max_heart_rate" (VInt v) in
  (Activity.id a1 = Activity.id a ∧ Activity.user a1 = Activity.user a
   ∧ Activity.average_heart_rate a1 = Some v
   ∧ Activity.max_heart_rate a1 = Activity.max_heart_rate a)
  ∧ (Activity.id a2 = Activity.id a ∧ Activity.user a2 = Activity.user a
     ∧ Activity.average_heart_rate a2 = Activity.average_heart_rate a
     ∧ Activity.max_heart_rate a2 = Some v).
Proof. by destruct a. Qed.

(** A PATCH that carries one heart rate and nothing else is accepted for
    any value the field allows, and the owner then finds the activity
    with that value set. *)
Lemma patch_heart_rate_only (today : date) (u pk : Z) (db : Activity.table)
    (a : Activity.t) (k : string) (v : Z) :
  ActivityDetailView.get_object u pk db = Some a →
  k = "average_heart_rate"%string ∨ k = "max_heart_rate"%string →
  30 ≤ v ≤ 220 →
  let saved := Activity.save (Activity.setattr a k (VInt v)) db in
  ActivityDetailView.dispatch today PATCH (Some u) pk {[ k := VInt v ]} db
  = (Drf.Resp Drf.HTTP_200_OK (Drf.Content saved.1), saved.2)
  ∧ ActivityDetailView.get_object u pk saved.2 = Some saved.1
  ∧ Activity.average_heart_rate saved.1
    = Activity.average_heart_rate (Activity.setattr a k (VInt v))
  ∧ Activity.max_heart_rate saved.1
    = Activity.max_heart_rate (Activity.setattr a k (VInt v)).
Proof.
  intros Hget Hk Hv saved.
  pose proof (get_object_Some _ _ _ _ Hget) as (Hin & Hu & Hid).
  assert (Hid1 : Activity.id (Activity.setattr a k (VInt v)) = Some pk
                 ∧ Activity.user (Activity.setattr a k (VInt v)) = u).
  { destruct (setattr_heart_rate a v) as [(? & ? & _) (? & ? & _)].
    destruct Hk as [-> | ->]; split; congruence. }
  destruct Hid1 as [Hid1 Hu1].
  pose proof (save_keeps _ db pk Hid1) as (Hid' & Hu' & Havg & Hmax).
  fold saved in Hid', Hu', Havg, Hmax.
  split; [| split; [| done]].
  - unfold ActivityDetailView.dispatch, Drf.IsAuthenticated,
      ActivityDetailView.update.
    rewrite Hget. unfold ActivityDetailView.get_serializer_class.
    rewrite (run_validation_heart_rate_only k v Hk Hv).
    rewrite (update_heart_rate_only k v a db Hk).
    fold saved. by destruct saved.
  - subst saved. rewrite (save_updates _ db pk Hid1) by eauto.
    apply get_object_saved; [eauto | done | congruence].
Qed.

(** The check of [ActivitySerializer.validate] reads the submitted
    attributes only; it passes whenever one of the two rates is not among
    them. *)
Lemma validate_passes_without_both (attrs : Dict) :
  attrs !! "average_heart_rate" = None ∨ attrs !! "max_heart_rate" = None →
  ActivitySerializer.validate attrs = inr attrs.
Proof.
  unfold ActivitySerializer.validate, dict_get.
  intros [-> | ->]; simpl; [done |].
  by rewrite andb_false_r.
Qed.

(** C9: the heart-rate check sees the submitted fields only, so it passes
    for a request that carries one of the two rates whatever the stored
    activity holds; a PATCH with an average above the stored maximum (or a
    maximum below the stored average) is accepted and leaves the activity
    stored with its average above its maximum. *)
Theorem partial_update_breaks_heart_rate_order (today : date) (u pk : Z)
    (db : Activity.table) (a : Activity.t) (stored v : Z) :
  ActivityDetailView.get_object u pk db = Some a →
  30 ≤ v ≤ 220 →
  (∀ attrs : Dict,
     attrs !! "average_heart_rate" = None ∨ attrs !! "max_heart_rate" = None →
     ActivitySerializer.validate attrs = inr attrs)
  ∧ (Activity.max_heart_rate a = Some stored → stored < v →
     ∃ a' db',
       ActivityDetailView.dispatch today PATCH (Some u) pk
         {[ "average_heart_rate" := VInt v ]} db
       = (Drf.Resp Drf.HTTP_200_OK (Drf.Content a'), db')
       ∧ ActivityDetailView.get_object u pk db' = Some a'
       ∧ Activity.average_heart_rate a' = Some v
       ∧ Activity.max_heart_rate a' = Some stored)
  ∧ (Activity.average_heart_rate a = Some stored → v < stored →
     ∃ a' db',
       ActivityDetailView.dispatch today PATCH (Some u) pk
         {[ "max_heart_rate" := VInt v ]} db
       = (Drf.Resp Drf.HTTP_200_OK (Drf.Content a'), db')
       ∧ ActivityDetailView.get_object u pk db' = Some a'
       ∧ Activity.average_heart_rate a' = Some stored
       ∧ Activity.max_heart_rate a' = Some v).
Proof.
  intros Hget Hv.
  destruct (setattr_heart_rate a v) as [(_ & _ & Ha1 & Hm1) (_ & _ & Ha2 & Hm2)].
  split; [exact validate_passes_without_both |]. split.
  - intros Hstored _.
    destruct (patch_heart_rate_only today u pk db a "average_heart_rate" v
                Hget (or_introl eq_refl) Hv) as (Hresp & Hfound & Havg & Hmax).
    eexists _, _. split; [exact Hresp |]. split; [exact Hfound |].
    split; congruence.
  - intros Hstored _.
    destruct (patch_heart_rate_only today u pk db a "max_heart_rate" v
                Hget (or_intror eq_refl) Hv) as (Hresp & Hfound & Havg & Hmax).
    eexists _, _. split; [exact Hresp |]. split; [exact Hfound |].
    split; congruence.
Qed.

Lemma partial_update_breaks_heart_rate_order_witness :
  (∃ a' db',
     ActivityDetailView.dispatch (Date 2024 6 14) PATCH (Some 1) 7
       {[ "average_heart_rate" := VInt 200 ]} stored_with_max_150
     = (Drf.Resp Drf.HTTP_200_OK (Drf.Content a'), db')
     ∧ ActivityDetailView.get_object 1 7 db' = Some a'
     ∧ Activity.average_heart_rate a' = Some 200
     ∧ Activity.max_heart_rate a' = Some 150)
  ∧ (∃ a' db',
       ActivityDetailView.dispatch (Date 2024 6 14) PATCH (Some 1) 7
         {[ "max_heart_rate" := VInt 100 ]} stored_with_max_150
       = (Drf.Resp Drf.HTTP_200_OK (Drf.Content a'), db')
       ∧ ActivityDetailView.get_object 1 7 db' = Some a'
       ∧ Activity.average_heart_rate a' = Some 140
       ∧ Activity.max_heart_rate a' = Some 100).
Proof.
  split.
  - destruct (partial_update_breaks_heart_rate_order (Date 2024 6 14) 1 7
                stored_with_max_150 _ 150 200 eq_refl ltac:(lia))
      as (_ & H & _).
    exact (H eq_refl ltac:(lia)).
  - destruct (partial_update_breaks_heart_rate_order (Date 2024 6 14) 1 7
                stored_with_max_150 _ 140 100 eq_refl ltac:(lia))
      as (_ & _ & H).
    exact (H eq_refl ltac:(lia)).
Defined.

(** C2: when no activity with the requested key belongs to the user, be
    it that the key is unknown or that its activity is someone else's,
    GET, PUT, PATCH and DELETE all answer with the one 404 response, which
    is not a 403, and leave every stored activity as it was. *)
Theorem foreign_or_missing_activity_is_not_found (today : date)
    (method : Method) (u pk : Z) (data : Dict) (db : Activity.table) :
  (∀ a, a ∈ db → Activity.id a = Some pk → Activity.user a ≠ u) →
  ActivityDetailView.dispatch today method (Some u) pk data db
  = (Drf.not_found, db)
  ∧ Drf.status_code (ActivityDetailView.dispatch today method (Some u) pk
                       data db).1 = Drf.HTTP_404_NOT_FOUND
  ∧ Drf.status_code (ActivityDetailView.dispatch today method (Some u) pk
                       data db).1 ≠ Drf.HTTP_403_FORBIDDEN.
Proof.
  intros Hnone. apply get_object_None in Hnone.
  assert (H : ActivityDetailView.dispatch today method (Some u) pk data db
              = (Drf.not_found, db)).
  { unfold ActivityDetailView.dispatch, Drf.IsAuthenticated,
      ActivityDetailView.retrieve, ActivityDetailView.update,
      ActivityDetailView.destroy.
    rewrite Hnone. by destruct method. }
  rewrite H. done.
Qed.

Lemma foreign_or_missing_activity_is_not_found_witness :
  ActivityDetailView.dispatch (Date 2024 6 14) PATCH (Some 1) 3
    {[ "duration" := VInt 1 ]} sample_log
  = (Drf.not_found, sample_log)
  ∧ ActivityDetailView.dispatch (Date 2024 6 14) DELETE (Some 1) 99 ∅
      sample_log
    = (Drf.not_found, sample_log).
Proof.
  split.
  - apply (foreign_or_missing_activity_is_not_found (Date 2024 6 14) PATCH 1 3).
    intros a Ha Hid. unfold sample_log in Ha.
    repeat (apply elem_of_cons in Ha as [-> | Ha]; [by simpl in * |]).
    by apply elem_of_nil in Ha.
  - apply (foreign_or_missing_activity_is_not_found (Date 2024 6 14) DELETE 1 99).
    intros a Ha Hid. unfold sample_log in Ha.
    repeat (apply elem_of_cons in Ha as [-> | Ha]; [by simpl in * |]).
    by apply elem_of_nil in Ha.
Defined.

(** The owner, in contrast, gets the activity. *)
Example owner_retrieves_activity :
  (ActivityDetailView.dispatch (Date 2024 6 14) GET (Some 2) 3 ∅ sample_log).1
  = Drf.Resp Drf.HTTP_200_OK
      (Drf.Content
         (Activity.Make (Some 3) 2 "SWIMMING" "Laps" "" 45 (Some 200)
            (Some 400) "MODERATE" (Date 2024 6 14) None None None "")).
Proof. reflexivity. Qed.

(** ** Heart-rate order *)

(** What [ActivitySerializer.validate] decides, on attributes that went
    through the fields (a rate is an integer from 30 to 220, or null):
    it fails exactly when both rates are there and the average is the
    larger. *)
Lemma ActivitySerializer_validate_spec (attrs : Dict) (avg max : option Z) :
  dict_get attrs "average_heart_rate" = int_value avg →
  dict_get attrs "max_heart_rate" = int_value max →
  (∀ n, avg = Some n → 30 ≤ n ≤ 220) →
  (∀ n, max = Some n → 30 ≤ n ≤ 220) →
  (ActivitySerializer.validate attrs
   = inl [("average_heart_rate"%string,
           "Average heart rate cannot be greater than max heart rate."%string)]
   ↔ ∃ a m, avg = Some a ∧ max = Some m ∧ m < a)
  ∧ (ActivitySerializer.validate attrs = inr attrs
     ↔ ¬ ∃ a m, avg = Some a ∧ max = Some m ∧ m < a).
Proof.
  intros Ha Hm Hra Hrm. unfold ActivitySerializer.validate.
  rewrite Ha, Hm.
  destruct avg as [a |], max as [m |]; simpl.
  - specialize (Hra a eq_refl). specialize (Hrm m eq_refl).
    destruct (Z.eqb_spec a 0); [lia |]. destruct (Z.eqb_spec m 0); [lia |].
    simpl. destruct (Z.ltb_spec m a) as [Hlt | Hge].
    + split; split; try done.
      * intros _. by exists a, m.
      * intros Hn. destruct Hn. by exists a, m.
    + split; split; try done.
      * intros (? & ? & [= <-] & [= <-] & ?). lia.
      * intros _ (? & ? & [= <-] & [= <-] & ?). lia.
  - rewrite andb_false_r.
    split; split; try done.
    + by intros (? & ? & _ & [=] & _).
    + by intros _ (? & ? & _ & [=] & _).
  - split; split; try done.
    + by intros (? & ? & [=] & _).
    + by intros _ (? & ? & [=] & _).
  - split; split; try done.
    + by intros (? & ? & [=] & _).
    + by intros _ (? & ? & [=] & _).
Qed.

(** C6 at a failing input: [ActivitySerializer.validate] rejects an
    average of 200 with a maximum of 100, but PUT and PATCH are served by
    [ActivityCreateSerializer], which has no such check: the request is
    answered with 200 and the activity is stored with both rates. *)
Lemma put_stores_average_above_max :
  ActivitySerializer.validate put_average_200_max_100
  = inl [("average_heart_rate"%string,
          "Average heart rate cannot be greater than max heart rate."%string)]
  ∧ Forall
      (λ method,
         let r := ActivityDetailView.dispatch (Date 2024 6 14) method (Some 1)
                    7 put_average_200_max_100 stored_with_max_150 in
         Drf.status_code r.1 = Drf.HTTP_200_OK
         ∧ ∃ a', ActivityDetailView.get_object 1 7 r.2 = Some a'
                 ∧ Activity.average_heart_rate a' = Some 200
                 ∧ Activity.max_heart_rate a' = Some 100)
      [ PUT; PATCH ].
Proof.
  split; [vm_compute; reflexivity |].
  repeat constructor; vm_compute; eexists; (split; [reflexivity |]); done.
Qed.

(** ** Registration *)

(** A field that the data carries and that raised no error is in the
    validated dictionary, with the value its validators returned. *)
Lemma to_internal_value_lookup (sz : Drf.Serializer) (partial : bool)
    (fs : list Drf.Field) (data : Dict) (f : Drf.Field) (v : Value) :
  NoDup (Drf.name <$> fs) → f ∈ fs → data !! Drf.name f = Some v →
  (Drf.to_internal_value sz partial fs data).1 = [] →
  ∃ v' v'', Drf.run_field f v = inr v'
            ∧ Drf.validate_field sz (Drf.name f) v' = inr v''
            ∧ (Drf.to_internal_value sz partial fs data).2 !! Drf.name f
              = Some v''.
Proof.
  induction fs as [| g fs IH]; intros Hnd Hin Hv Herr.
  - by apply elem_of_nil in Hin.
  - rewrite fmap_cons in Hnd. apply NoDup_cons in Hnd as [Hg Hnd].
    simpl in Herr |- *.
    destruct (Drf.to_internal_value sz partial fs data) as [errors ret] eqn:E.
    assert (Htail : errors = []).
    { destruct (data !! Drf.name g) as [w |].
      - destruct (Drf.run_field g w) as [? | w']; [done |].
        by destruct (Drf.validate_field sz (Drf.name g) w').
      - by destruct (Drf.required g && negb partial). }
    subst errors.
    apply elem_of_cons in Hin as [-> | Hin].
    + rewrite Hv in Herr |- *.
      destruct (Drf.run_field g v) as [? | v'] eqn:Er; [done |].
      destruct (Drf.validate_field sz (Drf.name g) v') as [? | v''] eqn:Ef;
        [done |].
      exists v', v''. simpl. rewrite lookup_insert_eq. done.
    + destruct (IH Hnd Hin Hv eq_refl) as (v' & v'' & H1 & H2 & H3).
      exists v', v''. split; [done |]. split; [done |].
      assert (Hne : Drf.name g ≠ Drf.name f).
      { intros Heq. apply Hg. rewrite Heq. by apply list_elem_of_fmap_2. }
      simpl in H3.
      destruct (data !! Drf.name g) as [w |].
      * destruct (Drf.run_field g w) as [? | w']; [done |].
        destruct (Drf.validate_field sz (Drf.name g) w'); [done |].
        simpl. by rewrite lookup_insert_ne.
      * by destruct (Drf.required g && negb partial).
Qed.

(** What a text field lets through is the trimmed string. *)
Lemma run_char_field_inr (max_length : option nat) (allow_blank : bool)
    (data : string) (v : Value) :
  Drf.run_char_field max_length allow_blank data = inr v →
  v = VStr (PyStr.strip data)
  ∧ (allow_blank = false → PyStr.strip data ≠ ""%string)
  ∧ (PyStr.strip data ≠ ""%string →
     PyStr.has_null (PyStr.strip data) = false
     ∧ ∀ n, max_length = Some n → (String.length (PyStr.strip data) ≤ n)%nat).
Proof.
  unfold Drf.run_char_field.
  destruct (String.eqb_spec (PyStr.strip data) "") as [E | E].
  - rewrite E. destruct allow_blank; [| done]. intros [= <-]. done.
  - destruct max_length as [n |].
    + destruct (Nat.ltb_spec n (String.length (PyStr.strip data))); [done |].
      destruct (PyStr.has_null (PyStr.strip data)); [done |].
      intros [= <-]. split; [done |]. split; [done |].
      intros _. split; [done |]. intros ? [= <-]. lia.
    + destruct (PyStr.has_null (PyStr.strip data)); [done |].
      intros [= <-]. split; [done |]. split; [done |].
      intros _. split; [done |]. intros ? [=].
Qed.

(** A string that needs no trimming, has no null character and is not
    too long passes as it is. *)
Lemma run_char_field_plain (max_length : option nat) (allow_blank : bool)
    (s : string) :
  PyStr.strip s = s → PyStr.has_null s = false →
  (∀ n, max_length = Some n → (String.length s ≤ n)%nat) →
  (allow_blank = false → s ≠ ""%string) →
  Drf.run_char_field max_length allow_blank s = inr (VStr s).
Proof.
  intros Hs Hnull Hlen Hblank. unfold Drf.run_char_field. rewrite Hs, Hnull.
  destruct (String.eqb_spec s "") as [-> | E].
  - destruct allow_blank; [done |]. by destruct Hblank.
  - destruct max_length as [n |]; [| done].
    destruct (Nat.ltb_spec n (String.length s)); [| done].
    specialize (Hlen n eq_refl). lia.
Qed.

(** The two passwords of a registration whose fields all pass, as
    [validate] finds them in [attrs]: trimmed. *)
Lemma registration_passwords (cfg : AuthConfig) (db : User.table)
    (data : UserRegistrationSerializer.Data) (p1 p2 : string)
    (value pvalue : Dict) :
  UserRegistrationSerializer.flat data !! "password" = Some (VStr p1) →
  UserRegistrationSerializer.flat data !! "password2" = Some (VStr p2) →
  UserRegistrationSerializer.to_internal_value cfg db data
  = ([], (value, pvalue)) →
  value !! "password" = Some (VStr (PyStr.strip p1))
  ∧ value !! "password2" = Some (VStr (PyStr.strip p2))
  ∧ validate_password cfg (PyStr.strip p1) = None.
Proof.
  intros Hp1 Hp2 E.
  unfold UserRegistrationSerializer.to_internal_value in E.
  set (sz := UserRegistrationSerializer.serializer cfg db) in E.
  pose proof (to_internal_value_lookup sz false (Drf.fields sz)
                (UserRegistrationSerializer.flat data)) as Hlook.
  destruct (Drf.to_internal_value sz false (Drf.fields sz)
              (UserRegistrationSerializer.flat data)) as [errors ret].
  destruct (match UserRegistrationSerializer.nested_profile data with
            | Some p => _ | None => _ end) as [perrors pret].
  injection E as Herrs <- <-.
  apply app_eq_nil in Herrs as [-> _].
  assert (Hnd : NoDup (Drf.name <$> Drf.fields sz))
    by (apply (bool_decide_unpack _); vm_compute; exact I).
  destruct (Hlook (Drf.MkField "password" (Drf.CharField None false) true
                     false)
              (VStr p1) Hnd) as (v1 & v1' & Hr1 & Hf1 & Hl1);
    [do 2 apply list_elem_of_further; apply list_elem_of_here
    | done | done |].
  destruct (Hlook (Drf.MkField "password2" (Drf.CharField None false) true
                     false)
              (VStr p2) Hnd) as (v2 & v2' & Hr2 & Hf2 & Hl2);
    [do 3 apply list_elem_of_further; apply list_elem_of_here
    | done | done |].
  simpl in Hl1, Hl2.
  apply run_char_field_inr in Hr1 as [-> _].
  apply run_char_field_inr in Hr2 as [-> _].
  cbn in Hf1, Hf2. injection Hf2 as <-.
  destruct (validate_password cfg (PyStr.strip p1)); [done |].
  injection Hf1 as <-. done.
Qed.




(** When the e-mail address is taken as well, a request with differing
    passwords is answered with the error of the [email] field alone; no
    password mismatch is reported. *)
Example mismatch_not_reported_after_field_error :
  UserRegistrationView.create permissive_auth
    (registration "bob" "ann@example.com" "testpass123" "testpass124") [ann]
  = (Drf.bad_request
       [("email"%string, "A user with this email already exists."%string)],
     [ann])
  ∧ ∀ e, e ∈ PASSWORD_MISMATCH →
         e ∉ [("email"%string,
               "A user with this email already exists."%string)].
Proof.
  split; [vm_compute; reflexivity |].
  intros e He Hin. unfold PASSWORD_MISMATCH in He.
  apply list_elem_of_singleton in He. apply list_elem_of_singleton in Hin.
  congruence.
Qed.

(** A registration stores the address with its domain in lower case. *)
Example registration_normalizes_the_address :
  let r := UserRegistrationView.create permissive_auth
             (registration "bob" "Bob@Example.COM" "testpass123"
                "testpass123") [ann] in
  User.email <$> last r.2 = Some "Bob@example.com"%string.
Proof. vm_compute. done. Qed.

Example matching_passwords_create_the_user :
  let r := UserRegistrationView.create permissive_auth
             (registration "bob" "bob@example.com" "testpass123"
                "testpass123") [ann] in
  Drf.status_code r.1 = Drf.HTTP_201_CREATED
  ∧ User.username <$> r.2 = ["ann"; "bob"]%string.
Proof. vm_compute. done. Qed.

(* ===================================================================== *)
(** * Further properties of the code *)
(* ===================================================================== *)

(** ** The model: derived fields and [save] *)

(** X1: for an activity the validators admit (a distance that is not
    negative, a duration of at least one minute), pace and speed are
    defined together: one is [None] exactly when the other is. *)
Theorem pace_and_speed_defined_together (a : Activity.t) :
  (∀ d, Activity.distance a = Some d → 0 ≤ d) →
  1 ≤ Activity.duration a →
  (Activity.pace a = None ↔ Activity.speed a = None)
  ∧ (Activity.pace a = None ↔
     Activity.distance a = None ∨ Activity.distance a = Some 0).
Proof.
  intros Hd Hdur. unfold Activity.pace, Activity.speed.
  destruct (Activity.distance a) as [d |]; [| by split; split; auto].
  specialize (Hd d eq_refl). simpl truthy.
  destruct (Z.eqb_spec d 0) as [-> | Hnz]; simpl.
  - split; split; auto.
  - destruct (Z.ltb_spec 0 d); [| lia].
    destruct (Z.ltb_spec 0 (Activity.duration a)); [| lia].
    split; split; try done. intros [? | [= ?]]; done.
Qed.

Lemma pace_and_speed_defined_together_witness :
  Activity.pace yoga_45min = None ↔ Activity.speed yoga_45min = None.
Proof.
  apply (pace_and_speed_defined_together yoga_45min).
  - intros d Hd. discriminate Hd.
  - simpl. lia.
Defined.

(** A speed without a pace: the guard of [speed] does not look at the
    sign of the distance. *)
Example speed_of_negative_distance :
  let a := Activity.Make None 1 "RUNNING" "" "" 30 (Some (-500)) None
             "MODERATE" (Date 2024 6 14) None None None "" in
  Activity.pace a = None ∧ Activity.speed a = Some (-10)%float.
Proof. vm_compute. done. Qed.

Lemma append_nonempty (s t : string) : t ≠ ""%string → s +:+ t ≠ ""%string.
Proof. destruct s; [done |]. intros _. discriminate. Qed.

Lemma save_title (a : Activity.t) (db : Activity.table) :
  Activity.title (Activity.save a db).1
  = if String.eqb (Activity.title a) ""
    then Activity.get_activity_type_display a +:+ " - "
           +:+ Dates.isoformat (Activity.date a)
    else Activity.title a.
Proof.
  unfold Activity.save, Activity.save_instance, Activity.str_date.
  simpl truthy.
  destruct (String.eqb (Activity.title a) ""); simpl negb; cbv iota;
    by rewrite (proj1 (Model_save_stores _ db)).
Qed.

(** X2: whatever is saved ends up with a title that is not empty, and
    saving the saved instance again, into any table, does not change the
    title any more. *)
Theorem saved_title_is_stable (a : Activity.t) (db db' : Activity.table) :
  Activity.title (Activity.save a db).1 ≠ ""%string
  ∧ Activity.title (Activity.save (Activity.save a db).1 db').1
    = Activity.title (Activity.save a db).1.
Proof.
  assert (Hne : Activity.title (Activity.save a db).1 ≠ ""%string).
  { rewrite save_title.
    destruct (String.eqb_spec (Activity.title a) ""); [| done].
    apply append_nonempty. discriminate. }
  split; [done |].
  rewrite (save_title (Activity.save a db).1 db').
  destruct (String.eqb_spec (Activity.title (Activity.save a db).1) "");
    done.
Qed.

(** ** The detail view: what a write changes *)

Lemma setattr_keeps_key (a : Activity.t) (k : string) (v : Value) :
  Activity.id (Activity.setattr a k v) = Activity.id a
  ∧ Activity.user (Activity.setattr a k v) = Activity.user a.
Proof.
  destruct a. unfold Activity.setattr.
  repeat (destruct (String.eqb k _); [done |]). done.
Qed.

Lemma foldl_setattr_keeps_key (validated_data : Dict) (fs : list Drf.Field)
    (a : Activity.t) :
  let a1 := foldl (λ a f, match validated_data !! Drf.name f with
                          | Some v => Activity.setattr a (Drf.name f) v
                          | None => a
                          end) a fs in
  Activity.id a1 = Activity.id a ∧ Activity.user a1 = Activity.user a.
Proof.
  revert a. induction fs as [| f fs IH]; intros a; simpl; [done |].
  destruct (validated_data !! Drf.name f) as [v |]; [| by apply IH].
  destruct (setattr_keeps_key a (Drf.name f) v) as [H1 H2].
  destruct (IH (Activity.setattr a (Drf.name f) v)) as [H3 H4].
  simpl in H3, H4. split; congruence.
Qed.

(** X3: PUT and PATCH on an activity of the caller are all or nothing and
    stay on that activity.  Either the body is refused with 400 and the
    table is the one before, or the answer is 200 and exactly the rows
    with the requested key are replaced by the saved instance, which has
    the same key and the same owner whatever the body contains; the table
    keeps its length and every row with another key stays where it is. *)
Theorem update_is_all_or_nothing (today : date) (method : Method)
    (u pk : Z) (data : Dict) (db : Activity.table) (a : Activity.t) :
  method = PUT ∨ method = PATCH →
  ActivityDetailView.get_object u pk db = Some a →
  let r := ActivityDetailView.dispatch today method (Some u) pk data db in
  (∃ errors, errors ≠ [] ∧ r = (Drf.bad_request errors, db))
  ∨ (∃ a',
       r.1 = Drf.Resp Drf.HTTP_200_OK (Drf.Content a')
       ∧ Activity.id a' = Some pk ∧ Activity.user a' = u
       ∧ r.2 = (λ row, if bool_decide (Activity.id row = Some pk)
                       then a' else row) <$> db
       ∧ ActivityDetailView.get_object u pk r.2 = Some a'
       ∧ length r.2 = length db
       ∧ ∀ i row, db !! i = Some row → Activity.id row ≠ Some pk →
                  r.2 !! i = Some row).
Proof.
  intros Hm Hget r.
  pose proof (get_object_Some _ _ _ _ Hget) as (Hin & Hu & Hid).
  assert (Hr : r = ActivityDetailView.update today method
                     (bool_decide (method = PATCH)) u pk data db).
  { subst r. by destruct Hm as [-> | ->]. }
  unfold ActivityDetailView.update in Hr. rewrite Hget in Hr.
  assert (Hsz : ActivityDetailView.get_serializer_class today method
                = ActivityCreateSerializer.serializer)
    by (by destruct Hm as [-> | ->]).
  rewrite Hsz in Hr. unfold Drf.run_validation in Hr.
  destruct (Drf.to_internal_value _ _ _ data) as [[| e es] vd].
  - right. simpl in Hr. unfold ModelSerializer_update in Hr.
    destruct (foldl_setattr_keeps_key vd
                (Drf.fields ActivityCreateSerializer.serializer) a)
      as [Hid1 Hu1].
    set (a1 := foldl _ a _) in *. simpl in Hid1, Hu1.
    rewrite Hid in Hid1.
    destruct (save_keeps a1 db pk Hid1) as (Hid' & Hu' & _).
    pose proof (save_updates a1 db pk Hid1 (ex_intro _ a (conj Hin Hid)))
      as Hdb.
    destruct (Activity.save a1 db) as [a' db'] eqn:Es.
    simpl in Hid', Hu', Hdb. exists a'. rewrite Hr. simpl.
    split; [done |]. split; [done |]. split; [congruence |].
    split; [done |]. subst db'.
    split; [apply get_object_saved; [eauto | done | congruence] |].
    split; [by rewrite length_fmap |].
    intros i row Hi Hrow. rewrite list_lookup_fmap, Hi. simpl.
    by rewrite bool_decide_eq_false_2.
  - left. exists (e :: es). split; [done |]. by rewrite Hr.
Qed.

Lemma update_is_all_or_nothing_witness :
  (ActivityDetailView.dispatch (Date 2024 6 14) PATCH (Some 1) 2
     {[ "duration" := VInt 0 ]} sample_log).2 = sample_log
  ∧ length (ActivityDetailView.dispatch (Date 2024 6 14) PATCH (Some 1) 2
              {[ "duration" := VInt 50 ]} sample_log).2 = 3%nat.
Proof.
  split.
  - destruct (update_is_all_or_nothing (Date 2024 6 14) PATCH 1 2
                {[ "duration" := VInt 0 ]} sample_log _
                (or_intror eq_refl) eq_refl)
      as [(errors & _ & Hr) | (a' & Hr & _)].
    + by rewrite Hr.
    + vm_compute in Hr. discriminate Hr.
  - destruct (update_is_all_or_nothing (Date 2024 6 14) PATCH 1 2
                {[ "duration" := VInt 50 ]} sample_log _
                (or_intror eq_refl) eq_refl)
      as [(errors & _ & Hr) | (a' & _ & _ & _ & _ & _ & Hlen & _)].
    + vm_compute in Hr. discriminate Hr.
    + exact Hlen.
Defined.

Lemma get_pk_filter_ne (u pk : Z) (db : Activity.table) :
  ActivityDetailView.get_object u pk
    (filter (λ r, Activity.id r ≠ Some pk) db) = None.
Proof.
  apply get_object_None. intros a Ha Hid.
  apply list_elem_of_filter in Ha as [Hne _]. done.
Qed.

(** X4: DELETE on an activity of the caller answers 204 and removes the
    rows with the requested key and no other row; afterwards every
    request of the caller for that key, whatever its method, is answered
    with 404. *)
Theorem destroy_removes_the_activity (today : date) (u pk : Z)
    (db : Activity.table) (a : Activity.t) :
  ActivityDetailView.get_object u pk db = Some a →
  let r := ActivityDetailView.dispatch today DELETE (Some u) pk ∅ db in
  r = (Drf.Resp Drf.HTTP_204_NO_CONTENT Drf.NoContent,
       filter (λ row, Activity.id row ≠ Some pk) db)
  ∧ (∀ row, row ∈ r.2 ↔ row ∈ db ∧ Activity.id row ≠ Some pk)
  ∧ ∀ method data,
      ActivityDetailView.dispatch today method (Some u) pk data r.2
      = (Drf.not_found, r.2).
Proof.
  intros Hget r.
  pose proof (get_object_Some _ _ _ _ Hget) as (Hin & Hu & Hid).
  assert (Hr : r = (Drf.Resp Drf.HTTP_204_NO_CONTENT Drf.NoContent,
                    filter (λ row, Activity.id row ≠ Some pk) db)).
  { subst r. unfold ActivityDetailView.dispatch, Drf.IsAuthenticated,
      ActivityDetailView.destroy, Activity.delete.
    rewrite Hget, Hid. done. }
  split; [done |]. rewrite Hr. simpl. split.
  - intros row. rewrite list_elem_of_filter. tauto.
  - intros method data.
    unfold ActivityDetailView.dispatch, Drf.IsAuthenticated,
      ActivityDetailView.retrieve, ActivityDetailView.update,
      ActivityDetailView.destroy.
    rewrite get_pk_filter_ne. by destruct method.
Qed.

Lemma destroy_removes_the_activity_witness :
  (ActivityDetailView.dispatch (Date 2024 6 14) DELETE (Some 1) 2 ∅
     sample_log).2
  = [ run_30min_5km;
      Activity.Make (Some 3) 2 "SWIMMING" "Laps" "" 45 (Some 200) (Some 400)
        "MODERATE" (Date 2024 6 14) None None None "" ].
Proof.
  destruct (destroy_removes_the_activity (Date 2024 6 14) 1 2 sample_log _
              eq_refl) as (Hr & _).
  rewrite Hr. reflexivity.
Defined.

(** ** The detail view: what a write stores *)

(** The validated dictionary has no key beyond the declared fields. *)
Lemma to_internal_value_dom (sz : Drf.Serializer) (partial : bool)
    (fs : list Drf.Field) (data ret : Dict) (errs : Drf.Errors) (k : string) :
  Drf.to_internal_value sz partial fs data = (errs, ret) →
  is_Some (ret !! k) → k ∈ Drf.name <$> fs.
Proof.
  revert ret errs. induction fs as [| h fs IH]; intros ret errs E Hk.
  - simpl in E. injection E as _ <-.
    rewrite lookup_empty in Hk. by destruct Hk.
  - simpl in E.
    destruct (Drf.to_internal_value sz partial fs data) as [errs0 ret0] eqn:E0.
    rewrite fmap_cons.
    destruct (data !! Drf.name h) as [w |].
    + destruct (Drf.run_field h w) as [? | w'].
      { injection E as _ <-. apply elem_of_cons. right. by eapply IH. }
      destruct (Drf.validate_field sz (Drf.name h) w').
      { injection E as _ <-. apply elem_of_cons. right. by eapply IH. }
      injection E as _ <-.
      destruct (decide (Drf.name h = k)) as [-> | Hne];
        [apply list_elem_of_here |].
      rewrite lookup_insert_ne in Hk by done.
      apply elem_of_cons. right. by eapply IH.
    + destruct (Drf.required h && negb partial);
        injection E as _ <-; apply elem_of_cons; right; by eapply IH.
Qed.

(** What [to_internal_value] does with each declared field when it
    reports no error. *)
Lemma to_internal_value_field (sz : Drf.Serializer) (partial : bool)
    (fs : list Drf.Field) (data vd : Dict) (f : Drf.Field) :
  NoDup (Drf.name <$> fs) → f ∈ fs →
  Drf.to_internal_value sz partial fs data = ([], vd) →
  match data !! Drf.name f with
  | Some v =>
      ∃ v' v'', Drf.run_field f v = inr v'
                ∧ Drf.validate_field sz (Drf.name f) v' = inr v''
                ∧ vd !! Drf.name f = Some v''
  | None => vd !! Drf.name f = None ∧ Drf.required f && negb partial = false
  end.
Proof.
  revert vd. induction fs as [| g fs IH]; intros vd Hnd Hin Hok.
  - by apply elem_of_nil in Hin.
  - rewrite fmap_cons in Hnd. apply NoDup_cons in Hnd as [Hg Hnd].
    simpl in Hok.
    destruct (Drf.to_internal_value sz partial fs data) as [errors ret] eqn:E.
    assert (Hstep : errors = []
                    ∧ match data !! Drf.name g with
                      | Some w =>
                          ∃ w' w'', Drf.run_field g w = inr w'
                            ∧ Drf.validate_field sz (Drf.name g) w' = inr w''
                            ∧ vd = <[Drf.name g := w'']> ret
                      | None => vd = ret
                                ∧ Drf.required g && negb partial = false
                      end).
    { destruct (data !! Drf.name g) as [w |].
      - destruct (Drf.run_field g w) as [? | w'] eqn:Er; [done |].
        destruct (Drf.validate_field sz (Drf.name g) w') as [? | w''] eqn:Ef;
          [done |].
        injection Hok as -> <-. split; [done |]. by exists w', w''.
      - destruct (Drf.required g && negb partial); [done |].
        by injection Hok as -> <-. }
    destruct Hstep as [-> Hstep].
    apply elem_of_cons in Hin as [-> | Hin].
    + destruct (data !! Drf.name g) as [w |].
      * destruct Hstep as (w' & w'' & Hr & Hf & ->).
        exists w', w''. by rewrite lookup_insert_eq.
      * destruct Hstep as [-> Hreq]. split; [| done].
        specialize (IH ret Hnd).
        destruct (ret !! Drf.name g) as [x |] eqn:Ex; [| done].
        exfalso. apply Hg.
        eapply to_internal_value_dom; [exact E | by rewrite Ex].
    + specialize (IH ret Hnd Hin eq_refl).
      assert (Hne : Drf.name g ≠ Drf.name f).
      { intros Heq. apply Hg. rewrite Heq. by apply list_elem_of_fmap_2. }
      assert (Hvd : vd !! Drf.name f = ret !! Drf.name f).
      { destruct (data !! Drf.name g) as [w |].
        - destruct Hstep as (w' & w'' & _ & _ & ->).
          by rewrite lookup_insert_ne.
        - by destruct Hstep as [-> _]. }
      by rewrite Hvd.
Qed.

Ltac setattr_cases k :=
  unfold Activity.setattr;
  repeat match goal with
         | |- context [String.eqb k ?lit] =>
             destruct (String.eqb_spec k lit); [subst; try done |]
         end.

(** A column read after the loop of [ModelSerializer.update] is the
    column read after the one assignment to its own attribute. *)
Lemma foldl_setattr_column {X} (P : Activity.t → X) (k : string) (vd : Dict) :
  (∀ a k' v, k' ≠ k → P (Activity.setattr a k' v) = P a) →
  (∀ a a' v, P a = P a' →
             P (Activity.setattr a k v) = P (Activity.setattr a' k v)) →
  ∀ fs a,
    NoDup (Drf.name <$> fs) → k ∈ Drf.name <$> fs →
    P (foldl (λ a f, match vd !! Drf.name f with
                     | Some v => Activity.setattr a (Drf.name f) v
                     | None => a
                     end) a fs)
    = P (match vd !! k with
         | Some v => Activity.setattr a k v
         | None => a
         end).
Proof.
  intros Hother Hsame.
  assert (Hskip : ∀ fs a,
            k ∉ Drf.name <$> fs →
            P (foldl (λ a f, match vd !! Drf.name f with
                             | Some v => Activity.setattr a (Drf.name f) v
                             | None => a
                             end) a fs) = P a).
  { induction fs as [| g fs IH]; intros a Hk; [done |].
    rewrite fmap_cons in Hk. apply not_elem_of_cons in Hk as [Hne Hk].
    simpl. rewrite IH by done.
    destruct (vd !! Drf.name g); [by apply Hother | done]. }
  induction fs as [| g fs IH]; intros a Hnd Hin.
  - by apply elem_of_nil in Hin.
  - rewrite fmap_cons in Hnd, Hin. apply NoDup_cons in Hnd as [Hg Hnd].
    simpl. destruct (decide (Drf.name g = k)) as [Heq | Hne].
    + rewrite Hskip by (by rewrite <- Heq). by rewrite Heq.
    + apply elem_of_cons in Hin as [-> | Hin]; [done |].
      rewrite IH by done.
      assert (Hg1 : P (match vd !! Drf.name g with
                       | Some v => Activity.setattr a (Drf.name g) v
                       | None => a
                       end) = P a).
      { destruct (vd !! Drf.name g); [by apply Hother | done]. }
      destruct (vd !! k); [by apply Hsame | done].
Qed.

Lemma activity_fields_NoDup : NoDup (Drf.name <$> activity_model_fields).
Proof. apply (bool_decide_unpack _). vm_compute. exact I. Qed.

(** With a primary key that is set, [save] changes the title at most. *)
Lemma save_keeps_columns (a : Activity.t) (db : Activity.table) (pk : Z) :
  Activity.id a = Some pk →
  let a' := (Activity.save a db).1 in
  Activity.activity_type a' = Activity.activity_type a
  ∧ Activity.intensity a' = Activity.intensity a
  ∧ Activity.duration a' = Activity.duration a
  ∧ Activity.distance a' = Activity.distance a
  ∧ Activity.calories_burned a' = Activity.calories_burned a
  ∧ Activity.elevation_gain a' = Activity.elevation_gain a
  ∧ Activity.date a' = Activity.date a
  ∧ (Activity.title a ≠ ""%string → Activity.title a' = Activity.title a).
Proof.
  intros Hid. unfold Activity.save, Activity.save_instance, Activity.str_date,
    Activity.Model_save. simpl truthy.
  destruct (String.eqb_spec (Activity.title a) ""); simpl negb; cbv iota;
    simpl Activity.id; rewrite Hid; destruct (existsb _ db); done.
Qed.

Lemma run_field_integer (name : string) (lo hi : Z) (req null : bool)
    (v v' : Value) :
  Drf.run_field (Drf.MkField name (Drf.IntegerField lo hi) req null) v
  = inr v' →
  v' = v ∧ (v = VNull ∧ null = true ∨ ∃ n, v = VInt n ∧ lo ≤ n ≤ hi).
Proof.
  unfold Drf.run_field. simpl.
  destruct v as [| n | | |]; try done.
  - destruct null; [| done]. intros [= <-]. auto.
  - destruct (Z.ltb_spec n lo); [done |].
    destruct (Z.ltb_spec hi n); [done |].
    intros [= <-]. split; [done |]. right. exists n. split; [done | lia].
Qed.

Lemma run_decimal_field_inr (digits : nat) (lo c : Z) (v' : Value) :
  Drf.run_decimal_field digits lo c = inr v' → v' = VDecimal c ∧ lo ≤ c.
Proof.
  unfold Drf.run_decimal_field.
  destruct (Z.ltb_spec c lo); [done |].
  destruct (_ <=? _); [done |]. intros [= <-]. done.
Qed.

Lemma run_field_decimal (name : string) (digits : nat) (lo : Z)
    (req null : bool) (v v' : Value) :
  Drf.run_field (Drf.MkField name (Drf.DecimalField digits lo) req null) v
  = inr v' →
  v' = VNull ∧ null = true ∨ ∃ c, v' = VDecimal c ∧ lo ≤ c.
Proof.
  unfold Drf.run_field. simpl.
  destruct v as [| n | c | |]; try done.
  - destruct null; [| done]. intros [= <-]. auto.
  - intros H. apply run_decimal_field_inr in H as [-> H]. right. eauto.
  - intros H. apply run_decimal_field_inr in H as [-> H]. right. eauto.
Qed.

Lemma run_field_choice (name : string) (choices : list string)
    (req : bool) (v v' : Value) :
  Drf.run_field (Drf.MkField name (Drf.ChoiceField choices false) req false)
    v
  = inr v' →
  v' = v ∧ ∃ s, v = VStr s ∧ s ∈ choices.
Proof.
  unfold Drf.run_field. simpl.
  destruct v as [| | | s |]; try done.
  rewrite andb_false_r.
  destruct (bool_decide_reflect (s ∈ choices)); [| done].
  intros [= <-]. split; [done |]. by exists s.
Qed.

Ltac column_other :=
  let a := fresh "a" in let k := fresh "k" in
  intros a k ? ?; destruct a; setattr_cases k; done.

Ltac column_same :=
  let a := fresh "a" in let a' := fresh "a'" in let v := fresh "v" in
  intros a a' v ?; destruct a, a'; simpl in *; destruct v; simpl; congruence.

(** X5: the bounds of the model are kept by the writes of the detail
    view.  When the stored activity is within the declared choices and
    bounds and a PUT or PATCH of its owner is answered with 200, the
    activity it stores is within them too; after a PUT this holds for the
    duration and the activity type whatever was stored before. *)
Theorem update_keeps_bounds (today : date) (method : Method) (u pk : Z)
    (data : Dict) (db : Activity.table) (a a' : Activity.t) :
  method = PUT ∨ method = PATCH →
  ActivityDetailView.get_object u pk db = Some a →
  (ActivityDetailView.dispatch today method (Some u) pk data db).1
  = Drf.Resp Drf.HTTP_200_OK (Drf.Content a') →
  (within_bounds a → within_bounds a')
  ∧ (method = PUT →
     1 ≤ Activity.duration a'
     ∧ Activity.activity_type a' ∈ Activity.ACTIVITY_TYPE_CHOICES.*1).
Proof.
  intros Hm Hget Hresp.
  pose proof (get_object_Some _ _ _ _ Hget) as (Hin & Hu & Hid).
  set (partial := bool_decide (method = PATCH)).
  assert (Hr : ActivityDetailView.dispatch today method (Some u) pk data db
               = ActivityDetailView.update today method partial u pk data db)
    by (by destruct Hm as [-> | ->]).
  rewrite Hr in Hresp. clear Hr.
  unfold ActivityDetailView.update in Hresp. rewrite Hget in Hresp.
  assert (Hsz : ActivityDetailView.get_serializer_class today method
                = ActivityCreateSerializer.serializer)
    by (by destruct Hm as [-> | ->]).
  rewrite Hsz in Hresp. unfold Drf.run_validation in Hresp.
  destruct (Drf.to_internal_value ActivityCreateSerializer.serializer partial
              (Drf.fields ActivityCreateSerializer.serializer) data)
    as [[| e es] vd] eqn:Hok; [| done].
  simpl in Hresp, Hok. unfold ModelSerializer_update in Hresp.
  simpl Drf.fields in Hresp.
  destruct (foldl_setattr_keeps_key vd activity_model_fields a) as [Hid1 _].
  set (a1 := foldl _ a activity_model_fields) in *. simpl in Hid1.
  rewrite Hid in Hid1.
  pose proof (save_keeps a1 db pk Hid1) as (_ & _ & Havg & Hmax).
  pose proof (save_keeps_columns a1 db pk Hid1)
    as (Hty & Hit & Hdu & Hdi & Hca & Hel & _ & _).
  destruct (Activity.save a1 db) as [a2 db'] eqn:Es.
  simpl in Hresp, Havg, Hmax, Hty, Hit, Hdu, Hdi, Hca, Hel.
  injection Hresp as ->.
  pose proof (λ f, to_internal_value_field ActivityCreateSerializer.serializer
                     partial activity_model_fields data vd f
                     activity_fields_NoDup) as Hfield.
  pose proof (λ X (P : Activity.t → X) k H1 H2 Hk,
                foldl_setattr_column P k vd H1 H2 activity_model_fields a
                  activity_fields_NoDup Hk) as Hcol.
  fold a1 in Hcol.
  (* activity_type *)
  assert (Hcty : (Activity.activity_type a1 = Activity.activity_type a
                  ∧ (data !! "activity_type" = None))
                 ∨ Activity.activity_type a1
                   ∈ Activity.ACTIVITY_TYPE_CHOICES.*1).
  { specialize (Hfield _ ltac:(apply list_elem_of_here) Hok). simpl in Hfield.
    rewrite (Hcol _ Activity.activity_type "activity_type"
               ltac:(column_other) ltac:(column_same)
               ltac:(apply (bool_decide_unpack _); vm_compute; exact I)).
    destruct (data !! "activity_type") as [v |].
    - destruct Hfield as (v' & v'' & Hrun & [= <-] & ->). right.
      apply run_field_choice in Hrun as [-> (s & -> & Hs)].
      by destruct a.
    - destruct Hfield as [-> _]. by left. }
  (* duration *)
  assert (Hcdu : (Activity.duration a1 = Activity.duration a
                  ∧ data !! "duration" = None)
                 ∨ 1 ≤ Activity.duration a1).
  { specialize (Hfield _ ltac:(do 3 apply list_elem_of_further;
                                apply list_elem_of_here) Hok).
    simpl in Hfield.
    rewrite (Hcol _ Activity.duration "duration"
               ltac:(column_other) ltac:(column_same)
               ltac:(apply (bool_decide_unpack _); vm_compute; exact I)).
    destruct (data !! "duration") as [v |].
    - destruct Hfield as (v' & v'' & Hrun & [= <-] & ->).
      apply run_field_integer in Hrun as [-> [[_ [=]] | (n & -> & Hn)]].
      right. destruct a. simpl. lia.
    - destruct Hfield as [-> _]. by left. }
  split.
  - intros (Bty & Bit & Bdu & Bdi & Bca & Bavg & Bmax & Bel).
    unfold within_bounds.
    rewrite Hty, Hit, Hdu, Hdi, Hca, Havg, Hmax, Hel.
    split; [by destruct Hcty as [[-> _] | ?] |].
    split.
    { specialize (Hfield _ ltac:(do 6 apply list_elem_of_further;
                                  apply list_elem_of_here) Hok).
      simpl in Hfield.
      rewrite (Hcol _ Activity.intensity "intensity"
                 ltac:(column_other) ltac:(column_same)
                 ltac:(apply (bool_decide_unpack _); vm_compute; exact I)).
      destruct (data !! "intensity") as [v |].
      - destruct Hfield as (v' & v'' & Hrun & [= <-] & ->).
        apply run_field_choice in Hrun as [-> (s & -> & Hs)]. by destruct a.
      - by destruct Hfield as [-> _]. }
    split; [destruct Hcdu as [[-> _] | ?]; done |].
    split.
    { specialize (Hfield _ ltac:(do 4 apply list_elem_of_further;
                                  apply list_elem_of_here) Hok).
      simpl in Hfield.
      rewrite (Hcol _ Activity.distance "distance"
                 ltac:(column_other) ltac:(column_same)
                 ltac:(apply (bool_decide_unpack _); vm_compute; exact I)).
      destruct (data !! "distance") as [v |].
      - destruct Hfield as (v' & v'' & Hrun & [= <-] & ->).
        apply run_field_decimal in Hrun as [[-> _] | (c & -> & Hc)];
          destruct a; simpl; [done |]. by intros ? [= <-].
      - by destruct Hfield as [-> _]. }
    split.
    { specialize (Hfield _ ltac:(do 5 apply list_elem_of_further;
                                  apply list_elem_of_here) Hok).
      simpl in Hfield.
      rewrite (Hcol _ Activity.calories_burned "calories_burned"
                 ltac:(column_other) ltac:(column_same)
                 ltac:(apply (bool_decide_unpack _); vm_compute; exact I)).
      destruct (data !! "calories_burned") as [v |].
      - destruct Hfield as (v' & v'' & Hrun & [= <-] & ->).
        apply run_field_integer in Hrun as [-> [[-> _] | (c & -> & Hc)]];
          destruct a; simpl; [done |]. intros ? [= <-]. lia.
      - by destruct Hfield as [-> _]. }
    split.
    { specialize (Hfield _ ltac:(do 8 apply list_elem_of_further;
                                  apply list_elem_of_here) Hok).
      simpl in Hfield.
      rewrite (Hcol _ Activity.average_heart_rate "average_heart_rate"
                 ltac:(column_other) ltac:(column_same)
                 ltac:(apply (bool_decide_unpack _); vm_compute; exact I)).
      destruct (data !! "average_heart_rate") as [v |].
      - destruct Hfield as (v' & v'' & Hrun & [= <-] & ->).
        apply run_field_integer in Hrun as [-> [[-> _] | (c & -> & Hc)]];
          destruct a; simpl; [done |]. by intros ? [= <-].
      - by destruct Hfield as [-> _]. }
    split.
    { specialize (Hfield _ ltac:(do 9 apply list_elem_of_further;
                                  apply list_elem_of_here) Hok).
      simpl in Hfield.
      rewrite (Hcol _ Activity.max_heart_rate "max_heart_rate"
                 ltac:(column_other) ltac:(column_same)
                 ltac:(apply (bool_decide_unpack _); vm_compute; exact I)).
      destruct (data !! "max_heart_rate") as [v |].
      - destruct Hfield as (v' & v'' & Hrun & [= <-] & ->).
        apply run_field_integer in Hrun as [-> [[-> _] | (c & -> & Hc)]];
          destruct a; simpl; [done |]. by intros ? [= <-].
      - by destruct Hfield as [-> _]. }
    { specialize (Hfield _ ltac:(do 10 apply list_elem_of_further;
                                  apply list_elem_of_here) Hok).
      simpl in Hfield.
      rewrite (Hcol _ Activity.elevation_gain "elevation_gain"
                 ltac:(column_other) ltac:(column_same)
                 ltac:(apply (bool_decide_unpack _); vm_compute; exact I)).
      destruct (data !! "elevation_gain") as [v |].
      - destruct Hfield as (v' & v'' & Hrun & [= <-] & ->).
        apply run_field_decimal in Hrun as [[-> _] | (c & -> & Hc)];
          destruct a; simpl; [done |]. by intros ? [= <-].
      - by destruct Hfield as [-> _]. }
  - intros ->. rewrite Hdu, Hty. subst partial. split.
    + destruct Hcdu as [[_ Hnone] | ?]; [| done].
      specialize (Hfield _ ltac:(do 3 apply list_elem_of_further;
                                  apply list_elem_of_here) Hok).
      simpl in Hfield. rewrite Hnone in Hfield. by destruct Hfield.
    + destruct Hcty as [[_ Hnone] | ?]; [| done].
      specialize (Hfield _ ltac:(apply list_elem_of_here) Hok).
      simpl in Hfield. rewrite Hnone in Hfield. by destruct Hfield.
Qed.

Lemma update_keeps_bounds_witness :
  within_bounds
    (Activity.Make (Some 2) 1 "YOGA" "Stretch" "" 50 None None "LOW"
       (Date 2024 6 9) None None None "").
Proof.
  apply (update_keeps_bounds (Date 2024 6 14) PUT 1 2
           {[ "activity_type" := VStr "YOGA"; "duration" := VInt 50 ]}
           sample_log
           (Activity.Make (Some 2) 1 "YOGA" "Stretch" "" 45 None None "LOW"
              (Date 2024 6 9) None None None "")).
  - left. reflexivity.
  - reflexivity.
  - vm_compute. reflexivity.
  - unfold within_bounds. simpl.
    repeat match goal with |- _ ∧ _ => split end;
      first [ by intros ? [=] | lia
            | apply (bool_decide_unpack _); vm_compute; exact I ].
Defined.

Lemma run_validation_date_only (d : date) :
  Drf.run_validation ActivityCreateSerializer.serializer true
    {[ "date" := VDate d ]}
  = inr {[ "date" := VDate d ]}.
Proof.
  unfold Drf.run_validation. cbn.
  repeat (first [ rewrite lookup_singleton_eq
                | rewrite lookup_singleton_ne by done ]; cbn).
  reflexivity.
Qed.

Lemma update_date_only (d : date) (a : Activity.t) (db : Activity.table) :
  ModelSerializer_update ActivityCreateSerializer.serializer a
    {[ "date" := VDate d ]} db
  = Activity.save (Activity.setattr a "date" (VDate d)) db.
Proof.
  unfold ModelSerializer_update.
  cbn [Drf.fields ActivityCreateSerializer.serializer
         activity_model_fields foldl Drf.name].
  repeat (first [ rewrite lookup_singleton_eq
                | rewrite lookup_singleton_ne by done ]).
  reflexivity.
Qed.

(** X6: a PATCH of the owner that carries a date stores that date, also
    when it lies after today: the future-date check is a method of
    [ActivitySerializer], and PATCH is served by
    [ActivityCreateSerializer].  A title that is already set stays as it
    is, also when it was derived from the old date. *)
Theorem patch_stores_any_date (today : date) (u pk : Z)
    (db : Activity.table) (a : Activity.t) (d : date) :
  ActivityDetailView.get_object u pk db = Some a →
  let r := ActivityDetailView.dispatch today PATCH (Some u) pk
             {[ "date" := VDate d ]} db in
  (∃ a',
     r.1 = Drf.Resp Drf.HTTP_200_OK (Drf.Content a')
     ∧ ActivityDetailView.get_object u pk r.2 = Some a'
     ∧ Activity.date a' = d
     ∧ (Activity.title a ≠ ""%string → Activity.title a' = Activity.title a))
  ∧ (Dates.ltb today d = true →
     ActivitySerializer.validate_date today (VDate d)
     = inl "Activity date cannot be in the future."%string).
Proof.
  intros Hget r. split.
  - pose proof (get_object_Some _ _ _ _ Hget) as (Hin & Hu & Hid).
    set (a1 := Activity.setattr a "date" (VDate d)).
    assert (H1 : Activity.id a1 = Some pk ∧ Activity.user a1 = u
                 ∧ Activity.date a1 = d
                 ∧ Activity.title a1 = Activity.title a).
    { subst a1. destruct a. simpl in *. done. }
    destruct H1 as (Hid1 & Hu1 & Hd1 & Ht1).
    pose proof (save_keeps a1 db pk Hid1) as (Hid' & Hu' & _).
    pose proof (save_keeps_columns a1 db pk Hid1)
      as (_ & _ & _ & _ & _ & _ & Hd' & Ht').
    pose proof (save_updates a1 db pk Hid1 (ex_intro _ a (conj Hin Hid)))
      as Hdb.
    assert (Hr : r = (Drf.Resp Drf.HTTP_200_OK
                        (Drf.Content (Activity.save a1 db).1),
                      (Activity.save a1 db).2)).
    { subst r. unfold ActivityDetailView.dispatch, Drf.IsAuthenticated,
        ActivityDetailView.update.
      rewrite Hget. unfold ActivityDetailView.get_serializer_class.
      rewrite run_validation_date_only, update_date_only.
      fold a1. by destruct (Activity.save a1 db). }
    exists (Activity.save a1 db).1. rewrite Hr. simpl.
    split; [done |]. split.
    + rewrite Hdb. apply get_object_saved; [eauto | done | congruence].
    + split; [congruence |]. intros Hne. rewrite Ht' by congruence. done.
  - intros Hfuture. simpl. by rewrite Hfuture.
Qed.

Lemma patch_stores_any_date_witness :
  ∃ a', (ActivityDetailView.dispatch (Date 2024 6 14) PATCH (Some 1) 2
           {[ "date" := VDate (Date 2031 1 1) ]} sample_log).1
        = Drf.Resp Drf.HTTP_200_OK (Drf.Content a')
        ∧ Activity.date a' = Date 2031 1 1
        ∧ Activity.title a' = "Stretch"%string.
Proof.
  destruct (patch_stores_any_date (Date 2024 6 14) 1 2 sample_log _
              (Date 2031 1 1) eq_refl) as [(a' & Hr & _ & Hd & Ht) _].
  exists a'. split; [exact Hr |]. split; [exact Hd |].
  apply Ht. discriminate.
Defined.

(** X7: what [ActivitySerializer] lets through.  Data that pass its
    validation carry no date after today, and, when both heart rates are
    given as numbers, an average that is not above the maximum. *)
Theorem ActivitySerializer_accepts_consistent_data (today : date)
    (partial : bool) (data vd : Dict) :
  Drf.run_validation (ActivitySerializer.serializer today) partial data
  = inr vd →
  (∀ d, vd !! "date" = Some (VDate d) → Dates.leb d today = true)
  ∧ (∀ x y, vd !! "average_heart_rate" = Some (VInt x) →
            vd !! "max_heart_rate" = Some (VInt y) → x ≤ y).
Proof.
  unfold Drf.run_validation. simpl Drf.fields.
  destruct (Drf.to_internal_value (ActivitySerializer.serializer today)
              partial activity_model_fields data) as [[| e es] value] eqn:Hok;
    [| done].
  simpl Drf.validate. intros Hval.
  pose proof (λ f, to_internal_value_field (ActivitySerializer.serializer today)
                     partial activity_model_fields data value f
                     activity_fields_NoDup) as Hfield.
  assert (Hvd : vd = value).
  { unfold ActivitySerializer.validate in Hval.
    destruct (_ && _ && _); congruence. }
  subst vd. split.
  - intros d Hd.
    specialize (Hfield _ ltac:(do 7 apply list_elem_of_further;
                                apply list_elem_of_here) Hok).
    simpl in Hfield.
    destruct (data !! "date") as [v |]; [| destruct Hfield; congruence].
    destruct Hfield as (v' & v'' & Hrun & Hdate & Hlook).
    rewrite Hd in Hlook. injection Hlook as <-.
    unfold ActivitySerializer.validate_field in Hdate. simpl in Hdate.
    destruct v'; simpl in Hdate; try congruence.
    unfold Dates.leb.
    destruct (Dates.ltb today d0) eqn:E; [done |].
    injection Hdate as ->. by rewrite E.
  - intros x y Hx Hy.
    pose proof (Hfield _ ltac:(do 8 apply list_elem_of_further;
                                apply list_elem_of_here) Hok) as Ha.
    pose proof (Hfield _ ltac:(do 9 apply list_elem_of_further;
                                apply list_elem_of_here) Hok) as Hm.
    simpl in Ha, Hm.
    destruct (data !! "average_heart_rate") as [va |];
      [| destruct Ha; congruence].
    destruct (data !! "max_heart_rate") as [vm |];
      [| destruct Hm; congruence].
    destruct Ha as (va' & va'' & Hra & [= <-] & Hla).
    destruct Hm as (vm' & vm'' & Hrm & [= <-] & Hlm).
    rewrite Hx in Hla. rewrite Hy in Hlm.
    injection Hla as <-. injection Hlm as <-.
    apply run_field_integer in Hra as [<- [[[=] _] | (? & [= <-] & Hxr)]].
    apply run_field_integer in Hrm as [<- [[[=] _] | (? & [= <-] & Hyr)]].
    unfold ActivitySerializer.validate, dict_get in Hval.
    rewrite Hx, Hy in Hval. simpl in Hval.
    destruct (Z.eqb_spec x 0); [lia |]. destruct (Z.eqb_spec y 0); [lia |].
    simpl in Hval. destruct (Z.ltb_spec y x); [done | lia].
Qed.

Lemma ActivitySerializer_accepts_consistent_data_witness :
  Dates.leb (Date 2024 6 10) (Date 2024 6 14) = true.
Proof.
  assert (Hok : Drf.run_validation
                  (ActivitySerializer.serializer (Date 2024 6 14)) true
                  {[ "date" := VDate (Date 2024 6 10) ]}
                = inr {[ "date" := VDate (Date 2024 6 10) ]})
    by (vm_compute; reflexivity).
  destruct (ActivitySerializer_accepts_consistent_data _ _ _ _ Hok) as [H _].
  apply (H (Date 2024 6 10)). reflexivity.
Defined.

(** ** The statistics views *)

Lemma count_by_type_Permutation (qs : Activity.table) :
  Aggregates.count_by_type qs
  ≡ₚ (λ ty, (ty, count_of ty qs))
       <$> remove_dups (Activity.activity_type <$> qs).
Proof. unfold Aggregates.count_by_type. apply merge_sort_Permutation. Qed.

Lemma count_of_cons (ty : string) (a : Activity.t) (qs : Activity.table) :
  count_of ty (a :: qs)
  = ((if bool_decide (Activity.activity_type a = ty) then 1 else 0)
     + count_of ty qs)%nat.
Proof.
  unfold count_of. rewrite filter_cons.
  destruct (decide (Activity.activity_type a = ty)).
  - by rewrite bool_decide_eq_true_2.
  - by rewrite bool_decide_eq_false_2.
Qed.

(** The groups are the types that occur, each with the number of its
    activities. *)
Lemma elem_of_count_by_type (qs : Activity.table) (ty : string) (n : nat) :
  (ty, n) ∈ Aggregates.count_by_type qs ↔
  n = count_of ty qs ∧ ∃ a, a ∈ qs ∧ Activity.activity_type a = ty.
Proof.
  rewrite count_by_type_Permutation, list_elem_of_fmap. split.
  - intros (ty' & [= -> ->] & Hin).
    apply elem_of_remove_dups, list_elem_of_fmap in Hin as (a & -> & Ha).
    split; [done |]. by exists a.
  - intros (-> & a & Ha & <-). eexists. split; [done |].
    apply elem_of_remove_dups. by apply list_elem_of_fmap_2.
Qed.

Lemma count_by_type_NoDup (qs : Activity.table) :
  NoDup (Aggregates.count_by_type qs).*1.
Proof.
  rewrite count_by_type_Permutation, <- list_fmap_compose.
  simpl. rewrite list_fmap_id. apply NoDup_remove_dups.
Qed.

Lemma count_positive (qs : Activity.table) (ty : string) :
  (0 < count_of ty qs)%nat ↔ ∃ a, a ∈ qs ∧ Activity.activity_type a = ty.
Proof.
  unfold count_of. split.
  - intros Hpos.
    destruct (filter (λ a, Activity.activity_type a = ty) qs) as [| a l] eqn:E;
      [simpl in Hpos; lia |].
    assert (Ha : a ∈ filter (λ a, Activity.activity_type a = ty) qs)
      by (rewrite E; apply list_elem_of_here).
    apply list_elem_of_filter in Ha as [? ?]. by exists a.
  - intros (a & Ha & Hty).
    assert (Hin : a ∈ filter (λ a, Activity.activity_type a = ty) qs)
      by (by apply list_elem_of_filter).
    destruct (filter _ qs); [by apply elem_of_nil in Hin | simpl; lia].
Qed.

(** Among distinct types exactly one, if any, is the type of [a]. *)
Lemma sum_of_indicator (a : Activity.t) (tys : list string) :
  NoDup tys →
  sum_list ((λ ty, if bool_decide (Activity.activity_type a = ty)
                   then 1%nat else 0%nat) <$> tys)
  = if bool_decide (Activity.activity_type a ∈ tys) then 1%nat else 0%nat.
Proof.
  induction tys as [| ty tys IH]; intros Hnd; [done |].
  apply NoDup_cons in Hnd as [Hty Hnd]. csimpl. rewrite (IH Hnd).
  destruct (decide (Activity.activity_type a = ty)) as [<- | Hne].
  - rewrite (bool_decide_eq_true_2 (_ = _)) by done.
    rewrite (bool_decide_eq_false_2 (_ ∈ tys)) by done.
    rewrite (bool_decide_eq_true_2 (_ ∈ _ :: tys)) by apply list_elem_of_here.
    done.
  - rewrite (bool_decide_eq_false_2 (_ = _)) by done.
    rewrite (bool_decide_ext (_ ∈ ty :: tys) (Activity.activity_type a ∈ tys));
      [done |].
    rewrite elem_of_cons. split; [intros [? | ?]; done | by right].
Qed.

(** Over distinct types that cover the list, the group sizes add up to
    the length of the list. *)
Lemma sum_of_counts (tys : list string) (qs : Activity.table) :
  NoDup tys → (∀ a, a ∈ qs → Activity.activity_type a ∈ tys) →
  sum_list ((λ ty, count_of ty qs) <$> tys) = length qs.
Proof.
  intros Hnd. induction qs as [| a qs IH]; intros Hcover.
  - clear. induction tys as [| ty tys IH]; [done |]. csimpl. by rewrite IH.
  - assert (Hsplit : ∀ tys',
              sum_list ((λ ty, count_of ty (a :: qs)) <$> tys')
              = (sum_list ((λ ty, if bool_decide (Activity.activity_type a = ty)
                                  then 1%nat else 0%nat) <$> tys')
                 + sum_list ((λ ty, count_of ty qs) <$> tys'))%nat).
    { induction tys' as [| ty tys' IH']; [done |].
      csimpl. rewrite IH', count_of_cons. lia. }
    rewrite Hsplit, sum_of_indicator, IH by
      (first [ done | intros b Hb; by apply Hcover, list_elem_of_further ]).
    rewrite bool_decide_eq_true_2 by apply Hcover, list_elem_of_here.
    simpl. lia.
Qed.

Lemma count_by_type_sum (qs : Activity.table) :
  sum_list (Aggregates.count_by_type qs).*2 = length qs.
Proof.
  rewrite count_by_type_Permutation, <- list_fmap_compose.
  apply sum_of_counts; [apply NoDup_remove_dups |].
  intros a Ha. apply elem_of_remove_dups. by apply list_elem_of_fmap_2.
Qed.

#[local] Instance count_desc_total : Total Aggregates.count_desc.
Proof. intros x y. unfold Aggregates.count_desc. lia. Qed.

#[local] Instance count_desc_trans : Transitive Aggregates.count_desc.
Proof. intros x y z. unfold Aggregates.count_desc. lia. Qed.

Lemma count_by_type_sorted (qs : Activity.table) :
  StronglySorted Aggregates.count_desc (Aggregates.count_by_type qs).
Proof.
  unfold Aggregates.count_by_type.
  apply StronglySorted_merge_sort; apply _.
Qed.

(** X8: the breakdown of the summary maps every activity type that occurs
    in the filtered set to the number of its activities and has no entry
    for a type that does not occur; its values add up to
    [total_activities]. *)
Theorem breakdown_counts_activities (qs : Activity.table) (ty : string) :
  Metrics.activity_breakdown (Metrics.summarize qs) !! ty
  = (if decide (count_of ty qs = 0%nat) then None
     else Some (count_of ty qs))
  ∧ Z.of_nat (sum_list (map_to_list
                          (Metrics.activity_breakdown (Metrics.summarize qs))).*2)
    = Metrics.total_activities (Metrics.summarize qs).
Proof.
  unfold Metrics.summarize. simpl. split.
  - destruct (decide (count_of ty qs = 0%nat)) as [Hz | Hnz].
    + apply not_elem_of_list_to_map. intros Hin.
      apply list_elem_of_fmap in Hin as ([ty' n] & -> & Hin).
      apply elem_of_count_by_type in Hin as (_ & Hex). simpl in Hz.
      apply count_positive in Hex. lia.
    + apply elem_of_list_to_map; [apply count_by_type_NoDup |].
      apply elem_of_count_by_type. split; [done |].
      apply count_positive. lia.
  - rewrite map_to_list_to_map by apply count_by_type_NoDup.
    by rewrite count_by_type_sum.
Qed.

(** X9: [most_common_activity] is a type with the largest number of
    activities in the filtered set, and there is none exactly when the
    set is empty. *)
Theorem most_common_is_maximal (qs : Activity.table) :
  (∀ ty, Metrics.most_common_activity (Metrics.summarize qs) = Some ty →
         (0 < count_of ty qs)%nat
         ∧ ∀ ty', (count_of ty' qs ≤ count_of ty qs)%nat)
  ∧ (Metrics.most_common_activity (Metrics.summarize qs) = None ↔ qs = []).
Proof.
  unfold Metrics.summarize. simpl. split.
  - intros ty Hhead.
    destruct (head (Aggregates.count_by_type qs)) as [[ty0 n] |] eqn:E;
      [| done].
    injection Hhead as ->.
    apply head_Some in E as [rest E].
    assert (Hin : (ty, n) ∈ Aggregates.count_by_type qs)
      by (rewrite E; apply list_elem_of_here).
    apply elem_of_count_by_type in Hin as [-> Hex].
    split; [by apply count_positive |].
    intros ty'.
    destruct (decide (count_of ty' qs = 0%nat)) as [-> | Hnz]; [lia |].
    assert (Hin' : (ty', count_of ty' qs) ∈ Aggregates.count_by_type qs).
    { apply elem_of_count_by_type. split; [done |].
      apply count_positive. lia. }
    pose proof (count_by_type_sorted qs) as Hsorted.
    rewrite E in Hin', Hsorted.
    apply StronglySorted_inv in Hsorted as [_ Hall].
    apply elem_of_cons in Hin' as [[= -> _] | Hin']; [done |].
    rewrite Forall_forall in Hall.
    exact (Hall _ Hin').
  - rewrite fmap_None, head_None. split.
    + intros Hnil. destruct qs as [| a qs]; [done |].
      assert (Hin : (Activity.activity_type a,
                     count_of (Activity.activity_type a) (a :: qs))
                    ∈ Aggregates.count_by_type (a :: qs)).
      { apply elem_of_count_by_type. split; [done |].
        exists a. split; [apply list_elem_of_here | done]. }
      rewrite Hnil in Hin. by apply elem_of_nil in Hin.
    + by intros ->.
Qed.

Lemma most_common_is_maximal_witness :
  Metrics.most_common_activity (Metrics.summarize sample_log) ≠ None.
Proof.
  destruct (most_common_is_maximal sample_log) as [_ H].
  intros Hnone. apply H in Hnone. discriminate Hnone.
Defined.

Lemma filter_user_idemp (u : Z) (db : Activity.table) :
  Activity.filter_user u (Activity.filter_user u db)
  = Activity.filter_user u db.
Proof.
  unfold Activity.filter_user. rewrite list_filter_filter.
  apply list_filter_iff. intros a. tauto.
Qed.

(** X10: the statistics of a user are computed from that user's rows
    alone.  Two tables that hold the same activities of the user, in the
    same order, give the same summary and the same statistics by type,
    whatever they hold for other users; and neither view changes the
    table. *)
Theorem statistics_see_own_activities_only (today : date) (u : Z)
    (q : Metrics.QueryParams) (db1 db2 : Activity.table) :
  Activity.filter_user u db1 = Activity.filter_user u db2 →
  (Metrics.activity_metrics today (Some u) q db1).1
  = (Metrics.activity_metrics today (Some u) q db2).1
  ∧ (Metrics.activity_type_stats (Some u) q db1).1
    = (Metrics.activity_type_stats (Some u) q db2).1
  ∧ (Metrics.activity_metrics today (Some u) q db1).2 = db1
  ∧ (Metrics.activity_type_stats (Some u) q db1).2 = db1
  ∧ ∀ a, a ∈ Metrics.metrics_queryset today u q db1 →
         a ∈ db1 ∧ Activity.user a = u.
Proof.
  intros Hsame. split; [| split; [| split; [| split]]].
  - unfold Metrics.activity_metrics, Metrics.metrics_queryset. simpl.
    rewrite Hsame. by destruct (Metrics.summary_representation _).
  - unfold Metrics.activity_type_stats. simpl. rewrite Hsame.
    by destruct (Metrics.type_stats_representation _).
  - unfold Metrics.activity_metrics. simpl.
    by destruct (Metrics.summary_representation _).
  - unfold Metrics.activity_type_stats. simpl.
    by destruct (Metrics.type_stats_representation _).
  - intros a Ha. by apply elem_of_metrics_queryset in Ha as (? & ? & _).
Qed.

Lemma statistics_see_own_activities_only_witness :
  (Metrics.activity_metrics (Date 2024 6 14) (Some 2) since_june_12
     sample_log).1
  = (Metrics.activity_metrics (Date 2024 6 14) (Some 2) since_june_12
       (Activity.filter_user 2 sample_log)).1.
Proof.
  apply (statistics_see_own_activities_only (Date 2024 6 14) 2 since_june_12
           sample_log (Activity.filter_user 2 sample_log)).
  symmetry. apply filter_user_idemp.
Defined.

Lemma non_null_Some {A} (xs : list A) :
  Aggregates.non_null (Some <$> xs) = xs.
Proof.
  unfold Aggregates.non_null. induction xs as [| x xs IH]; [done |].
  csimpl. by rewrite IH.
Qed.

(** X11: the duration is never missing, so for a set that is not empty
    the total duration is the sum of the durations, and the average
    duration is the binary64 quotient of the total duration by the
    number of activities, rounded to two decimal places as [round] does
    it: the hundredths nearest to the exact value of that quotient, the
    even ones on a tie. *)
Theorem average_duration_is_total_over_count (qs : Activity.table) :
  qs ≠ [] →
  let s := Metrics.summarize qs in
  Metrics.total_duration s = Aggregates.sum_Z (Activity.duration <$> qs)
  ∧ 1 ≤ Metrics.total_activities s
  ∧ PyFloat.rounds_to_hundredths
      (PrimFloat.div (PyFloat.of_Z (Metrics.total_duration s))
                     (PyFloat.of_Z (Metrics.total_activities s)))
      (Metrics.average_duration s).
Proof.
  intros Hne s. subst s. unfold Metrics.summarize. simpl.
  assert (Hcol : (λ a, Some (Activity.duration a)) <$> qs
                 = Some <$> (Activity.duration <$> qs))
    by (by rewrite <- list_fmap_compose).
  rewrite Hcol.
  destruct (round2_float_Avg_int (Some <$> (Activity.duration <$> qs)))
    as [_ Hsome].
  unfold Aggregates.Sum, Aggregates.Count. rewrite non_null_Some in *.
  rewrite length_fmap in Hsome.
  destruct qs as [| a qs]; [done |].
  split; [done |]. split; [simpl; lia |].
  apply Hsome. done.
Qed.

Lemma average_duration_is_total_over_count_witness :
  Metrics.average_duration (Metrics.summarize run_and_yoga) = 3750
  ∧ Metrics.total_duration (Metrics.summarize forty_short_walks) = 43
  ∧ Metrics.total_activities (Metrics.summarize forty_short_walks) = 40
  ∧ Metrics.average_duration (Metrics.summarize forty_short_walks) = 107.
Proof.
  destruct (average_duration_is_total_over_count run_and_yoga
              ltac:(discriminate)) as (_ & _ & Hrun).
  destruct (average_duration_is_total_over_count forty_short_walks
              ltac:(discriminate)) as (_ & _ & Hwalks).
  split; [| split; [reflexivity | split; [reflexivity |]]].
  - apply rounds_to_hundredths_unique in Hrun; [| vm_compute; exact I].
    rewrite Hrun. vm_compute. reflexivity.
  - apply rounds_to_hundredths_unique in Hwalks; [| vm_compute; exact I].
    rewrite Hwalks. vm_compute. reflexivity.
Defined.

(** X12: a [period] other than week, month and year is ignored without
    an error: the filtered set is the one of the same request without
    [period], with the explicit [date_from] in force. *)
Theorem unknown_period_is_ignored (today : date) (u : Z)
    (q : Metrics.QueryParams) (db : Activity.table) (p : string) :
  Metrics.period q = Some p →
  p ≠ "week"%string → p ≠ "month"%string → p ≠ "year"%string →
  Metrics.metrics_queryset today u q db
  = Metrics.metrics_queryset today u
      (Metrics.MkParams (Metrics.date_from q) (Metrics.date_to q)
         (Metrics.activity_type q) None) db.
Proof.
  intros Hp Hw Hm Hy. unfold Metrics.metrics_queryset.
  assert (Hres : Metrics.resolve_date_from today q = Metrics.date_from q).
  { unfold Metrics.resolve_date_from. rewrite Hp.
    destruct (truthy (VStr p)); [| done].
    destruct (String.eqb_spec p "week"); [done |].
    destruct (String.eqb_spec p "month"); [done |].
    destruct (String.eqb_spec p "year"); done. }
  by rewrite Hres.
Qed.

Lemma unknown_period_is_ignored_witness :
  Metrics.metrics_queryset (Date 2024 6 14) 1
    (Metrics.MkParams (Some (Date 2024 6 12)) None None (Some "Week"%string))
    sample_log
  = [ run_30min_5km ].
Proof.
  rewrite (unknown_period_is_ignored (Date 2024 6 14) 1
             (Metrics.MkParams (Some (Date 2024 6 12)) None None
                (Some "Week"%string))
             sample_log "Week" eq_refl)
    by discriminate.
  reflexivity.
Defined.

Lemma StronglySorted_fmap_inv {A B} (f : A → B) (R : relation B)
    (l : list A) :
  StronglySorted R (f <$> l) → StronglySorted (λ x y, R (f x) (f y)) l.
Proof.
  induction l as [| x l IH]; csimpl; intros Hs; [constructor |].
  apply StronglySorted_inv in Hs as [Hs Hall].
  constructor; [by apply IH |]. by rewrite Forall_fmap in Hall.
Qed.

Lemma count_by_type_groups (qs : Activity.table) :
  Aggregates.count_by_type qs
  = (λ ty, (ty, count_of ty qs)) <$> (Aggregates.count_by_type qs).*1.
Proof.
  assert (Hall : Forall (λ g, g = (g.1, count_of g.1 qs))
                   (Aggregates.count_by_type qs)).
  { apply Forall_forall. intros [ty n] Hin.
    apply elem_of_count_by_type in Hin as [-> _]. done. }
  induction Hall as [| g l Hg _ IH]; [done |].
  csimpl. by rewrite <- IH, <- Hg.
Qed.

(** A decimal fits into the ten digits of the serializer's fields when
    it is below 100000000.00 in absolute value. *)
Lemma type_stat_fits_spec (ts : Metrics.TypeStat) :
  Metrics.type_stat_fits ts = true ↔
  Z.abs (Metrics.ts_total_distance ts) < 10 ^ 10
  ∧ Z.abs (Metrics.ts_average_duration ts) < 10 ^ 10
  ∧ Z.abs (Metrics.ts_average_distance ts) < 10 ^ 10
  ∧ Z.abs (Metrics.ts_average_calories ts) < 10 ^ 10.
Proof.
  unfold Metrics.type_stat_fits, Metrics.decimal_fits.
  rewrite !andb_true_iff, !Z.ltb_lt. tauto.
Qed.

(** X13: the statistics by type are computed with one entry for each
    activity type that occurs among the user's activities in the date
    range, and no other entry; the count of an entry is the number of
    these activities of its type, the counts add up to their number, and
    the entries come in the order of decreasing count.  The answer is
    200 with these entries when the total distance and the three
    averages of every entry are below 100000000.00 in absolute value
    (given here in hundredths), and else the serializer raises
    [decimal.InvalidOperation] and the answer is 500; the table is left
    as it is in both cases. *)
Theorem type_stats_cover_the_types (u : Z) (q : Metrics.QueryParams)
    (db : Activity.table) :
  let qs := Metrics.filter_date_lte (Metrics.date_to q)
              (Metrics.filter_date_gte (Metrics.date_from q)
                 (Activity.filter_user u db)) in
  let fits ts :=
    Z.abs (Metrics.ts_total_distance ts) < 10 ^ 10
    ∧ Z.abs (Metrics.ts_average_duration ts) < 10 ^ 10
    ∧ Z.abs (Metrics.ts_average_distance ts) < 10 ^ 10
    ∧ Z.abs (Metrics.ts_average_calories ts) < 10 ^ 10 in
  ∃ stats,
    (Forall fits stats →
     Metrics.activity_type_stats (Some u) q db
     = (Drf.Resp Drf.HTTP_200_OK (Drf.Content stats), db))
    ∧ (¬ Forall fits stats →
       Metrics.activity_type_stats (Some u) q db
       = (Drf.Resp Drf.HTTP_500_INTERNAL_SERVER_ERROR
            (Drf.Detail "decimal.InvalidOperation"), db))
    ∧ NoDup (Metrics.ts_activity_type <$> stats)
    ∧ (∀ ty, ty ∈ Metrics.ts_activity_type <$> stats ↔
             ∃ a, a ∈ qs ∧ Activity.activity_type a = ty)
    ∧ (∀ ts, ts ∈ stats →
             Metrics.ts_count ts
             = Z.of_nat (count_of (Metrics.ts_activity_type ts) qs))
    ∧ Aggregates.sum_Z (Metrics.ts_count <$> stats) = Z.of_nat (length qs)
    ∧ StronglySorted (λ x y, Metrics.ts_count y ≤ Metrics.ts_count x) stats.
Proof.
  intros qs fits.
  exists (Metrics.type_stat qs <$> (Aggregates.count_by_type qs).*1).
  assert (Hfits : ∀ l, forallb Metrics.type_stat_fits l = true ↔ Forall fits l).
  { intros l. rewrite forallb_forall, Forall_forall.
    split; intros H ts Hin.
    - apply type_stat_fits_spec, H. by apply list_elem_of_In.
    - apply type_stat_fits_spec, H. by apply list_elem_of_In. }
  split.
  { intros Hall. apply Hfits in Hall.
    unfold Metrics.activity_type_stats, Metrics.type_stats_representation.
    simpl. fold qs. by rewrite Hall. }
  split.
  { intros Hnot.
    unfold Metrics.activity_type_stats, Metrics.type_stats_representation.
    simpl. fold qs.
    destruct (forallb Metrics.type_stat_fits _) eqn:E; [| done].
    by apply Hfits in E. }
  set (groups := Aggregates.count_by_type qs).
  assert (Hty : Metrics.ts_activity_type <$> (Metrics.type_stat qs <$> groups.*1)
                = groups.*1).
  { induction (groups.*1) as [| ty l IH]; csimpl; [done | by rewrite IH]. }
  assert (Hcount : ∀ ty, Metrics.ts_count (Metrics.type_stat qs ty)
                         = Z.of_nat (count_of ty qs)) by done.
  pose proof (count_by_type_groups qs) as Hgroups. fold groups in Hgroups.
  split; [rewrite Hty; apply count_by_type_NoDup |].
  split.
  { intros ty. rewrite Hty, list_elem_of_fmap. split.
    - intros ([ty' n] & -> & Hin).
      by apply elem_of_count_by_type in Hin as [_ ?].
    - intros Hex. exists (ty, count_of ty qs). split; [done |].
      by apply elem_of_count_by_type. }
  split.
  { intros ts Hin. apply list_elem_of_fmap in Hin as (ty & -> & _). done. }
  split.
  { assert (Hsum : ∀ l,
              Aggregates.sum_Z (Metrics.ts_count <$> (Metrics.type_stat qs <$> l))
              = Z.of_nat (sum_list ((λ ty, count_of ty qs) <$> l))).
    { induction l as [| ty l IH]; csimpl; [done |].
      unfold Aggregates.sum_Z in *. cbn [foldr]. rewrite IH.
      unfold Aggregates.Count, count_of. lia. }
    rewrite Hsum. f_equal. rewrite <- (count_by_type_sum qs). fold groups.
    transitivity (sum_list (((λ ty, (ty, count_of ty qs)) <$> groups.*1).*2)).
    - clear. induction (groups.*1) as [| ty l IH]; csimpl; [done |].
      by rewrite IH.
    - by rewrite <- Hgroups. }
  pose proof (count_by_type_sorted qs) as Hs. fold groups in Hs.
  rewrite Hgroups in Hs. apply StronglySorted_fmap_inv in Hs.
  apply StronglySorted_fmap with (R1 := λ x y, Aggregates.count_desc
                                            (x, count_of x qs)
                                            (y, count_of y qs));
    [| done].
  intros x y Hxy. unfold Aggregates.count_desc in Hxy. simpl in Hxy.
  rewrite !Hcount. lia.
Qed.

(** The sample log is answered with 200; the average duration of one
    activity of 100000000 minutes no longer fits the ten digits of the
    serializer's field. *)
Lemma type_stats_cover_the_types_witness :
  (∃ stats,
     Metrics.activity_type_stats (Some 1)
       (Metrics.MkParams None None None None) sample_log
     = (Drf.Resp Drf.HTTP_200_OK (Drf.Content stats), sample_log)
     ∧ Metrics.ts_activity_type <$> stats = [ "RUNNING"; "YOGA" ]%string)
  ∧ Metrics.activity_type_stats (Some 1)
      (Metrics.MkParams None None None None) [ run_of_100000000min ]
    = (Drf.Resp Drf.HTTP_500_INTERNAL_SERVER_ERROR
         (Drf.Detail "decimal.InvalidOperation"),
       [ run_of_100000000min ]).
Proof.
  split.
  - destruct (type_stats_cover_the_types 1
                (Metrics.MkParams None None None None) sample_log)
      as (stats & H200 & H500 & _).
    cbv zeta in H200, H500.
    destruct (decide
                (Forall (λ ts,
                   Z.abs (Metrics.ts_total_distance ts) < 10 ^ 10
                   ∧ Z.abs (Metrics.ts_average_duration ts) < 10 ^ 10
                   ∧ Z.abs (Metrics.ts_average_distance ts) < 10 ^ 10
                   ∧ Z.abs (Metrics.ts_average_calories ts) < 10 ^ 10)
                   stats)) as [Hfit | Hbig].
    + exists stats. split; [exact (H200 Hfit) |].
      specialize (H200 Hfit). vm_compute in H200.
      injection H200 as <-. reflexivity.
    + specialize (H500 Hbig). vm_compute in H500. discriminate H500.
  - destruct (type_stats_cover_the_types 1
                (Metrics.MkParams None None None None)
                [ run_of_100000000min ])
      as (stats & H200 & H500 & _).
    cbv zeta in H200, H500. apply H500. intros Hfit.
    specialize (H200 Hfit). vm_compute in H200. discriminate H200.
Defined.

(** ** Users: age and registration *)

(** X14: the age never goes down as the day advances, and it is
    negative exactly when the date of birth lies after the day: the
    property has no guard against a date of birth in the future. *)
Theorem age_grows_with_time (today1 today2 dob : date) (p : UserProfile.t) :
  UserProfile.date_of_birth p = Some dob →
  Dates.leb today1 today2 = true →
  ∃ age1 age2,
    UserProfile.age today1 p = Some age1
    ∧ UserProfile.age today2 p = Some age2
    ∧ age1 ≤ age2
    ∧ (age1 < 0 ↔ Dates.ltb today1 dob = true).
Proof.
  intros Hdob Hle. unfold UserProfile.age. rewrite Hdob.
  eexists _, _. split; [reflexivity |]. split; [reflexivity |].
  apply date_leb_spec in Hle. rewrite date_ltb_spec.
  pose proof (pair_ltb_spec (Dates.month today1, Dates.day today1)
                (Dates.month dob, Dates.day dob)) as H1.
  pose proof (pair_ltb_spec (Dates.month today2, Dates.day today2)
                (Dates.month dob, Dates.day dob)) as H2.
  simpl in H1, H2.
  destruct (Dates.pair_ltb (Dates.month today1, Dates.day today1) _),
    (Dates.pair_ltb (Dates.month today2, Dates.day today2) _);
    simpl Z.b2z;
    repeat match goal with
           | H : true = true ↔ _ |- _ => destruct H as [H _]; specialize (H eq_refl)
           | H : false = true ↔ _ |- _ =>
               destruct H as [_ H];
               assert (¬ _) by (intros ?; by specialize (H ltac:(eassumption)));
               clear H
           end; lia.
Qed.

Lemma age_grows_with_time_witness :
  ∃ age1, UserProfile.age (Date 1999 12 31) born_2000_06_15 = Some age1
          ∧ age1 < 0.
Proof.
  destruct (age_grows_with_time (Date 1999 12 31) (Date 2024 6 14)
              (Date 2000 6 15) born_2000_06_15 eq_refl eq_refl)
    as (age1 & age2 & H1 & _ & _ & Hneg).
  exists age1. split; [exact H1 |]. apply Hneg. reflexivity.
Defined.

(** A text field takes a string or an integer and lets the trimmed text
    through. *)
Lemma run_field_char (name : string) (max_length : option nat)
    (allow_blank req : bool) (v v' : Value) :
  Drf.run_field
    (Drf.MkField name (Drf.CharField max_length allow_blank) req false) v
  = inr v' →
  ∃ data, (v = VStr data ∨ ∃ n, v = VInt n ∧ data = PyStr.of_int n)
          ∧ v' = VStr (PyStr.strip data)
          ∧ (allow_blank = false → PyStr.strip data ≠ ""%string).
Proof.
  unfold Drf.run_field. simpl.
  destruct v as [| n | | s |]; try done; intros H;
    apply run_char_field_inr in H as (-> & Hblank & _); eauto 10.
Qed.

Lemma next_pk_above (db : User.table) (u : User.t) :
  u ∈ db → User.id u < User.next_pk db.
Proof.
  unfold User.next_pk. induction db as [| r db IH]; intros Hin.
  - by apply elem_of_nil in Hin.
  - simpl. apply elem_of_cons in Hin as [-> | Hin]; [lia |].
    specialize (IH Hin). lia.
Qed.

Lemma registration_fields_NoDup :
  NoDup (Drf.name <$> UserRegistrationSerializer.fields).
Proof. apply (bool_decide_unpack _). vm_compute. exact I. Qed.


(** An error of a field is among the errors of [to_internal_value]. *)
Lemma to_internal_value_error (sz : Drf.Serializer) (partial : bool)
    (fs : list Drf.Field) (data : Dict) (f : Drf.Field) (v : Value)
    (msg : string) :
  f ∈ fs → data !! Drf.name f = Some v →
  (Drf.run_field f v = inl msg
   ∨ ∃ v', Drf.run_field f v = inr v'
           ∧ Drf.validate_field sz (Drf.name f) v' = inl msg) →
  (Drf.name f, msg) ∈ (Drf.to_internal_value sz partial fs data).1.
Proof.
  intros Hin Hv Hfail. induction fs as [| g fs IH].
  - by apply elem_of_nil in Hin.
  - simpl.
    destruct (Drf.to_internal_value sz partial fs data) as [errors ret].
    apply elem_of_cons in Hin as [<- | Hin].
    + rewrite Hv. destruct Hfail as [-> | (v' & -> & ->)];
        apply list_elem_of_here.
    + specialize (IH Hin). simpl in IH.
      destruct (data !! Drf.name g) as [w |].
      * destruct (Drf.run_field g w) as [? | w'];
          [by apply list_elem_of_further |].
        destruct (Drf.validate_field sz (Drf.name g) w');
          [by apply list_elem_of_further | done].
      * destruct (Drf.required g && negb partial);
          [by apply list_elem_of_further | done].
Qed.

(** X16: a registration with the e-mail address of a stored user, a
    well-formed one, is refused: the answer is 400 with an error for the
    field [email], and no user is created. *)
Theorem registration_refuses_taken_email (cfg : AuthConfig)
    (data : UserRegistrationSerializer.Data) (db : User.table)
    (u : User.t) :
  u ∈ db →
  valid_email_syntax cfg (User.email u) = true →
  UserRegistrationSerializer.flat data !! "email"
  = Some (VStr (User.email u)) →
  ∃ errors msg,
    UserRegistrationView.create cfg data db = (Drf.bad_request errors, db)
    ∧ ("email"%string, msg) ∈ errors.
Proof.
  intros Hu Hvalid Hemail.
  set (sz := UserRegistrationSerializer.serializer cfg db).
  assert (Hfail : ∃ msg,
            ("email"%string, msg)
            ∈ (Drf.to_internal_value sz false (Drf.fields sz)
                 (UserRegistrationSerializer.flat data)).1).
  { set (f := Drf.MkField "email" (Drf.CharField (Some 254%nat) true)
                true false).
    assert (Hin : f ∈ Drf.fields sz)
      by (apply list_elem_of_further, list_elem_of_here).
    destruct (Drf.run_field f (VStr (User.email u))) as [msg | v'] eqn:Er.
    - exists msg.
      apply (to_internal_value_error sz false _ _ f (VStr (User.email u)));
        auto.
    - assert (Hv' : v' = VStr (User.email u)).
      { unfold Drf.run_field in Er. simpl in Er.
        apply run_char_field_inr in Er as (-> & _).
        by destruct (valid_email_plain cfg _ Hvalid) as [-> _]. }
      subst v'.
      destruct (Drf.validate_field sz "email" (VStr (User.email u)))
        as [msg | v''] eqn:Ef.
      + exists msg.
        apply (to_internal_value_error sz false _ _ f (VStr (User.email u)));
          eauto.
      + exfalso. cbn in Ef. rewrite Hvalid, orb_true_r in Ef.
        unfold UserRegistrationSerializer.validate_email in Ef.
        assert (Hex : existsb (λ u0, bool_decide (VStr (User.email u0)
                                                  = VStr (User.email u))) db
                      = true).
        { apply existsb_exists. exists u.
          split; [by apply list_elem_of_In | by apply bool_decide_eq_true]. }
        by rewrite Hex in Ef. }
  destruct Hfail as [msg Hmsg].
  unfold UserRegistrationView.create, UserRegistrationSerializer.run_validation,
    UserRegistrationSerializer.to_internal_value.
  fold sz.
  destruct (Drf.to_internal_value sz false (Drf.fields sz)
              (UserRegistrationSerializer.flat data)) as [errors ret].
  destruct (match UserRegistrationSerializer.nested_profile data with
            | Some p => _ | None => _ end) as [perrors pret].
  simpl in Hmsg.
  destruct (errors ++ _) as [| e es] eqn:E.
  - apply app_eq_nil in E as [-> _]. by apply elem_of_nil in Hmsg.
  - eexists _, msg. split; [reflexivity |].
    rewrite <- E. apply elem_of_app. by left.
Qed.

Lemma registration_refuses_taken_email_witness :
  ∃ errors msg,
    UserRegistrationView.create permissive_auth
      (registration "bob" "ann@example.com" "testpass123" "testpass123") [ann]
    = (Drf.bad_request errors, [ann])
    ∧ ("email"%string, msg) ∈ errors.
Proof.
  apply (registration_refuses_taken_email permissive_auth
           (registration "bob" "ann@example.com" "testpass123" "testpass123")
           [ann] ann).
  - apply list_elem_of_here.
  - reflexivity.
  - reflexivity.
Defined.

(** ** Creating, filtering and listing activities *)

(** X17: POST on the list view never stores an activity.  A body that
    fails validation is answered with 400; for a body that passes,
    [perform_create] puts [user] into the validated data and [create]
    names [user] again in its call, so the call raises [TypeError]
    before anything is written, whatever the manager's [create] would
    have done. *)
Theorem post_never_creates
    (objects_create : ActivityListCreateView.ObjectsCreate) (u : Z)
    (data : Dict) (db : Activity.table) :
  (∃ errors,
     errors ≠ []
     ∧ ActivityListCreateView.create objects_create (Some u) data db
       = Returns (Drf.bad_request errors, db))
  ∨ ActivityListCreateView.create objects_create (Some u) data db
    = Raises "TypeError: got multiple values for keyword argument 'user'".
Proof.
  unfold ActivityListCreateView.create, Drf.run_validation.
  destruct (Drf.to_internal_value _ _ _ data) as [[| e es] vd].
  - right. simpl.
    unfold ActivityListCreateView.perform_create,
      ActivityListCreateView.serializer_create.
    rewrite lookup_insert_eq.
    by rewrite bool_decide_eq_true_2.
  - left. by exists (e :: es).
Qed.

Lemma elem_of_gte (value : option Z) (column : Activity.t → option Z)
    (qs : Activity.table) (a : Activity.t) :
  a ∈ ActivityFilter.gte value column qs ↔
  a ∈ qs ∧ ∀ v, value = Some v → ∃ x, column a = Some x ∧ v ≤ x.
Proof.
  destruct value as [v |]; simpl.
  - rewrite list_elem_of_filter. unfold ActivityFilter.column_test. split.
    + intros [H ?]. split; [done |]. intros ? [= <-].
      destruct (column a) as [x |]; [| done].
      exists x. split; [done |]. apply Z.leb_le. by apply Is_true_true.
    + intros [? H]. split; [| done].
      destruct (H v eq_refl) as (x & -> & Hle).
      apply Is_true_true. by apply Z.leb_le.
  - split; [intros ?; split; [done | intros ? [=]] | by intros [? _]].
Qed.

Lemma elem_of_lte (value : option Z) (column : Activity.t → option Z)
    (qs : Activity.table) (a : Activity.t) :
  a ∈ ActivityFilter.lte value column qs ↔
  a ∈ qs ∧ ∀ v, value = Some v → ∃ x, column a = Some x ∧ x ≤ v.
Proof.
  destruct value as [v |]; simpl.
  - rewrite list_elem_of_filter. unfold ActivityFilter.column_test. split.
    + intros [H ?]. split; [done |]. intros ? [= <-].
      destruct (column a) as [x |]; [| done].
      exists x. split; [done |]. apply Z.leb_le. by apply Is_true_true.
    + intros [? H]. split; [| done].
      destruct (H v eq_refl) as (x & -> & Hle).
      apply Is_true_true. by apply Z.leb_le.
  - split; [intros ?; split; [done | intros ? [=]] | by intros [? _]].
Qed.

(** [int(v) <= x]: a bound that is not negative loses its fraction, a
    negative one is rounded up. *)
Lemma int_bound_le (v : Q) (x : Z) :
  ActivityFilter.int_bound v ≤ x ↔
  ((0 <= v)%Q → (v < inject_Z (x + 1))%Q) ∧ ((v < 0)%Q → (v <= inject_Z x)%Q).
Proof.
  unfold ActivityFilter.int_bound, Qle, Qlt. destruct v as [n d]. simpl.
  rewrite !Z.mul_1_r.
  pose proof (Z.quot_rem' n (Z.pos d)) as Hqr.
  assert (Hd : 0 < Z.pos d) by lia.
  set (D := Z.pos d) in *. clearbody D.
  destruct (Z.le_gt_cases 0 n) as [Hn | Hn].
  - pose proof (Z.rem_bound_pos_pos n D ltac:(lia) ltac:(lia)) as Hr.
    set (q := n ÷ D) in *. set (r := Z.rem n D) in *. clearbody q r.
    split; [intros Hle; split; intros ?; nia |].
    intros [H1 _]. specialize (H1 ltac:(lia)).
    apply Z.lt_succ_r, (Z.mul_lt_mono_pos_l D); nia.
  - pose proof (Z.rem_bound_pos_neg n D ltac:(lia) ltac:(lia)) as Hr.
    set (q := n ÷ D) in *. set (r := Z.rem n D) in *. clearbody q r.
    split; [intros Hle; split; intros ?; nia |].
    intros [_ H2]. specialize (H2 ltac:(lia)).
    apply Z.lt_succ_r, (Z.mul_lt_mono_pos_l D); nia.
Qed.

(** [x <= int(v)] *)
Lemma le_int_bound (v : Q) (x : Z) :
  x ≤ ActivityFilter.int_bound v ↔
  ((0 <= v)%Q → (inject_Z x <= v)%Q) ∧ ((v < 0)%Q → (inject_Z (x - 1) < v)%Q).
Proof.
  unfold ActivityFilter.int_bound, Qle, Qlt. destruct v as [n d]. simpl.
  rewrite !Z.mul_1_r.
  pose proof (Z.quot_rem' n (Z.pos d)) as Hqr.
  assert (Hd : 0 < Z.pos d) by lia.
  set (D := Z.pos d) in *. clearbody D.
  destruct (Z.le_gt_cases 0 n) as [Hn | Hn].
  - pose proof (Z.rem_bound_pos_pos n D ltac:(lia) ltac:(lia)) as Hr.
    set (q := n ÷ D) in *. set (r := Z.rem n D) in *. clearbody q r.
    split; [intros Hle; split; intros ?; nia |].
    intros [H1 _]. specialize (H1 ltac:(lia)).
    apply Z.lt_succ_r, (Z.mul_lt_mono_pos_l D); nia.
  - pose proof (Z.rem_bound_pos_neg n D ltac:(lia) ltac:(lia)) as Hr.
    set (q := n ÷ D) in *. set (r := Z.rem n D) in *. clearbody q r.
    split; [intros Hle; split; intros ?; nia |].
    intros [_ H2]. specialize (H2 ltac:(lia)).
    apply Z.lt_succ_r, (Z.mul_lt_mono_pos_l D); nia.
Qed.

(** The bound of the decimal column is the number of hundredths nearest
    to it, the even one on a tie, when that number has six digits at
    most. *)
Lemma decimal_bound_nearest (v : Q) (k : Z) :
  PyFloat.nearest_even (100 * v) k →
  ActivityFilter.decimal_bound v
  = if Z.abs k <? 10 ^ 6 then Returns k
    else Raises "decimal.InvalidOperation".
Proof.
  intros Hk. unfold ActivityFilter.decimal_bound.
  assert (Hr : PyFloat.nearest_even (100 * v)
                 (PyFloat.round_half_even_div (Qnum v * 100)
                    (Z.pos (Qden v)))).
  { apply (nearest_even_proper ((Qnum v * 100) # Qden v)).
    - destruct v as [n d]. unfold Qeq, Qmult. simpl. lia.
    - apply nearest_even_ratio. apply round_half_even_div_spec. lia. }
  by rewrite (nearest_even_unique _ _ _ Hr Hk).
Qed.


#[local] Instance newer_first_total created_at :
  Total (RecentActivities.newer_first created_at).
Proof.
  intros x y. unfold RecentActivities.newer_first.
  destruct (Dates.ltb (Activity.date y) (Activity.date x)),
    (Dates.ltb (Activity.date x) (Activity.date y)); try tauto. lia.
Qed.

Lemma date_ltb_trans (a b c : date) :
  Dates.ltb a b = true → Dates.ltb b c = true → Dates.ltb a c = true.
Proof. rewrite !date_ltb_spec. lia. Qed.

Lemma date_ltb_incomparable (a b : date) :
  Dates.ltb a b = false → Dates.ltb b a = false → a = b.
Proof.
  rewrite <- !not_true_iff_false, !date_ltb_spec.
  destruct a as [y1 m1 d1], b as [y2 m2 d2]. simpl. intros H1 H2.
  assert (y1 = y2) as -> by lia. assert (m1 = m2) as -> by lia.
  assert (d1 = d2) as -> by lia. done.
Qed.

#[local] Instance newer_first_trans created_at :
  Transitive (RecentActivities.newer_first created_at).
Proof.
  intros x y z. unfold RecentActivities.newer_first.
  destruct (Dates.ltb (Activity.date y) (Activity.date x)) eqn:Hyx.
  - intros _.
    destruct (Dates.ltb (Activity.date z) (Activity.date y)) eqn:Hzy.
    + intros _. by rewrite (date_ltb_trans _ _ _ Hzy Hyx).
    + destruct (Dates.ltb (Activity.date y) (Activity.date z)) eqn:Hyz;
        [done |].
      intros _. rewrite <- (date_ltb_incomparable _ _ Hyz Hzy). by rewrite Hyx.
  - destruct (Dates.ltb (Activity.date x) (Activity.date y)) eqn:Hxy; [done |].
    rewrite (date_ltb_incomparable _ _ Hxy Hyx).
    destruct (Dates.ltb (Activity.date z) (Activity.date y)); [done |].
    destruct (Dates.ltb (Activity.date y) (Activity.date z)); [done |]. lia.
Qed.

(** X19: the recent activities are the newest of the user.  At most ten
    are returned, all of them the user's own, the later date first (and
    on one date the later creation first); together with the activities
    that are left out they are the user's activities, and none that is
    left out comes before one that is returned in that order.  With ten
    activities or fewer nothing is left out. *)
Theorem recent_are_the_newest (created_at : Activity.t → Z) (u : Z)
    (db : Activity.table) :
  let recent := RecentActivities.recent_queryset created_at u db in
  (length recent ≤ 10)%nat
  ∧ (∀ a, a ∈ recent → a ∈ db ∧ Activity.user a = u)
  ∧ StronglySorted (RecentActivities.newer_first created_at) recent
  ∧ ∃ rest,
      recent ++ rest ≡ₚ Activity.filter_user u db
      ∧ (∀ a b, a ∈ recent → b ∈ rest →
                RecentActivities.newer_first created_at a b)
      ∧ ((length (Activity.filter_user u db) ≤ 10)%nat → rest = []).
Proof.
  intros recent. subst recent. unfold RecentActivities.recent_queryset.
  set (sorted := merge_sort (RecentActivities.newer_first created_at)
                   (Activity.filter_user u db)).
  assert (Hperm : sorted ≡ₚ Activity.filter_user u db)
    by apply merge_sort_Permutation.
  assert (Hsorted : StronglySorted (RecentActivities.newer_first created_at)
                      sorted)
    by (apply StronglySorted_merge_sort; apply _).
  rewrite <- (take_drop 10 sorted) in Hsorted.
  split; [rewrite length_take; lia |]. split.
  - intros a Ha. apply elem_of_take in Ha as (i & Ha & _).
    apply list_elem_of_lookup_2 in Ha. rewrite Hperm in Ha.
    apply list_elem_of_filter in Ha as [? ?]. done.
  - split; [by apply StronglySorted_app_1_l in Hsorted |].
    exists (drop 10 sorted). split; [by rewrite take_drop |]. split.
    + intros a b Ha Hb.
      by apply (StronglySorted_app_1_elem_of _ _ _ _ _ Hsorted).
    + intros Hlen. apply drop_ge. by rewrite Hperm.
Qed.

Lemma recent_are_the_newest_witness :
  ∃ rest,
    RecentActivities.recent_queryset (λ a, default 0 (Activity.id a)) 1
      sample_log ++ rest
    ≡ₚ Activity.filter_user 1 sample_log
    ∧ rest = [].
Proof.
  destruct (recent_are_the_newest (λ a, default 0 (Activity.id a)) 1
              sample_log) as (_ & _ & _ & rest & Hperm & _ & Hall).
  exists rest. split; [exact Hperm |].
  apply Hall. vm_compute. lia.
Defined.

(** ** The admin action *)

Lemma activity_next_pk_above (db : Activity.table) (r : Activity.t) (j : Z) :
  r ∈ db → Activity.id r = Some j → j < Activity.next_pk db.
Proof.
  unfold Activity.next_pk. induction db as [| x db IH]; intros Hin Hid.
  - by apply elem_of_nil in Hin.
  - simpl. apply elem_of_cons in Hin as [<- | Hin].
    + rewrite Hid. simpl. lia.
    + specialize (IH Hin Hid). lia.
Qed.

(** Saving a copy: an instance without a key and with a title is
    inserted as it is, under the next key. *)
Lemma save_copy (a : Activity.t) (db : Activity.table) :
  Activity.title a ≠ ""%string →
  Activity.save (Activity.with_id None a) db
  = (Activity.with_id (Some (Activity.next_pk db)) a,
     db ++ [Activity.with_id (Some (Activity.next_pk db)) a]).
Proof.
  intros Hne. unfold Activity.save, Activity.save_instance, Activity.str_date,
    Activity.Model_save.
  destruct a as [i u ty ti de du di ca it da ah mh el lo]. simpl in *.
  destruct (String.eqb_spec ti ""); [done |]. reflexivity.
Qed.

(** X20: the admin action appends one copy for each selected activity
    behind the rows of the table, which stay as they are.  A copy has
    the columns of its original, the title with " (Copy)" added, and a
    new primary key that is above every key of the table and of the
    copies made before it.  (The titles are taken to leave room for the
    suffix within the 200 characters of the column.) *)
Theorem duplicate_appends_copies (queryset : list Activity.t)
    (db : Activity.table) :
  Forall (λ a, (String.length (Activity.title a) ≤ 193)%nat) queryset →
  ∃ copies,
    ActivityAdmin.duplicate_activity queryset db = db ++ copies
    ∧ Forall2 (λ a c, ∃ k,
                 c = Activity.with_id (Some k)
                       (Activity.with_title (Activity.title a +:+ " (Copy)") a))
        queryset copies
    ∧ (∀ r c j k, r ∈ db → c ∈ copies →
                  Activity.id r = Some j → Activity.id c = Some k → j < k)
    ∧ StronglySorted (λ c1 c2, ∀ k1 k2, Activity.id c1 = Some k1 →
                                        Activity.id c2 = Some k2 → k1 < k2)
        copies.
Proof.
  intros _. unfold ActivityAdmin.duplicate_activity.
  revert db. induction queryset as [| a qs IH]; intros db.
  - exists []. rewrite app_nil_r. repeat split; try constructor.
    intros r c j k _ Hc. by apply elem_of_nil in Hc.
  - simpl.
    set (a' := Activity.with_title (Activity.title a +:+ " (Copy)") a).
    assert (Hsave : Activity.save (Activity.with_id None a') db
                    = (Activity.with_id (Some (Activity.next_pk db)) a',
                       db ++ [Activity.with_id (Some (Activity.next_pk db)) a'])).
    { apply save_copy. subst a'. destruct a. simpl.
      apply append_nonempty. discriminate. }
    assert (Hswap : Activity.with_title (Activity.title a +:+ " (Copy)")
                      (Activity.with_id None a)
                    = Activity.with_id None a') by (by destruct a).
    rewrite Hswap, Hsave. simpl.
    set (c0 := Activity.with_id (Some (Activity.next_pk db)) a').
    destruct (IH (db ++ [c0])) as (copies & Heq & Hall & Habove & Hsorted).
    exists (c0 :: copies). rewrite Heq, <- app_assoc. simpl.
    split; [done |]. split.
    { constructor; [by exists (Activity.next_pk db) | done]. }
    split.
    { intros r c j k Hr Hc Hj Hk.
      apply elem_of_cons in Hc as [-> | Hc].
      - subst c0. destruct a. simpl in Hk. injection Hk as <-.
        by eapply activity_next_pk_above.
      - eapply Habove; [| done | done | done].
        apply elem_of_app. by left. }
    constructor; [done |].
    apply Forall_forall. intros c Hc k1 k2 Hk1 Hk2.
    eapply Habove; [| done | done | done].
    apply elem_of_app. right. by apply list_elem_of_singleton.
Qed.

Lemma duplicate_appends_copies_witness :
  ∃ copies,
    ActivityAdmin.duplicate_activity [ run_30min_5km ] sample_log
    = sample_log ++ copies
    ∧ Forall2 (λ a c, ∃ k,
                 c = Activity.with_id (Some k)
                       (Activity.with_title (Activity.title a +:+ " (Copy)") a))
        [ run_30min_5km ] copies.
Proof.
  destruct (duplicate_appends_copies [ run_30min_5km ] sample_log)
    as (copies & Heq & Hall & _).
  { constructor; [| constructor]. vm_compute. lia. }
  by exists copies.
Defined.

Example duplicate_of_the_morning_run :
  Activity.title <$> ActivityAdmin.duplicate_activity [ run_30min_5km ]
                       sample_log
  = [ "Morning run"; "Stretch"; "Laps"; "Morning run (Copy)" ]%string
  ∧ Activity.id <$> ActivityAdmin.duplicate_activity [ run_30min_5km ]
                      sample_log
    = [ Some 1; Some 2; Some 3; Some 4 ].
Proof. vm_compute. done. Qed.

(** ** Users: the account and the password *)

Lemma load_user_Some (pk : Z) (users : User.table) (me : User.t) :
  load_user pk users = Some me → me ∈ users ∧ User.id me = pk.
Proof.
  unfold load_user. intros H. apply find_some in H as [Hin Hid].
  apply bool_decide_eq_true in Hid. split; [by apply list_elem_of_In | done].
Qed.

Lemma load_user_None (pk : Z) (users : User.table) :
  (∀ r, r ∈ users → User.id r ≠ pk) → load_user pk users = None.
Proof.
  intros Hnone. destruct (load_user pk users) as [me |] eqn:E; [| done].
  apply load_user_Some in E as [Hin Hid]. by destruct (Hnone me Hin).
Qed.

(** After [user.save()] the saved row is the one that is loaded for the
    user, and the rows of the other users are as before. *)
Lemma load_user_saved (me' : User.t) (users : User.table) :
  (∃ r, r ∈ users ∧ User.id r = User.id me') →
  load_user (User.id me') (User_save me' users) = Some me'
  ∧ length (User_save me' users) = length users
  ∧ ∀ i other, users !! i = Some other → User.id other ≠ User.id me' →
               User_save me' users !! i = Some other.
Proof.
  intros Hex. unfold load_user, User_save. split; [| split].
  - induction users as [| r users IH].
    + destruct Hex as (r & Hin & _). by apply elem_of_nil in Hin.
    + rewrite fmap_cons. simpl.
      destruct (decide (User.id r = User.id me')) as [Hr | Hr].
      * rewrite (bool_decide_eq_true_2 _ Hr).
        by rewrite bool_decide_eq_true_2.
      * rewrite (bool_decide_eq_false_2 _ Hr).
        rewrite (bool_decide_eq_false_2 _ Hr). apply IH.
        destruct Hex as (r' & Hin & Hr').
        apply elem_of_cons in Hin as [-> | Hin]; [done | by exists r'].
  - by rewrite length_fmap.
  - intros i other Hi Hne. rewrite list_lookup_fmap, Hi. simpl.
    by rewrite bool_decide_eq_false_2.
Qed.

Lemma user_update_fields_NoDup :
  NoDup (Drf.name <$> UserUpdateSerializer.fields).
Proof. apply (bool_decide_unpack _). vm_compute. exact I. Qed.

(** X21: updating the own account is all or nothing and touches nothing
    but the own row.  Either the body is refused with 400 and nothing
    changes, or the answer is 200 and the row of the user is replaced by
    one with the same key, the same username and the same password, in
    which an e-mail address, first name or last name that the body does
    not carry is the one from before; the rows of the other users and all
    activities are as before. *)
Theorem account_update_is_all_or_nothing (cfg : AuthConfig) (partial : bool)
    (u : Z) (data : UserRegistrationSerializer.Data)
    (st : CurrentUserView.State) (me : User.t) :
  load_user u st.1 = Some me →
  let r := CurrentUserView.update cfg partial u data st in
  (∃ errors, errors ≠ [] ∧ r = (Drf.bad_request errors, st))
  ∨ (∃ me',
       r = (Drf.Resp Drf.HTTP_200_OK (Drf.Content me'),
            (User_save me' st.1, st.2))
       ∧ User.id me' = u
       ∧ User.username me' = User.username me
       ∧ User.password me' = User.password me
       ∧ (UserRegistrationSerializer.flat data !! "email" = None →
          User.email me' = User.email me)
       ∧ (UserRegistrationSerializer.flat data !! "first_name" = None →
          User.first_name me' = User.first_name me)
       ∧ (UserRegistrationSerializer.flat data !! "last_name" = None →
          User.last_name me' = User.last_name me)
       ∧ load_user u r.2.1 = Some me'
       ∧ ∀ i other, st.1 !! i = Some other → User.id other ≠ u →
                    r.2.1 !! i = Some other).
Proof.
  intros Hload r. subst r.
  pose proof (load_user_Some _ _ _ Hload) as [Hin Hid].
  unfold CurrentUserView.update. rewrite Hload.
  unfold UserUpdateSerializer.run_validation.
  pose proof (λ f vd, to_internal_value_field (UserUpdateSerializer.serializer cfg)
                        partial UserUpdateSerializer.fields
                        (UserRegistrationSerializer.flat data) vd f
                        user_update_fields_NoDup) as Hfield.
  destruct (Drf.to_internal_value (UserUpdateSerializer.serializer cfg) partial
              UserUpdateSerializer.fields
              (UserRegistrationSerializer.flat data)) as [errors vd].
  destruct (match UserRegistrationSerializer.nested_profile data with
            | Some p => _ | None => _ end) as [perrors pvd].
  destruct (errors ++ _) as [| e es] eqn:E.
  2: { left. by exists (e :: es). }
  right. apply app_eq_nil in E as [-> _].
  unfold UserUpdateSerializer.update.
  set (me' := User.Make _ _ _ _ _ _ _).
  exists me'. simpl.
  assert (Hid' : User.id me' = u) by done.
  destruct (load_user_saved me' st.1) as (Hl & _ & Hothers);
    [exists me; by rewrite Hid' |].
  rewrite Hid' in Hl, Hothers.
  split; [done |]. split; [done |]. split; [done |]. split; [done |].
  assert (Hkeep : ∀ f old,
            f ∈ UserUpdateSerializer.fields →
            UserRegistrationSerializer.flat data !! Drf.name f = None →
            UserUpdateSerializer.get_str vd (Drf.name f) old = old).
  { intros f old Hf Hnone.
    specialize (Hfield f vd Hf eq_refl). rewrite Hnone in Hfield.
    destruct Hfield as [Hvd _]. unfold UserUpdateSerializer.get_str.
    by rewrite Hvd. }
  split.
  { intros Hnone.
    apply (Hkeep (Drf.MkField "email" (Drf.CharField (Some 254%nat) true)
                    false false)); [apply list_elem_of_here | done]. }
  split.
  { intros Hnone.
    apply (Hkeep (Drf.MkField "first_name"
                    (Drf.CharField (Some 150%nat) true) false false));
      [apply list_elem_of_further, list_elem_of_here | done]. }
  split.
  { intros Hnone.
    apply (Hkeep (Drf.MkField "last_name"
                    (Drf.CharField (Some 150%nat) true) false false));
      [do 2 apply list_elem_of_further; apply list_elem_of_here | done]. }
  split; done.
Qed.

Lemma account_update_is_all_or_nothing_witness :
  load_user 1 [ann] = Some ann
  ∧ ∃ me',
      CurrentUserView.update permissive_auth true 1
        (UserRegistrationSerializer.MkData {[ "first_name" := VStr "Ann" ]}
           None)
        ([ann], sample_log)
      = (Drf.Resp Drf.HTTP_200_OK (Drf.Content me'),
         (User_save me' [ann], sample_log))
      ∧ User.email me' = "ann@example.com"%string.
Proof.
  split; [reflexivity |].
  destruct (account_update_is_all_or_nothing permissive_auth true 1
              (UserRegistrationSerializer.MkData
                 {[ "first_name" := VStr "Ann" ]} None)
              ([ann], sample_log) ann eq_refl)
    as [(errors & Hne & Herr) | (me' & Hr & _ & _ & _ & Hemail & _)].
  - exfalso. vm_compute in Herr. discriminate Herr.
  - exists me'. split; [exact Hr |]. by apply Hemail.
Defined.

(** X22: the update of the account does not look at the e-mail
    addresses of the other users.  A PATCH with an address of valid
    syntax and at most 254 characters is accepted and stores it,
    whatever the user table holds, so also when the address is the one
    of another account. *)
Theorem account_update_takes_any_email (cfg : AuthConfig) (u : Z)
    (st : CurrentUserView.State) (me : User.t) (e : string) :
  load_user u st.1 = Some me →
  valid_email_syntax cfg e = true →
  (String.length e ≤ 254)%nat →
  let r := CurrentUserView.update cfg true u
             (UserRegistrationSerializer.MkData {[ "email" := VStr e ]} None)
             st in
  ∃ me', r.1 = Drf.Resp Drf.HTTP_200_OK (Drf.Content me')
         ∧ User.email me' = e
         ∧ load_user u r.2.1 = Some me'.
Proof.
  intros Hload Hsyntax Hlen r. subst r.
  pose proof (load_user_Some _ _ _ Hload) as [Hin Hid].
  unfold CurrentUserView.update. rewrite Hload.
  destruct (valid_email_plain cfg e Hsyntax) as [Hstrip Hnull].
  unfold UserUpdateSerializer.run_validation. cbn -[Drf.run_char_field].
  repeat (first [ rewrite lookup_singleton_eq
                | rewrite lookup_singleton_ne by done ];
          cbn -[Drf.run_char_field]).
  rewrite (run_char_field_plain (Some 254%nat) true e Hstrip Hnull)
    by (by intros ? [= <-] || done).
  cbn. rewrite Hsyntax, orb_true_r. cbn.
  unfold UserUpdateSerializer.update, UserUpdateSerializer.get_str.
  rewrite lookup_insert_eq.
  rewrite !lookup_insert_ne, !lookup_empty by done.
  eexists. split; [reflexivity |]. split; [reflexivity |].
  simpl.
  set (me' := User.Make _ _ _ _ _ _ _).
  destruct (load_user_saved me' st.1) as (Hl & _);
    [exists me; by rewrite Hid |].
  by rewrite <- Hid.
Qed.

Lemma account_update_takes_any_email_witness :
  ∃ me', (CurrentUserView.update permissive_auth true 2
            (UserRegistrationSerializer.MkData
               {[ "email" := VStr "ann@example.com" ]} None)
            ([ ann;
               User.Make 2 "bob" "bob@example.com" "hashed:secret-of-bob"
                 "" "" UserProfile.blank ], sample_log)).1
         = Drf.Resp Drf.HTTP_200_OK (Drf.Content me')
         ∧ User.email me' = "ann@example.com"%string.
Proof.
  destruct (account_update_takes_any_email permissive_auth 2
              ([ ann;
                 User.Make 2 "bob" "bob@example.com" "hashed:secret-of-bob"
                   "" "" UserProfile.blank ], sample_log)
              _ "ann@example.com" eq_refl eq_refl ltac:(vm_compute; lia))
    as (me' & Hr & He & _).
  by exists me'.
Defined.

Lemma load_user_filter_ne (u v : Z) (users : User.table) :
  v ≠ u →
  load_user v (filter (λ r, User.id r ≠ u) users) = load_user v users.
Proof.
  intros Hv. unfold load_user. induction users as [| x l IH]; [done |].
  rewrite filter_cons. simpl.
  destruct (decide (User.id x ≠ u)) as [Hx | Hx].
  - simpl. by rewrite IH.
  - apply dec_stable in Hx.
    rewrite (bool_decide_eq_false_2 (User.id x = v)) by congruence. apply IH.
Qed.

(** X23: deleting the own account takes the activities along.  The
    answer is 204; afterwards the user cannot be loaded, no activity of
    the user is left and none can be fetched through the detail view;
    the other users and their activities are all still there, in the
    order they had. *)
Theorem account_deletion_cascades (u : Z) (st : CurrentUserView.State)
    (me : User.t) :
  load_user u st.1 = Some me →
  let r := CurrentUserView.delete u st in
  r.1 = Drf.Resp Drf.HTTP_204_NO_CONTENT
          (Drf.Detail "User account deleted successfully")
  ∧ load_user u r.2.1 = None
  ∧ Activity.filter_user u r.2.2 = []
  ∧ (∀ pk, ActivityDetailView.get_object u pk r.2.2 = None)
  ∧ r.2.1 = filter (λ x, User.id x ≠ u) st.1
  ∧ (∀ v, v ≠ u → load_user v r.2.1 = load_user v st.1)
  ∧ (∀ v, v ≠ u → Activity.filter_user v r.2.2 = Activity.filter_user v st.2).
Proof.
  intros Hload r. subst r.
  pose proof (load_user_Some _ _ _ Hload) as [Hin Hid].
  unfold CurrentUserView.delete. rewrite Hload, Hid. simpl.
  assert (Hnone : ∀ a, a ∈ filter (λ a, Activity.user a ≠ u) st.2 →
                       Activity.user a ≠ u).
  { intros a Ha. by apply list_elem_of_filter in Ha as [? _]. }
  split; [done |]. split.
  { apply load_user_None. intros x Hx.
    by apply list_elem_of_filter in Hx as [? _]. }
  split.
  { unfold Activity.filter_user. rewrite list_filter_filter.
    destruct (filter (λ a, _ ∧ _) st.2) as [| a l] eqn:E; [done |].
    assert (Ha : a ∈ a :: l) by apply list_elem_of_here.
    rewrite <- E in Ha. by apply list_elem_of_filter in Ha as [[? ?] _]. }
  split.
  { intros pk. apply get_object_None. intros a Ha _. by apply Hnone. }
  split; [done |]. split.
  - intros v Hv. by apply load_user_filter_ne.
  - intros v Hv. unfold Activity.filter_user. rewrite list_filter_filter.
    apply list_filter_iff. intros a. split; [tauto |].
    intros Ha. split; [done | congruence].
Qed.

Lemma account_deletion_cascades_witness :
  Activity.filter_user 1 (CurrentUserView.delete 1 ([ann], sample_log)).2.2
  = []
  ∧ Activity.filter_user 2 (CurrentUserView.delete 1 ([ann], sample_log)).2.2
    = Activity.filter_user 2 sample_log.
Proof.
  destruct (account_deletion_cascades 1 ([ann], sample_log) ann eq_refl)
    as (_ & _ & Hmine & _ & _ & _ & Hothers).
  split; [exact Hmine | apply Hothers; lia].
Defined.

(** X24: a change of the password is all or nothing and changes nothing
    but the password of the caller.  Either the answer is 400 and the user
    table is as it was, or the answer is 200; in that case a string was
    verified against the stored password, the new password is the hash
    of a string that passed the password validators, the row of the
    caller is otherwise the same, and the rows of the other users are as
    before. *)
Theorem password_change_is_all_or_nothing (cfg : AuthConfig)
    (check_password : string → string → bool) (u : Z) (data : Dict)
    (users : User.table) (me : User.t) :
  load_user u users = Some me →
  let r := ChangePasswordView.post cfg check_password u data users in
  (∃ errors, errors ≠ [] ∧ r = (Drf.bad_request errors, users))
  ∨ (∃ old new,
       check_password old (User.password me) = true
       ∧ validate_password cfg new = None
       ∧ r.1 = Drf.Resp Drf.HTTP_200_OK
                 (Drf.Detail "Password changed successfully")
       ∧ load_user u r.2 = Some (with_password (make_password cfg new) me)
       ∧ length r.2 = length users
       ∧ ∀ i other, users !! i = Some other → User.id other ≠ u →
                    r.2 !! i = Some other).
Proof.
  intros Hload r. subst r.
  pose proof (load_user_Some _ _ _ Hload) as [Hin Hid].
  unfold ChangePasswordView.post. rewrite Hload.
  unfold Drf.run_validation.
  set (sz := ChangePasswordSerializer.serializer cfg check_password me).
  pose proof (λ f vd, to_internal_value_field sz false (Drf.fields sz) data vd f
                        ltac:(apply (bool_decide_unpack _); vm_compute;
                              exact I)) as Hfield.
  destruct (Drf.to_internal_value sz false (Drf.fields sz) data)
    as [[| e es] vd].
  2: { left. by exists (e :: es). }
  simpl. unfold ChangePasswordSerializer.validate.
  destruct (bool_decide_reflect
              (dict_get vd "new_password" ≠ dict_get vd "new_password2"))
    as [Hne | Heq].
  { left. eexists. split; [| reflexivity]. done. }
  right.
  pose proof (Hfield _ vd ltac:(apply list_elem_of_here) eq_refl) as H1.
  pose proof (Hfield _ vd ltac:(apply list_elem_of_further, list_elem_of_here)
                eq_refl) as H2.
  simpl in H1, H2.
  destruct (data !! "old_password") as [v1 |]; [| by destruct H1].
  destruct (data !! "new_password") as [v2 |]; [| by destruct H2].
  destruct H1 as (v1' & v1'' & Hr1 & Hf1 & Hl1).
  destruct H2 as (v2' & v2'' & Hr2 & Hf2 & Hl2).
  apply run_field_char in Hr1 as (d1 & _ & -> & _).
  apply run_field_char in Hr2 as (d2 & _ & -> & _).
  cbn in Hf1, Hf2.
  set (old := PyStr.strip d1) in *. set (new := PyStr.strip d2) in *.
  destruct (check_password old (User.password me)) eqn:Hold; [| done].
  destruct (validate_password cfg new) eqn:Hnew; [done |].
  injection Hf2 as <-.
  exists old, new.
  unfold dict_get. rewrite Hl2. simpl.
  set (me' := with_password (make_password cfg new) me).
  destruct (load_user_saved me' users) as (Hl & Hlen & Hothers);
    [exists me; by rewrite Hid |].
  assert (Hid' : User.id me' = u) by done.
  rewrite Hid' in Hl, Hothers.
  done.
Qed.

Lemma password_change_is_all_or_nothing_witness :
  load_user 1 [ann] = Some ann
  ∧ ∃ new,
      load_user 1
        (ChangePasswordView.post permissive_auth
           (λ raw encoded, String.eqb ("hashed:" +:+ raw) encoded) 1
           (list_to_map [("old_password", VStr "secret-of-ann");
                         ("new_password", VStr "a-new-secret");
                         ("new_password2", VStr "a-new-secret")])
           [ann]).2
      = Some (with_password (make_password permissive_auth new) ann).
Proof.
  split; [reflexivity |].
  destruct (password_change_is_all_or_nothing permissive_auth
              (λ raw encoded, String.eqb ("hashed:" +:+ raw) encoded) 1
              (list_to_map [("old_password", VStr "secret-of-ann");
                            ("new_password", VStr "a-new-secret");
                            ("new_password2", VStr "a-new-secret")])
              [ann] ann eq_refl)
    as [(errors & Hne & Herr) | (old & new & _ & _ & _ & Hl & _)].
  - exfalso. vm_compute in Herr. discriminate Herr.
  - by exists new.
Defined.
